(** * Septahadif/trading: the decision layer around the model call

    A shallow embedding of the two Cloudflare-worker scripts of the
    repository:

    - [src/unnamed/part_000]: classes [TradingAI], [TelegramService] and
      [TradingWorker] (rate limiter, validator, derived values, prompt
      builder, fallback generator, reply interpreter).  Module [Worker].
    - [src/index.js]: the function-style script (validator, signal filter,
      reply interpreter with a confidence field, result cache).
      Module [Index].

    JavaScript values are embedded as they are at run time: strings are
    sequences of UTF-16 code units, numbers are IEEE-754 binary64 values
    (the [spec_float] of the Standard Library at precision 53), objects are
    association lists.  Exceptions are an explicit error monad.  What the
    scripts get from the engine and from the network (the JSON codec,
    number formatting, Unicode case mapping, the clock, [fetch]) is taken
    as a parameter: a [Runtime] for the built-ins, a [World] for one
    request's I/O. *)

From Stdlib Require Import ZArith NArith List Bool Ascii String Lia.
From Stdlib Require Import Floats.SpecFloat.
Import ListNotations.

Set Implicit Arguments.
Set Warnings "-register-all".
Local Open Scope Z_scope.

(* ===================================================================== *)
(** * JavaScript strings: lists of UTF-16 code units *)
(* ===================================================================== *)

Definition jschar := N.
Definition jsstring := list jschar.

(** Source literals are written as Rocq strings, whose characters are the
    bytes of the UTF-8 encoding; [lit] decodes them into the UTF-16 code
    units the engine holds (a supplementary character becomes a surrogate
    pair). *)
Definition cont (b : N) : N := N.land b 63.

Definition utf16_of_cp (cp : N) : list jschar :=
  if (cp <? 65536)%N then [cp]
  else let c := (cp - 65536)%N in
       [(55296 + N.shiftr c 10)%N; (56320 + N.land c 1023)%N].

Fixpoint utf8_decode (bs : list N) : list jschar :=
  match bs with
  | [] => []
  | b :: r1 =>
      if (b <? 128)%N then b :: utf8_decode r1
      else match r1 with
      | [] => [b]
      | b2 :: r2 =>
          if (b <? 224)%N then
            (N.shiftl (N.land b 31) 6 + cont b2)%N :: utf8_decode r2
          else match r2 with
          | [] => [b; b2]
          | b3 :: r3 =>
              if (b <? 240)%N then
                (N.shiftl (N.land b 15) 12 + N.shiftl (cont b2) 6 + cont b3)%N
                  :: utf8_decode r3
              else match r3 with
              | [] => [b; b2; b3]
              | b4 :: r4 =>
                  utf16_of_cp (N.shiftl (N.land b 7) 18 + N.shiftl (cont b2) 12
                               + N.shiftl (cont b3) 6 + cont b4)%N
                    ++ utf8_decode r4
              end
          end
      end
  end.

Definition lit (s : string) : jsstring :=
  utf8_decode (map N_of_ascii (list_ascii_of_string s)).

(** The double quote, which a Rocq literal cannot hold. *)
Definition dq : jschar := 34%N.
Definition quoted (s : string) : jsstring := dq :: lit s ++ [dq].

Fixpoint str_eqb (s t : jsstring) : bool :=
  match s, t with
  | [], [] => true
  | c :: s', d :: t' => (c =? d)%N && str_eqb s' t'
  | _, _ => false
  end.

(** [s < t] on strings: lexicographic on code units. *)
Fixpoint str_ltb (s t : jsstring) : bool :=
  match s, t with
  | _, [] => false
  | [], _ :: _ => true
  | c :: s', d :: t' =>
      if (c <? d)%N then true
      else if (d <? c)%N then false
      else str_ltb s' t'
  end.

Fixpoint starts_with (p s : jsstring) : bool :=
  match p, s with
  | [], _ => true
  | c :: p', d :: s' => (c =? d)%N && starts_with p' s'
  | _ :: _, [] => false
  end.

(** [Array.prototype.includes] on an array of strings. *)
Definition includes (l : list jsstring) (s : jsstring) : bool :=
  existsb (str_eqb s) l.

(** [s.substring(0, n)]. *)
Definition substring0 (n : nat) (s : jsstring) : jsstring := firstn n s.

(** WhiteSpace and LineTerminator code units, as [String.prototype.trim]
    uses them. *)
Definition is_space (c : jschar) : bool :=
  existsb (N.eqb c)
    [9; 10; 11; 12; 13; 32; 160; 5760; 8232; 8233; 8239; 8287; 12288; 65279]%N
  || ((8192 <=? c) && (c <=? 8202))%N.

Fixpoint trim_start (s : jsstring) : jsstring :=
  match s with
  | c :: s' => if is_space c then trim_start s' else s
  | [] => []
  end.

Definition trim (s : jsstring) : jsstring :=
  rev (trim_start (rev (trim_start s))).

(** [s.replace(/```json|```/g, '')]: scanning from the left, at each
    position the longer alternative is tried first and a match is dropped.
    [skip] counts the code units of a match still to drop. *)
Fixpoint strip_fences_from (skip : nat) (s : jsstring) : jsstring :=
  match s with
  | [] => []
  | c :: r =>
      match skip with
      | S k => strip_fences_from k r
      | O =>
          if starts_with (lit "```json") s then strip_fences_from 6 r
          else if starts_with (lit "```") s then strip_fences_from 2 r
          else c :: strip_fences_from 0 r
      end
  end.

Definition strip_fences (s : jsstring) : jsstring := strip_fences_from 0 s.

(** The character class of [sanitizeForPrompt]: braces, angle brackets,
    square brackets, single quote, double quote, backtick. *)
Definition delimiter_chars : list jschar :=
  lit "{}<>[]'" ++ [dq] ++ lit "`".

Definition is_delimiter (c : jschar) : bool := existsb (N.eqb c) delimiter_chars.

(** [String(text).replace(/[...]/g, '')] for that class. *)
Definition strip_delimiters (s : jsstring) : jsstring :=
  filter (fun c => negb (is_delimiter c)) s.

(** ASCII letters; the other case mappings belong to the [Runtime]. *)
Definition ascii_lower (c : jschar) : jschar :=
  if ((65 <=? c) && (c <=? 90))%N then (c + 32)%N else c.
Definition ascii_upper (c : jschar) : jschar :=
  if ((97 <=? c) && (c <=? 122))%N then (c - 32)%N else c.

(* ===================================================================== *)
(** * JavaScript numbers: IEEE-754 binary64 *)
(* ===================================================================== *)

Definition num := spec_float.

Definition prec : Z := 53.
Definition emax : Z := 1024.

Definition NaN : num := S754_nan.
Definition Infinity : num := S754_infinity false.
Definition num_of_Z (z : Z) : num := binary_normalize prec emax z 0 false.

(** The double nearest to the decimal literal [m]e[e], ties to even. *)
Definition dec (m e : Z) : num :=
  match e with
  | Zneg p =>
      match m with
      | Z0 => S754_zero false
      | _ =>
          let '(q, e', l) :=
            SFdiv_core_binary prec emax (Z.abs m) 0 (Z.pow_pos 10 p) 0 in
          binary_round_aux prec emax (m <? 0) q e' l
      end
  | _ => binary_normalize prec emax (m * 10 ^ e) 0 false
  end.

Definition num_lt : num -> num -> bool := SFltb.
Definition num_le : num -> num -> bool := SFleb.
Definition num_sub : num -> num -> num := SFsub prec emax.
Definition num_add : num -> num -> num := SFadd prec emax.
Definition num_mul : num -> num -> num := SFmul prec emax.
Definition num_div : num -> num -> num := SFdiv prec emax.

Definition is_nan (x : num) : bool :=
  match x with S754_nan => true | _ => false end.

(** [Number.isFinite]. *)
Definition is_finite (x : num) : bool :=
  match x with S754_zero _ | S754_finite _ _ _ => true | _ => false end.

Definition is_zero (x : num) : bool :=
  match x with S754_zero _ => true | _ => false end.

(* ===================================================================== *)
(** * JavaScript values, as [JSON.parse] and property access produce them *)
(* ===================================================================== *)

Inductive jsval :=
| JUndefined
| JNull
| JBool (b : bool)
| JNum (x : num)
| JStr (s : jsstring)
| JArr (l : list jsval)
| JObj (l : list (jsstring * jsval)).

(** What a [throw] carries.  [Error] is the scripts' own [new Error(msg)];
    the others are raised by the engine: [TypeError] for a property of
    [undefined] or [null] and for a call of something that is no function,
    [SyntaxError] by the JSON parser, [FetchFailed] when [fetch] rejects
    (network failure, or the abort fired by the timeout). *)
Inductive exn :=
| Error (message : jsstring)
| TypeError
| SyntaxError
| FetchFailed.

Inductive result (A : Type) :=
| Ok (a : A)
| Throw (e : exn).
Arguments Ok {A} a.
Arguments Throw {A} e.

Definition bind {A B} (r : result A) (k : A -> result B) : result B :=
  match r with
  | Ok a => k a
  | Throw e => Throw e
  end.

(** [try { body } catch (e) { handler }]. *)
Definition try_catch {A} (body : result A) (handler : exn -> result A) : result A :=
  match body with
  | Ok a => Ok a
  | Throw e => handler e
  end.

Declare Scope js_scope.
Delimit Scope js_scope with js.
Notation "x <- c ;; k" := (bind c (fun x => k))
  (at level 61, c at next level, right associativity) : js_scope.
Notation "c ;;; k" := (bind c (fun _ => k))
  (at level 61, right associativity) : js_scope.
Local Open Scope js_scope.

Fixpoint sequence {A} (l : list (result A)) : result (list A) :=
  match l with
  | [] => Ok []
  | r :: l' => a <- r ;; t <- sequence l' ;; Ok (a :: t)
  end.

Definition is_nullish (v : jsval) : bool :=
  match v with JUndefined | JNull => true | _ => false end.

Definition is_number (v : jsval) : bool :=
  match v with JNum _ => true | _ => false end.

Definition is_string (v : jsval) : bool :=
  match v with JStr _ => true | _ => false end.

(** [typeof v === 'object'] on these values: objects, arrays and [null]. *)
Definition typeof_object (v : jsval) : bool :=
  match v with JNull | JArr _ | JObj _ => true | _ => false end.

(** ToBoolean. *)
Definition truthy (v : jsval) : bool :=
  match v with
  | JUndefined | JNull => false
  | JBool b => b
  | JNum x => negb (is_zero x || is_nan x)
  | JStr s => match s with [] => false | _ => true end
  | JArr _ | JObj _ => true
  end.

Fixpoint assoc (k : jsstring) (l : list (jsstring * jsval)) : jsval :=
  match l with
  | [] => JUndefined
  | (k', v) :: l' => if str_eqb k k' then v else assoc k l'
  end.

(** [v.k] and [v[k]] for the property names the scripts use, none of which
    is inherited from a prototype: a [TypeError] on [undefined] and [null],
    the own property of an object, [undefined] everywhere else. *)
Definition get (v : jsval) (k : string) : result jsval :=
  match v with
  | JUndefined | JNull => Throw TypeError
  | JObj l => Ok (assoc (lit k) l)
  | _ => Ok JUndefined
  end.

(** [v?.k]. *)
Definition opt_get (v : jsval) (k : string) : jsval :=
  match v with
  | JObj l => assoc (lit k) l
  | _ => JUndefined
  end.

(** [v?.[0]]. *)
Definition opt_first (v : jsval) : jsval :=
  match v with
  | JArr (x :: _) => x
  | JStr (c :: _) => JStr [c]
  | JObj l => assoc (lit "0") l
  | _ => JUndefined
  end.

Definition obj (l : list (string * jsval)) : jsval :=
  JObj (map (fun kv => (lit (fst kv), snd kv)) l).

(** [a === b] where one side is known to be a string. *)
Definition is_str (v : jsval) (s : jsstring) : bool :=
  match v with JStr t => str_eqb t s | _ => false end.

(** [a || b]. *)
Definition js_or (a b : jsval) : jsval := if truthy a then a else b.

(* ===================================================================== *)
(** * The engine's built-ins *)
(* ===================================================================== *)

(** Built-ins of the host the scripts call and do not define.  Theorems
    hold for every [Runtime]; [node] further down is one that computes. *)
Class Runtime := {
  (** [JSON.parse]; [None] is a thrown [SyntaxError]. *)
  JSON_parse : jsstring -> option jsval;
  (** [JSON.stringify] of a value other than [undefined]. *)
  JSON_stringify : jsval -> jsstring;
  (** Number::toString, [String(x)] of a number. *)
  NumberToString : num -> jsstring;
  (** StringToNumber, [Number(s)]. *)
  StringToNumber : jsstring -> num;
  (** [x.toFixed(digits)]. *)
  toFixed : num -> Z -> jsstring;
  toLowerCase : jsstring -> jsstring;
  toUpperCase : jsstring -> jsstring;
  (** [new Date(t).toUTCString()] and [.toLocaleTimeString()]. *)
  toUTCString : Z -> jsstring;
  toLocaleTimeString : Z -> jsstring;
  (** [e.message] of an exception the engine raised. *)
  engine_message : exn -> jsstring
}.

Section Coercions.
Context {rt : Runtime}.

  (** ToString, as template literals and [String(v)] apply it to a value
      they can coerce; on the others, told apart by [coercible] below,
      the engine throws a TypeError. *)
Fixpoint ToString (v : jsval) : jsstring :=
    match v with
    | JUndefined => lit "undefined"
    | JNull => lit "null"
    | JBool true => lit "true"
    | JBool false => lit "false"
    | JNum x => NumberToString x
    | JStr s => s
    | JArr l =>
        (fix join (l : list jsval) : jsstring :=
           match l with
           | [] => []
           | x :: r =>
               (match x with JUndefined | JNull => [] | _ => ToString x end)
               ++ (match r with [] => [] | _ => lit "," ++ join r end)
           end) l
    | JObj _ => lit "[object Object]"
    end.

  (** ToPrimitive: arrays and plain objects go through [toString], which
      the engine can call on the [coercible] ones. *)
Definition ToPrimitive (v : jsval) : jsval :=
    match v with
    | JArr _ | JObj _ => JStr (ToString v)
    | _ => v
    end.

Definition ToNumber (v : jsval) : num :=
    match ToPrimitive v with
    | JUndefined => NaN
    | JNull => S754_zero false
    | JBool true => num_of_Z 1
    | JBool false => S754_zero false
    | JNum x => x
    | JStr s => StringToNumber s
    | _ => NaN
    end.

  (** IsLessThan of ECMAScript; [None] is its [undefined] (a NaN operand). *)
Definition IsLessThan (a b : jsval) : option bool :=
    match ToPrimitive a, ToPrimitive b with
    | JStr s, JStr t => Some (str_ltb s t)
    | pa, pb =>
        let x := ToNumber pa in
        let y := ToNumber pb in
        if is_nan x || is_nan y then None else Some (num_lt x y)
    end.

  (** [a < b], [a > b], [a <= b], [a >= b]. *)
Definition js_lt (a b : jsval) : bool :=
    match IsLessThan a b with Some true => true | _ => false end.
Definition js_gt (a b : jsval) : bool :=
    match IsLessThan b a with Some true => true | _ => false end.
Definition js_le (a b : jsval) : bool :=
    match IsLessThan b a with Some false => true | _ => false end.
Definition js_ge (a b : jsval) : bool :=
    match IsLessThan a b with Some false => true | _ => false end.

  (** [a - b], [a * b], [a / b]: numeric after ToNumber. *)
Definition js_sub (a b : jsval) : num := num_sub (ToNumber a) (ToNumber b).
Definition js_mul (a b : jsval) : num := num_mul (ToNumber a) (ToNumber b).
Definition js_div (a b : jsval) : num := num_div (ToNumber a) (ToNumber b).

  (** [a + b]: concatenation as soon as one primitive is a string. *)
Definition js_add (a b : jsval) : jsval :=
    match ToPrimitive a, ToPrimitive b with
    | JStr s, pb => JStr (s ++ ToString pb)
    | pa, JStr t => JStr (ToString pa ++ t)
    | pa, pb => JNum (num_add (ToNumber pa) (ToNumber pb))
    end.

  (** [v.toFixed(d)], [v.toLowerCase()], [v.toUpperCase()], [v.trim()],
      [v.replace(..)]: a [TypeError] unless [v] has the method. *)
Definition call_toFixed (v : jsval) (d : Z) : result jsstring :=
    match v with JNum x => Ok (toFixed x d) | _ => Throw TypeError end.

Definition as_string (v : jsval) : result jsstring :=
    match v with JStr s => Ok s | _ => Throw TypeError end.

Definition call_toLowerCase (v : jsval) : result jsstring :=
    s <- as_string v ;; Ok (toLowerCase s).

  (** [e.message]. *)
Definition message (e : exn) : jsstring :=
    match e with Error m => m | _ => engine_message e end.

  (** [response.json()] and [JSON.parse] inside the error monad. *)
Definition parse_json (s : jsstring) : result jsval :=
    match JSON_parse s with Some v => Ok v | None => Throw SyntaxError end.

  (** [`${JSON.stringify(v)}`]: [JSON.stringify(undefined)] is
      [undefined]. *)
Definition stringify_in_template (v : jsval) : jsstring :=
    match v with JUndefined => lit "undefined" | _ => JSON_stringify v end.
End Coercions.

(** The coercions above are total, and those of the engine are not:
    ToPrimitive, and with it ToString, ToNumber and every operator that
    coerces an operand, throws a TypeError on an object whose own property
    [toString] is not callable, which is every object [JSON.parse] returns
    with a key of that name, and on an array that holds such an object
    (its [toString] joins the strings of its elements).  [coercible] tells
    the values on which the engine's coercions return; on these they
    return what the functions above compute.  A statement that lets a
    coercion reach a value of the request or of the model's reply takes
    that value to be coercible. *)
Fixpoint coercible (v : jsval) : bool :=
  match v with
  | JArr l => forallb coercible l
  | JObj l => negb (existsb (fun kv => str_eqb (fst kv) (lit "toString")) l)
  | _ => true
  end.

(** [new Date(t).getUTCHours()], [t] in milliseconds since the epoch. *)
Definition getUTCHours (t : Z) : Z := (t / 3600000) mod 24.

(* ===================================================================== *)
(** * Template literals *)
(* ===================================================================== *)

(** A template literal is kept as its chunks: the literal text and the
    substitutions, each named after the expression it interpolates.  The
    string the script builds is [render]. *)
Inductive part :=
| Lit (text : jsstring)
| Sub (expr : string) (value : jsstring).

Definition part_text (p : part) : jsstring :=
  match p with Lit s => s | Sub _ s => s end.

Definition render (ps : list part) : jsstring := List.concat (map part_text ps).

Definition T (s : string) : result part := Ok (Lit (lit s)).
Definition Q : result part := Ok (Lit [dq]).
Definition S_ (expr : string) (r : result jsstring) : result part :=
  s <- r ;; Ok (Sub expr s).

(** The substitutions of [ps] that interpolate [expr]. *)
Definition subs_of (expr : string) (ps : list part) : list jsstring :=
  flat_map (fun p => match p with
                     | Sub e s => if String.eqb e expr then [s] else []
                     | Lit _ => []
                     end) ps.

(* ===================================================================== *)
(** * One request's I/O *)
(* ===================================================================== *)

(** What [fetch] resolves to: a rejection, or a response with its [ok]
    flag, status and body text ([response.json()] parses that text). *)
Inductive FetchOutcome :=
| Rejected
| Responded (ok : bool) (status : Z) (body : jsstring).

Record Request := {
  method : jsstring;
  (** [request.headers.get('x-api-key')], [None] for [null]. *)
  x_api_key : option jsstring;
  (** the raw body, which [request.json()] parses. *)
  req_body : jsstring
}.

(** [globalThis] bindings; [None] is an unset binding ([undefined]). *)
Record Env := {
  PRE_SHARED_TOKEN : option jsstring;
  FREEV36_API_KEY : option jsstring
}.

(** A [Response]: the status and the value whose serialization is the
    body. *)
Record Response := {
  status : Z;
  payload : jsval
}.

(* ===================================================================== *)
(** * [src/unnamed/part_000]: TradingAI, TelegramService, TradingWorker *)
(* ===================================================================== *)

Module Worker.

(** Trading constants. *)
Definition TRADABLE_ATR : num := dec 2 (-3).
Definition STRONG_VOLUME_RATIO : num := dec 15 (-1).
Definition STRONG_ADX : num := num_of_Z 20.
Definition ASIA_SESSION_ADX : num := num_of_Z 28.
Definition ASIA_SESSION_VOLUME : num := dec 20 (-1).
Definition SUPPORT_RESISTANCE_DISTANCE_ATR : num := dec 15 (-1).
Definition MACD_HISTOGRAM_MIN_CHANGE : num := dec 1 (-4).
Definition VALID_PATTERNS : list jsstring :=
  map lit ["bullish engulfing"; "bearish engulfing";
           "hammer"; "shooting star";
           "double top"; "double bottom"]%string.

(** The object [{ signal, explanation }] the class hands around. *)
Record Signal := {
  signal : jsstring;
  explanation : jsstring
}.

Definition Signal_to_js (s : Signal) : jsval :=
  obj [("signal", JStr (signal s)); ("explanation", JStr (explanation s))]%string.

(** [DerivedMetrics], the object [calculateDerivedValues] returns. *)
Record Derived := {
  price : jsval;
  hourUTC : Z;
  sessionType : jsstring;
  macdHistCurrent : num;
  isMacdRising : bool;
  supportDistanceATR : num;
  resistanceDistanceATR : num;
  isNearSupport : bool;
  isNearResistance : bool;
  isValidPattern : bool;
  trend : jsstring;
  momentum : jsstring;
  macdTrend : jsstring
}.

(** The clock readings and the two outbound calls of one request. *)
Record World := {
  (** [Date.now()] at the rate check. *)
  now : Z;
  (** [new Date()] in [calculateDerivedValues] and in the notification. *)
  clock_derived : Z;
  clock_notify : Z;
  (** [fetch] of the model endpoint, by prompt and Authorization header;
      a call the timeout aborts is [Rejected]. *)
  fetch_ai : jsstring -> jsstring -> FetchOutcome;
  (** [fetch] of the Telegram endpoint, by message text. *)
  fetch_telegram : jsstring -> FetchOutcome
}.

Definition getSessionType (hourUTC : Z) : jsstring :=
  if (hourUTC >=? 2) && (hourUTC <? 5) then lit "ASIA"
  else if ((hourUTC >=? 8) && (hourUTC <? 12)) || ((hourUTC >=? 14) && (hourUTC <? 17))
  then lit "OVERLAP"
  else lit "REGULAR".

Definition sanitizeForPrompt {rt : Runtime} (text : jsval) : jsstring :=
  strip_delimiters (ToString text).

Definition createResponse (status : Z) (body : jsval) : Response :=
  {| status := status; payload := body |}.

Section WithRuntime.
Context {rt : Runtime}.

Definition validateIndicator (value : jsval) (min max : num) (name : string)
  : result unit :=
  if negb (is_number value) || is_nan (ToNumber value)
     || js_lt value (JNum min) || js_gt value (JNum max)
  then Throw (Error (lit "Invalid " ++ lit name ++ lit ": must be between "
                     ++ NumberToString min ++ lit "-" ++ NumberToString max))
  else Ok tt.

Definition validateInputs (data : jsval) : result unit :=
  indicators <- get data "indicators" ;;
  rsi <- get indicators "rsi" ;;
  validateIndicator rsi (num_of_Z 0) (num_of_Z 100) "RSI" ;;;
  adx <- get data "adx" ;;
  validateIndicator adx (num_of_Z 0) (num_of_Z 100) "ADX" ;;;
  atr <- get data "atr" ;;
  validateIndicator atr (num_of_Z 0) Infinity "ATR" ;;;
  ohlc <- get data "ohlc" ;;
  high <- get ohlc "high" ;;
  low <- get ohlc "low" ;;
  if js_lt high low
  then Throw (Error (lit "Invalid OHLC: High must be >= Low"))
  else
    open <- get ohlc "open" ;;
    close <- get ohlc "close" ;;
    let zero := JNum (num_of_Z 0) in
    if js_le open zero || js_le high zero || js_le low zero || js_le close zero
    then Throw (Error (lit "Invalid OHLC: Prices must be positive"))
    else Ok tt.

Definition calculateDerivedValues (w : World) (data macd_hist_prev : jsval)
  : result Derived :=
  ohlc <- get data "ohlc" ;;
  indicators <- get data "indicators" ;;
  atr <- get data "atr" ;;
  support <- get data "support" ;;
  resistance <- get data "resistance" ;;
  price <- get ohlc "close" ;;
  let hourUTC := getUTCHours (clock_derived w) in
  macd <- get indicators "macd" ;;
  macd_signal <- get indicators "macd_signal" ;;
  pattern <- get data "pattern" ;;
  pattern_lc <- call_toLowerCase pattern ;;
  ema9 <- get indicators "ema9" ;;
  ema21 <- get indicators "ema21" ;;
  rsi <- get indicators "rsi" ;;
  Ok {|
    price := price;
    hourUTC := hourUTC;
    sessionType := getSessionType hourUTC;
    macdHistCurrent := js_sub macd macd_signal;
    isMacdRising :=
      js_gt (JNum (js_sub macd macd_signal))
            (js_add macd_hist_prev (JNum MACD_HISTOGRAM_MIN_CHANGE));
    supportDistanceATR := num_div (js_sub price support) (ToNumber atr);
    resistanceDistanceATR := num_div (js_sub resistance price) (ToNumber atr);
    isNearSupport :=
      js_le (JNum (num_div (js_sub price support) (ToNumber atr)))
            (JNum SUPPORT_RESISTANCE_DISTANCE_ATR);
    isNearResistance :=
      js_le (JNum (num_div (js_sub resistance price) (ToNumber atr)))
            (JNum SUPPORT_RESISTANCE_DISTANCE_ATR);
    isValidPattern := includes VALID_PATTERNS pattern_lc;
    trend := if js_gt ema9 ema21 then lit "bullish"
             else if js_lt ema9 ema21 then lit "bearish" else lit "neutral";
    momentum := if js_gt rsi (JNum (num_of_Z 70)) then lit "overbought"
                else if js_lt rsi (JNum (num_of_Z 30)) then lit "oversold"
                else lit "neutral";
    macdTrend := if js_gt macd macd_signal then lit "bullish" else lit "bearish"
  |}.

(** [data.a.b.toFixed(d)], [data.a.toFixed(d)], [`${data.a}`] and the
    interpolation of a constant. *)
Definition fixed2 (data : jsval) (a b : string) (d : Z) : result jsstring :=
  o <- get data a ;; v <- get o b ;; call_toFixed v d.
Definition fixed1 (data : jsval) (a : string) (d : Z) : result jsstring :=
  v <- get data a ;; call_toFixed v d.
Definition field (data : jsval) (a : string) : result jsstring :=
  v <- get data a ;; Ok (ToString v).
Definition const (x : num) : result jsstring := Ok (NumberToString x).

(** The template literal of [buildAIPrompt], chunk by chunk. *)
Definition promptParts (data : jsval) (derived : Derived) : result (list part) :=
  sequence [
    T "
You are an expert algorithmic trader. Respond ONLY in valid JSON:
{"; Q; T "signal"; Q; T ": "; Q; T "buy|sell|hold"; Q; T ", "; Q; T "explanation"; Q;
    T ": "; Q; T "short reason with data"; Q; T "}

🔥 STRICT TRADING RULES (VIOLATION = HOLD):
1. Trend Strength:
   - ADX < "; S_ "STRONG_ADX" (const STRONG_ADX); T " → HOLD (weak trend)
   - Asia Session? ADX must > "; S_ "ASIA_SESSION_ADX" (const ASIA_SESSION_ADX);
    T " & volume_ratio > "; S_ "ASIA_SESSION_VOLUME" (const ASIA_SESSION_VOLUME); T "

2. Momentum Filter:
   - RSI > 70 + Bullish → HOLD (overbought)
   - RSI < 30 + Bearish → HOLD (oversold)

3. Volume Confirmation:
   - volume_ratio < "; S_ "STRONG_VOLUME_RATIO" (const STRONG_VOLUME_RATIO); T " → HOLD (weak)
   - Asia Session: volume_ratio must > ";
    S_ "ASIA_SESSION_VOLUME" (const ASIA_SESSION_VOLUME); T "

4. MACD Requirements:
   - Buy: Histogram RISING (current > previous by ";
    S_ "MACD_HISTOGRAM_MIN_CHANGE" (const MACD_HISTOGRAM_MIN_CHANGE); T ")
   - Sell: Histogram FALLING (current < previous by ";
    S_ "MACD_HISTOGRAM_MIN_CHANGE" (const MACD_HISTOGRAM_MIN_CHANGE); T ")

5. Price Position:
   - Near Support (≤";
    S_ "SUPPORT_RESISTANCE_DISTANCE_ATR" (const SUPPORT_RESISTANCE_DISTANCE_ATR);
    T "x ATR) + Valid Bullish Pattern → Strong Buy
   - Near Resistance (≤";
    S_ "SUPPORT_RESISTANCE_DISTANCE_ATR" (const SUPPORT_RESISTANCE_DISTANCE_ATR);
    T "x ATR) + Valid Bearish Pattern → Strong Sell

6. Session Constraints:
   - ASIA (2-5 UTC): Extra strict rules
   - OVERLAP (8-12/14-17 UTC): Higher ATR allowed
   - REGULAR: Standard rules

🚨 FINAL DECISION:
- Jika SEMUA kondisi terpenuhi → Berikan sinyal
- Jika ADA 1 saja yang gagal → HOLD
- JANGAN menebak!

ANALYSIS:
- Symbol: ";
    S_ "data.symbol" (v <- get data "symbol" ;; Ok (sanitizeForPrompt v));
    T ", TF: "; S_ "data.tf" (field data "tf");
    T ", Session: "; S_ "derived.sessionType" (Ok (sessionType derived)); T "
- Price: "; S_ "derived.price" (call_toFixed (price derived) 5);
    T " (Support: "; S_ "data.support" (fixed1 data "support" 5);
    T ", Resistance: "; S_ "data.resistance" (fixed1 data "resistance" 5); T ")
- Trend: EMA9("; S_ "data.indicators.ema9" (fixed2 data "indicators" "ema9" 5);
    T ") "; S_ "derived.trend" (Ok (trend derived));
    T " vs EMA21("; S_ "data.indicators.ema21" (fixed2 data "indicators" "ema21" 5); T ")
- Momentum: RSI("; S_ "data.indicators.rsi" (fixed2 data "indicators" "rsi" 2);
    T ") = "; S_ "derived.momentum" (Ok (momentum derived)); T "
- MACD: "; S_ "data.indicators.macd" (fixed2 data "indicators" "macd" 5);
    T " vs Signal(";
    S_ "data.indicators.macd_signal" (fixed2 data "indicators" "macd_signal" 5);
    T ") → "; S_ "derived.macdTrend" (Ok (macdTrend derived)); T "
  Histogram: Current=";
    S_ "derived.macdHistCurrent" (Ok (toFixed (macdHistCurrent derived) 5));
    T ", Previous="; S_ "data.macd_hist_prev" (fixed1 data "macd_hist_prev" 5);
    T " → "; S_ "derived.isMacdRising"
              (Ok (if isMacdRising derived then lit "RISING" else lit "FALLING")); T "
- ADX: "; S_ "data.adx" (fixed1 data "adx" 2);
    T " (≥"; S_ "STRONG_ADX" (const STRONG_ADX); T " = strong)
- ATR: "; S_ "data.atr" (fixed1 data "atr" 5);
    T " (≥"; S_ "TRADABLE_ATR" (const TRADABLE_ATR); T " = tradable)
- Volume Ratio: "; S_ "data.volume_ratio" (fixed1 data "volume_ratio" 2);
    T " (≥"; S_ "STRONG_VOLUME_RATIO" (const STRONG_VOLUME_RATIO); T " = strong)
- Pattern: "; S_ "data.pattern" (field data "pattern");
    T " "; S_ "derived.isValidPattern"
             (Ok (if isValidPattern derived then lit "(VALID)"
                  else lit "(INVALID → HOLD)")); T "
- Position:
  - Support: "; S_ "derived.isNearSupport"
              (Ok (if isNearSupport derived then lit "NEAR" else lit "FAR"));
    T " ("; S_ "derived.supportDistanceATR"
              (Ok (toFixed (supportDistanceATR derived) 1)); T "x ATR)
  - Resistance: "; S_ "derived.isNearResistance"
              (Ok (if isNearResistance derived then lit "NEAR" else lit "FAR"));
    T " ("; S_ "derived.resistanceDistanceATR"
              (Ok (toFixed (resistanceDistanceATR derived) 1)); T "x ATR)

Respond in strict JSON only. No extra text. Example:
{"; Q; T "signal"; Q; T ":"; Q; T "buy"; Q; T ","; Q; T "explanation"; Q; T ":"; Q;
    T "bullish trend (ADX 26), MACD rising, volume strong, price at support with bullish engulfing";
    Q; T "}
    " ].

Definition buildAIPrompt (data : jsval) (derived : Derived) : result jsstring :=
  ps <- promptParts data derived ;; Ok (render ps).

(** [TradingAI.fetchWithTimeout]: the reply's [choices[0].message.content],
    trimmed.  The abort of the timer is the [Rejected] outcome. *)
Definition fetchWithTimeout (w : World) (prompt authorization : jsstring)
  : result jsstring :=
  match fetch_ai w prompt authorization with
  | Rejected => Throw FetchFailed
  | Responded ok status body =>
      if negb ok
      then Throw (Error (lit "HTTP " ++ NumberToString (num_of_Z status)
                         ++ lit ": " ++ body))
      else
        data <- parse_json body ;;
        let content :=
          opt_get (opt_get (opt_first (opt_get data "choices")) "message") "content" in
        s <- as_string (js_or content (JStr [])) ;;
        Ok (trim s)
  end.

Definition generateFallbackSignal (indicators : jsval) : result Signal :=
  ema9 <- get indicators "ema9" ;;
  ema21 <- get indicators "ema21" ;;
  rsi <- get indicators "rsi" ;;
  if js_gt ema9 ema21 && js_lt rsi (JNum (num_of_Z 70))
  then Ok {| signal := lit "buy";
             explanation := lit "Fallback: EMA bullish & RSI not overbought" |}
  else if js_lt ema9 ema21 && js_gt rsi (JNum (num_of_Z 30))
  then Ok {| signal := lit "sell";
             explanation := lit "Fallback: EMA bearish & RSI not oversold" |}
  else Ok {| signal := lit "hold"; explanation := lit "Fallback: No clear trend" |}.

(** The [try] block of [callAI]. *)
Definition callAI_try (w : World) (data : jsval) (freev36Key : option jsstring)
  : result jsstring :=
  validateInputs data ;;;
  prev <- get data "macd_hist_prev" ;;
  let macd_hist_prev :=
    match prev with JUndefined => JNum (num_of_Z 0) | _ => prev end in
  derived <- calculateDerivedValues w data macd_hist_prev ;;
  userContent <- buildAIPrompt data derived ;;
  fetchWithTimeout w userContent
    (lit "Bearer " ++ match freev36Key with
                      | Some k => k
                      | None => lit "undefined"
                      end).

Definition callAI (w : World) (data : jsval) (freev36Key : option jsstring)
  : result jsstring :=
  try_catch (callAI_try w data freev36Key)
    (fun _ =>
       indicators <- get data "indicators" ;;
       fallback <- generateFallbackSignal (js_or indicators (JObj [])) ;;
       Ok (JSON_stringify (Signal_to_js fallback))).

(** The [try] block of [tryParseAI]. *)
Definition tryParseAI_try (cleaned : jsstring) : result Signal :=
  parsed <- parse_json cleaned ;;
  sig <- get parsed "signal" ;;
  match sig with
  | JStr s =>
      if negb (includes (map lit ["buy"; "sell"; "hold"]%string) (toLowerCase s))
      then Throw (Error (lit "Invalid signal value"))
      else
        expl <- get parsed "explanation" ;;
        if truthy expl && negb (is_string expl)
        then Throw (Error (lit "Explanation must be string"))
        else
          Ok {| signal := toLowerCase s;
                explanation := if truthy expl
                               then substring0 500 (ToString expl)
                               else lit "No explanation" |}
  | _ => Throw (Error (lit "Invalid signal value"))
  end.

Definition tryParseAI (aiRespText : jsstring) : result Signal :=
  let cleaned := trim (strip_fences aiRespText) in
  try_catch (tryParseAI_try cleaned)
    (fun _ => generateFallbackSignal (JObj [])).

(** [TelegramService.fetchWithTimeout] and [sendMessage]. *)
Definition telegram_fetchWithTimeout (w : World) (text : jsstring) : result unit :=
  match fetch_telegram w text with
  | Rejected => Throw FetchFailed
  | Responded ok status body =>
      if negb ok
      then Throw (Error (lit "HTTP " ++ NumberToString (num_of_Z status)
                         ++ lit ": " ++ body))
      else Ok tt
  end.

Definition sendMessage (w : World) (text : jsstring) : result unit :=
  try_catch (telegram_fetchWithTimeout w text) (fun _ => Ok tt).

(** [TradingWorker]. *)
Definition authenticateRequest (env : Env) (request : Request) : bool :=
  match x_api_key request, PRE_SHARED_TOKEN env with
  | Some headerKey, Some expectedKey =>
      truthy (JStr headerKey) && truthy (JStr expectedKey)
      && str_eqb headerKey expectedKey
  | _, _ => false
  end.

Definition required : list string :=
  ["symbol"; "tf"; "ohlc"; "indicators";
   "adx"; "atr"; "volume_ratio"; "pattern";
   "session"; "support"; "resistance"]%string.

(** The loop over [required]: [Some] is the early [return { error }]. *)
Fixpoint check_required (bodyJson : jsval) (fields : list string)
  : result (option Response) :=
  match fields with
  | [] => Ok None
  | f :: rest =>
      v <- get bodyJson f ;;
      if negb (truthy v)
      then Ok (Some (createResponse 400
                       (obj [("error"%string, JStr (lit "Missing " ++ lit f))])))
      else check_required bodyJson rest
  end.

(** [parseRequest]: [inl data] for [{ data }], [inr r] for [{ error: r }]. *)
Definition parseRequest (request : Request) : result (jsval + Response) :=
  try_catch
    (bodyJson <- parse_json (req_body request) ;;
     missing <- check_required bodyJson required ;;
     match missing with
     | Some r => Ok (inr r)
     | None => Ok (inl bodyJson)
     end)
    (fun _ => Ok (inr (createResponse 400
                         (obj [("error"%string, JStr (lit "Invalid JSON"))])))).

(** The template literal of [sendTelegramNotification]. *)
Definition notificationParts (w : World) (data : jsval) (parsedSignal : Signal)
  : result (list part) :=
  sequence [
    T "📡 <b>AI Signal: ";
    S_ "parsedSignal.signal" (Ok (toUpperCase (signal parsedSignal))); T "</b>
📈 <b>"; S_ "data.symbol" (v <- get data "symbol" ;; Ok (sanitizeForPrompt v));
    T " | "; S_ "data.tf" (field data "tf"); T "</b>
📊 Close: "; S_ "data.ohlc.close" (fixed2 data "ohlc" "close" 5); T "
🎯 <i>"; S_ "parsedSignal.explanation" (Ok (explanation parsedSignal)); T "</i>
⏱️ "; S_ "time" (Ok (toLocaleTimeString (clock_notify w))) ].

Definition sendTelegramNotification (w : World) (data : jsval) (parsedSignal : Signal)
  : result unit :=
  ps <- notificationParts w data parsedSignal ;;
  sendMessage w (render ps).

(** [TradingWorker.handle]: the state is [this.lastRequestTime]; the
    result pairs the response with the new state. *)
Definition handle (env : Env) (w : World) (lastRequestTime : Z) (request : Request)
  : result Response * Z :=
  if now w - lastRequestTime <? 12000
  then (Ok (createResponse 429 (obj [("error"%string, JStr (lit "Too many requests"))])),
        lastRequestTime)
  else
    let lastRequestTime := now w in
    (if negb (str_eqb (method request) (lit "POST"))
     then Ok (createResponse 405 (JStr (lit "Method Not Allowed")))
     else if negb (authenticateRequest env request)
     then Ok (createResponse 401 (obj [("error"%string, JStr (lit "Unauthorized"))]))
     else
       parsed_request <- parseRequest request ;;
       match parsed_request with
       | inr error => Ok error
       | inl data =>
           try_catch
             (aiText <- callAI w data (FREEV36_API_KEY env) ;;
              parsed <- tryParseAI aiText ;;
              sendTelegramNotification w data parsed ;;;
              Ok (createResponse 200 (Signal_to_js parsed)))
             (fun error =>
                Ok (createResponse 500
                      (obj [("error"%string, JStr (lit "Processing failed"));
                            ("message"%string, JStr (message error))])))
       end,
     lastRequestTime).

End WithRuntime.
End Worker.

(* ===================================================================== *)
(** * [src/index.js]: the function-style worker *)
(* ===================================================================== *)

Module Index.

Definition CACHE_TTL : Z := 30000.

(** The object [{ signal, confidence, explanation }]. *)
Record Signal := {
  signal : jsstring;
  confidence : jsval;
  explanation : jsval
}.

Definition Signal_to_js (s : Signal) : jsval :=
  obj [("signal", JStr (signal s)); ("confidence", confidence s);
       ("explanation", explanation s)]%string.

(** An entry of [analysisCache]. *)
Record CacheEntry := {
  data : Signal;
  timestamp : Z
}.

(** [analysisCache], a [Map] from key strings. *)
Definition Cache := list (jsstring * CacheEntry).

Fixpoint cache_get (k : jsstring) (c : Cache) : option CacheEntry :=
  match c with
  | [] => None
  | (k', e) :: c' => if str_eqb k k' then Some e else cache_get k c'
  end.

Fixpoint cache_set (k : jsstring) (e : CacheEntry) (c : Cache) : Cache :=
  match c with
  | [] => [(k, e)]
  | (k', e') :: c' =>
      if str_eqb k k' then (k', e) :: c' else (k', e') :: cache_set k e c'
  end.

Record World := {
  (** [Date.now()] at the cache lookup and at the cache store. *)
  now_lookup : Z;
  now_store : Z;
  (** [new Date()] in the alert. *)
  clock_alert : Z;
  (** [fetch] of the model endpoint, by prompt and Authorization header. *)
  fetch_ai : jsstring -> jsstring -> FetchOutcome;
  (** [fetch] of the Telegram endpoint, by message text. *)
  fetch_telegram : jsstring -> FetchOutcome
}.

Section WithRuntime.
Context {rt : Runtime}.

Definition validateTradingData (ohlc prevCandles indicators volume avgVolume : jsval)
  : result unit :=
  if negb (truthy ohlc) || negb (typeof_object ohlc)
  then Throw (Error (lit "Invalid OHLC data"))
  else
    high <- get ohlc "high" ;;
    low <- get ohlc "low" ;;
    if js_lt high low
    then Throw (Error (lit "High price cannot be lower than low price"))
    else
      open <- get ohlc "open" ;;
      close <- get ohlc "close" ;;
      let zero := JNum (num_of_Z 0) in
      if js_lt open zero || js_lt close zero
      then Throw (Error (lit "Prices cannot be negative"))
      else
        rsi <- get indicators "rsi" ;;
        if negb (is_number rsi) || js_lt rsi zero || js_gt rsi (JNum (num_of_Z 100))
        then Throw (Error (lit "Invalid RSI value"))
        else
          macd <- get indicators "macd" ;;
          macd_signal <- get indicators "macd_signal" ;;
          if negb (is_number macd) || negb (is_number macd_signal)
          then Throw (Error (lit "Invalid MACD values"))
          else if negb (is_number volume) || js_lt volume zero
          then Throw (Error (lit "Invalid volume"))
          else if negb (is_number avgVolume) || js_le avgVolume zero
          then Throw (Error (lit "Invalid average volume"))
          else Ok tt.

Definition prop (o : jsval) (k : string) : result jsstring :=
  v <- get o k ;; Ok (ToString v).

(** The template literal [userContent] of [callAI], chunk by chunk. *)
Definition promptParts
  (symbol tf ohlc indicators volume avgVolume keyLevels higherTF marketContext : jsval)
  : result (list part) :=
  sequence [
    T "Act as a professional trading analyst. Strictly follow these rules in JSON response:
  1. Trend Alignment: Never contradict higher timeframe trend (H1/D1).
  2. Overbought/Oversold: RSI >70 = caution long, <30 = caution short.
  3. Volume Confirmation: Spike >1.5x avg volume strengthens signals.
  4. MACD Cross: Bullish when MACD > Signal, bearish when MACD < Signal.
  5. Price Action: Rejections at S/R levels are high-probability signals.

  Current Analysis:
  - Symbol: "; S_ "symbol" (Ok (ToString symbol));
    T " ("; S_ "tf" (Ok (ToString tf)); T ")
  - Price: O="; S_ "ohlc.open" (prop ohlc "open");
    T " H="; S_ "ohlc.high" (prop ohlc "high");
    T " L="; S_ "ohlc.low" (prop ohlc "low");
    T " C="; S_ "ohlc.close" (prop ohlc "close"); T "
  - EMA Cross: ";
    S_ "ema cross" (ema9 <- get indicators "ema9" ;; ema21 <- get indicators "ema21" ;;
                    Ok (if js_gt ema9 ema21 then lit "Bullish" else lit "Bearish")); T "
  - RSI: "; S_ "indicators.rsi" (prop indicators "rsi");
    T " (";
    S_ "rsi zone" (rsi <- get indicators "rsi" ;;
                   Ok (if js_gt rsi (JNum (num_of_Z 70)) then lit "Overbought"
                       else if js_lt rsi (JNum (num_of_Z 30)) then lit "Oversold"
                       else lit "Neutral")); T ")
  - MACD: "; S_ "indicators.macd" (prop indicators "macd");
    T " (Signal: "; S_ "indicators.macd_signal" (prop indicators "macd_signal");
    T ") → ";
    S_ "macd cross" (macd <- get indicators "macd" ;;
                     macd_signal <- get indicators "macd_signal" ;;
                     Ok (if js_gt macd macd_signal then lit "Bullish" else lit "Bearish"));
    T "
  - Volume: "; S_ "volume" (Ok (ToString volume));
    T " (Avg: "; S_ "avgVolume" (Ok (ToString avgVolume));
    T ") → ";
    S_ "volume spike"
       (Ok (if js_gt volume (JNum (js_mul avgVolume (JNum (dec 15 (-1)))))
            then lit "HIGH" else lit "Normal")); T "
  - Key Levels: Support="; S_ "keyLevels.s1" (prop keyLevels "s1");
    T ", Resistance="; S_ "keyLevels.r1" (prop keyLevels "r1"); T "
  - Higher TF: H1="; S_ "higherTF.h1Trend" (prop higherTF "h1Trend");
    T ", D1="; S_ "higherTF.d1Trend" (prop higherTF "d1Trend"); T "
  - Market: "; S_ "marketContext.session" (prop marketContext "session");
    T " session, "; S_ "marketContext.volatility" (prop marketContext "volatility");
    T " volatility

  Provide JSON response: { "; Q; T "signal"; Q; T ": "; Q; T "buy/sell/hold"; Q;
    T ", "; Q; T "confidence"; Q; T ": "; Q; T "high/medium/low"; Q;
    T ", "; Q; T "explanation"; Q; T ": "; Q; T "..."; Q; T " }" ].

(** [callAI]: the reply's [choices[0].message.content].  Its [catch] logs
    and rethrows. *)
Definition callAI (w : World)
  (symbol tf ohlc prevCandles indicators volume avgVolume
   keyLevels higherTF marketContext : jsval) (freev36Key : option jsstring)
  : result jsval :=
  validateTradingData ohlc prevCandles indicators volume avgVolume ;;;
  ps <- promptParts symbol tf ohlc indicators volume avgVolume
          keyLevels higherTF marketContext ;;
  let userContent := render ps in
  try_catch
    (match fetch_ai w userContent
             (lit "Bearer " ++ match freev36Key with
                               | Some k => k
                               | None => lit "undefined"
                               end) with
     | Rejected => Throw FetchFailed
     | Responded ok status body =>
         if negb ok
         then Throw (Error (lit "AI API Error: " ++ NumberToString (num_of_Z status)
                            ++ lit " " ++ body))
         else
           data <- parse_json body ;;
           let aiResponse :=
             opt_get (opt_get (opt_first (opt_get data "choices")) "message") "content" in
           if negb (truthy aiResponse)
           then Throw (Error (lit "Empty AI response"))
           else Ok aiResponse
     end)
    (fun error => Throw error).

Definition rejected (parsedSignal : Signal) (why : string) : Signal :=
  {| signal := lit "hold";
     confidence := JStr (lit "low");
     explanation := JStr (ToString (explanation parsedSignal) ++ lit why) |}.

Definition filterSignal (parsedSignal : Signal)
  (indicators volume avgVolume higherTF : jsval) : result Signal :=
  against_d1 <-
    (if str_eqb (signal parsedSignal) (lit "buy")
     then d1Trend <- get higherTF "d1Trend" ;; Ok (is_str d1Trend (lit "strong bearish"))
     else Ok false) ;;
  if against_d1 : bool
  then Ok (rejected parsedSignal " (Rejected: Against D1 strong trend)")
  else
    let weak_volume := js_lt volume (JNum (js_mul avgVolume (JNum (dec 12 (-1))))) in
    extreme_buy <-
      (if str_eqb (signal parsedSignal) (lit "buy")
       then rsi <- get indicators "rsi" ;;
            Ok (js_gt rsi (JNum (num_of_Z 70)) && weak_volume)
       else Ok false) ;;
    extreme_sell <-
      (if extreme_buy : bool then Ok false
       else if str_eqb (signal parsedSignal) (lit "sell")
       then rsi <- get indicators "rsi" ;;
            Ok (js_lt rsi (JNum (num_of_Z 30)) && weak_volume)
       else Ok false) ;;
    if extreme_buy || extreme_sell
    then Ok (rejected parsedSignal
               " (Rejected: Extreme RSI without volume confirmation)")
    else Ok parsedSignal.

(** The [try] block of [parseAIResponse]. *)
Definition parseAIResponse_try (aiText : jsval) : result Signal :=
  text <- as_string aiText ;;
  let cleaned := trim (strip_fences text) in
  parsed <- parse_json cleaned ;;
  sig <- get parsed "signal" ;;
  if negb (truthy sig)
  then Throw (Error (lit "Invalid signal value"))
  else
    lowered <- call_toLowerCase sig ;;
    if negb (includes (map lit ["buy"; "sell"; "hold"]%string) lowered)
    then Throw (Error (lit "Invalid signal value"))
    else
      conf <- get parsed "confidence" ;;
      expl <- get parsed "explanation" ;;
      Ok {| signal := lowered;
            confidence := js_or conf (JStr (lit "medium"));
            explanation := js_or expl (JStr (lit "No explanation provided")) |}.

Definition parseAIResponse (aiText : jsval) : result Signal :=
  try_catch (parseAIResponse_try aiText)
    (fun _ => Ok {| signal := lit "hold";
                    confidence := JStr (lit "low");
                    explanation := JStr (lit "Error parsing AI response") |}).

Definition emoji (signal : jsstring) : jsstring :=
  if str_eqb signal (lit "buy") then lit "🟢"
  else if str_eqb signal (lit "sell") then lit "🔴"
  else if str_eqb signal (lit "hold") then lit "🟡"
  else lit "undefined".

(** The template literal [message] of [sendTelegramAlert]. *)
Definition alertParts (w : World) (symbol timeframe : jsval) (s : Signal)
  : list part :=
  [ Lit (lit "
"); Sub "emoji" (emoji (signal s));
    Lit (lit " *"); Sub "signal" (toUpperCase (signal s));
    Lit (lit " Signal* ("); Sub "confidence" (ToString (confidence s));
    Lit (lit " confidence)
📊 *"); Sub "symbol" (ToString symbol);
    Lit (lit "* | "); Sub "timeframe" (ToString timeframe);
    Lit (lit "
  
📌 *Reason*: "); Sub "explanation" (ToString (explanation s));
    Lit (lit "
  
🔹 *Time*: "); Sub "time" (toUTCString (clock_alert w));
    Lit (lit "
  ") ].

(** [sendTelegramAlert]: a rejected [fetch] is thrown on, a response that
    is not [ok] is only logged. *)
Definition sendTelegramAlert (w : World) (symbol timeframe : jsval) (s : Signal)
  : result unit :=
  match fetch_telegram w (render (alertParts w symbol timeframe s)) with
  | Rejected => Throw FetchFailed
  | Responded _ _ _ => Ok tt
  end.

Definition ok_response (body : jsval) : Response :=
  {| status := 200; payload := body |}.

Definition failed (error : exn) : Response :=
  {| status := 500;
     payload := obj [("error", JStr (lit "Processing failed"));
                     ("details", JStr (message error))]%string |}.

(** [handleRequest] from the call of [callAI] to the filtered signal. *)
Definition analyse (env : Env) (w : World) (requestData : jsval) : result Signal :=
  symbol <- get requestData "symbol" ;;
  timeframe <- get requestData "timeframe" ;;
  ohlc <- get requestData "ohlc" ;;
  prevCandles <- get requestData "prevCandles" ;;
  indicators <- get requestData "indicators" ;;
  volume <- get requestData "volume" ;;
  avgVolume <- get requestData "avgVolume" ;;
  keyLevels <- get requestData "keyLevels" ;;
  higherTF <- get requestData "higherTF" ;;
  marketContext <- get requestData "marketContext" ;;
  aiResponse <- callAI w symbol timeframe ohlc prevCandles indicators volume avgVolume
                  keyLevels higherTF marketContext (FREEV36_API_KEY env) ;;
  parsedSignal <- parseAIResponse aiResponse ;;
  filterSignal parsedSignal indicators volume avgVolume higherTF.

(** [handleRequest], up to the cache key: the body, checked for its two
    required fields, and the key. *)
Definition read_request (request : Request) : result (jsval * jsstring) :=
  requestData <- parse_json (req_body request) ;;
  symbol <- get requestData "symbol" ;;
  timeframe <- get requestData "timeframe" ;;
  if negb (truthy symbol) || negb (truthy timeframe)
  then Throw (Error (lit "Missing required fields"))
  else
    ohlc <- get requestData "ohlc" ;;
    Ok (requestData,
        ToString symbol ++ lit "-" ++ ToString timeframe ++ lit "-"
        ++ stringify_in_template ohlc).

(** [handleRequest]: the state is [analysisCache]; the result pairs the
    response with the new state. *)
Definition handleRequest (env : Env) (w : World) (analysisCache : Cache)
  (request : Request) : Response * Cache :=
  if negb (str_eqb (method request) (lit "POST"))
  then ({| status := 405;
           payload := obj [("error", JStr (lit "Method not allowed"))]%string |},
        analysisCache)
  else if match x_api_key request, PRE_SHARED_TOKEN env with
          | Some apiKey, Some token => negb (str_eqb apiKey token)
          | _, _ => true
          end
  then ({| status := 401;
           payload := obj [("error", JStr (lit "Unauthorized"))]%string |},
        analysisCache)
  else
    match read_request request with
    | Throw error => (failed error, analysisCache)
    | Ok (requestData, cacheKey) =>
        let fresh :=
          match cache_get cacheKey analysisCache with
          | Some cached =>
              if now_lookup w - timestamp cached <? CACHE_TTL
              then Some cached else None
          | None => None
          end in
        match fresh with
        | Some cached => (ok_response (Signal_to_js (data cached)), analysisCache)
        | None =>
            match analyse env w requestData with
            | Throw error => (failed error, analysisCache)
            | Ok parsedSignal =>
                let analysisCache :=
                  cache_set cacheKey
                    {| data := parsedSignal; timestamp := now_store w |}
                    analysisCache in
                match
                  symbol <- get requestData "symbol" ;;
                  timeframe <- get requestData "timeframe" ;;
                  sendTelegramAlert w symbol timeframe parsedSignal
                with
                | Throw error => (failed error, analysisCache)
                | Ok _ => (ok_response (Signal_to_js parsedSignal), analysisCache)
                end
            end
        end
    end.

End WithRuntime.
End Index.

(* ===================================================================== *)
(** * A runtime that computes *)
(* ===================================================================== *)

(** [node] implements the built-ins by their ECMAScript
    definitions: the JSON grammar, Number::toString by the shortest digits
    that read back, [toFixed] by exact scaling, StringToNumber for decimal
    literals.  Case mapping covers the ASCII letters, dates are printed in
    UTC, and the text of an engine exception is a stand-in. *)
Module Node.

Definition ch (s : string) : jschar :=
  match lit s with c :: _ => c | [] => 0%N end.

Definition is_digit (c : jschar) : bool := ((48 <=? c) && (c <=? 57))%N.
Definition digit_val (c : jschar) : Z := Z.of_N (c - 48).

(** Decimal digits of a natural number. *)
Fixpoint digits_from (fuel : nat) (n : Z) (acc : jsstring) : jsstring :=
  match fuel with
  | O => acc
  | S f =>
      let acc' := (48 + Z.to_N (n mod 10))%N :: acc in
      if n <? 10 then acc' else digits_from f (n / 10) acc'
  end.

Definition digits (n : Z) : jsstring :=
  digits_from (S (Z.to_nat (Z.log2 n))) n [].

(** A finite positive double [m * 2^e] as a fraction. *)
Definition frac_of (m : positive) (e : Z) : Z * Z :=
  match e with
  | Zneg p => (Zpos m, Z.pow_pos 2 p)
  | _ => (Zpos m * 2 ^ e, 1)
  end.

(** [a/b * 10^(-p)] rounded to the nearest integer, ties upwards. *)
Definition scale_round (a b p : Z) : Z :=
  let a' := if p <? 0 then a * 10 ^ (- p) else a in
  let b' := if p <? 0 then b else b * 10 ^ p in
  (2 * a' + b') / (2 * b').

(** The least [n] from a start on with [a/b < 10^n]; the start is taken
    just below the decimal exponent, from the binary one. *)
Fixpoint decimal_exponent (fuel : nat) (a b n : Z) : Z :=
  match fuel with
  | O => n
  | S f =>
      if (if n <? 0 then a * 10 ^ (- n) <? b else a <? b * 10 ^ n)
      then n else decimal_exponent f a b (n + 1)
  end.

(** The [(s, n, k)] of Number::toString: the fewest digits [k] for which
    some [s * 10^(n-k)] reads back as [x]; of the two integers next to
    [x * 10^(k-n)] the one that reads back, of two that do the closer one,
    and of two equally close the even one. *)
Fixpoint shortest (fuel : nat) (k : Z) (x : num) (a b n0 : Z) : Z * Z * Z :=
  let p := n0 - k in
  let a' := if p <? 0 then a * 10 ^ (- p) else a in
  let b' := if p <? 0 then b else b * 10 ^ p in
  let lo := a' / b' in
  let r := a' mod b' in
  let reads (c : Z) := SFeqb (dec c (n0 - k)) x in
  let closest :=
    if 2 * r <? b' then lo
    else if b' <? 2 * r then lo + 1
    else if Z.even lo then lo else lo + 1 in
  let norm (c : Z) := if c =? 10 ^ k then (10 ^ (k - 1), n0 + 1, k) else (c, n0, k) in
  match fuel with
  | O => norm closest
  | S f =>
      if r =? 0 then (if reads lo then norm lo else shortest f (k + 1) x a b n0)
      else
        match reads lo, reads (lo + 1) with
        | true, true => norm closest
        | true, false => norm lo
        | false, true => norm (lo + 1)
        | false, false => shortest f (k + 1) x a b n0
        end
  end.

Definition zeros (n : Z) : jsstring := repeat 48%N (Z.to_nat n).

Definition positive_to_string (x : num) (m : positive) (e : Z) : jsstring :=
  let '(a, b) := frac_of m e in
  let n0 := decimal_exponent 8 a b
              ((Z.log2 a - Z.log2 b - 1) * 30103 / 100000 - 2) in
  let '(s, n, k) := shortest 16 1 x a b n0 in
  let ds := digits s in
  if (k <=? n) && (n <=? 21) then ds ++ zeros (n - k)
  else if (0 <? n) && (n <=? 21)
  then firstn (Z.to_nat n) ds ++ lit "." ++ skipn (Z.to_nat n) ds
  else if (-6 <? n) && (n <=? 0) then lit "0." ++ zeros (- n) ++ ds
  else
    let ex := (if n - 1 <? 0 then lit "-" else lit "+") ++ digits (Z.abs (n - 1)) in
    match ds with
    | [d] => [d] ++ lit "e" ++ ex
    | d :: r => [d] ++ lit "." ++ r ++ lit "e" ++ ex
    | [] => []
    end.

Definition NumberToString (x : num) : jsstring :=
  match x with
  | S754_nan => lit "NaN"
  | S754_zero _ => lit "0"
  | S754_infinity false => lit "Infinity"
  | S754_infinity true => lit "-Infinity"
  | S754_finite s m e =>
      (if s then lit "-" else []) ++ positive_to_string (S754_finite false m e) m e
  end.

Definition toFixed (x : num) (f : Z) : jsstring :=
  match x with
  | S754_finite s m e =>
      if SFleb (dec 1 21) (S754_finite false m e) then NumberToString x
      else
        let '(a, b) := frac_of m e in
        let ds := digits (scale_round a b (- f)) in
        let ds := zeros (f + 1 - Z.of_nat (List.length ds)) ++ ds in
        let k := List.length ds in
        (if s then lit "-" else [])
        ++ (if f =? 0 then ds
            else firstn (k - Z.to_nat f) ds ++ lit "." ++ skipn (k - Z.to_nat f) ds)
  | S754_zero _ => if f =? 0 then lit "0" else lit "0." ++ zeros f
  | _ => NumberToString x
  end.

(** *** Reading numbers *)

Fixpoint read_digits (s : jsstring) (acc : Z) (count : Z) : Z * Z * jsstring :=
  match s with
  | c :: r => if is_digit c then read_digits r (10 * acc + digit_val c) (count + 1)
              else (acc, count, s)
  | [] => (acc, count, s)
  end.

(** The double of the decimal [m * 10^e], of either sign.  With [d]
    digits in [m] the value lies in [10^(e+d-1), 10^(e+d)), which decides
    the overflow and the underflow without the power. *)
Definition decimal (neg : bool) (m e : Z) : num :=
  let d := Z.of_nat (List.length (digits m)) in
  let x :=
    if m =? 0 then S754_zero false
    else if 309 <? e + d then S754_infinity false
    else if e + d <? -324 then S754_zero false
    else dec m e in
  if neg then SFopp x else x.

(** An optional exponent part [e[+-]digits]. *)
Definition read_exponent (s : jsstring) : option (Z * jsstring) :=
  match s with
  | c :: r =>
      if (c =? ch "e")%N || (c =? ch "E")%N then
        let '(neg, r1) :=
          match r with
          | d :: r' => if (d =? ch "-")%N then (true, r')
                       else if (d =? ch "+")%N then (false, r') else (false, r)
          | [] => (false, r)
          end in
        let '(ex, n, r2) := read_digits r1 0 0 in
        if n =? 0 then None else Some (if neg then - ex else ex, r2)
      else Some (0, s)
  | [] => Some (0, s)
  end.

(** A JSON number. *)
Definition read_json_number (s : jsstring) : option (num * jsstring) :=
  let '(neg, s1) :=
    match s with
    | c :: r => if (c =? ch "-")%N then (true, r) else (false, s)
    | [] => (false, s)
    end in
  let '(ip, n, s2) := read_digits s1 0 0 in
  if (n =? 0) || ((1 <? n) && starts_with (lit "0") s1) then None
  else
    match
      match s2 with
      | c :: r =>
          if (c =? ch ".")%N then
            let '(fp, k, s3) := read_digits r ip 0 in
            if k =? 0 then None else Some (fp, k, s3)
          else Some (ip, 0, s2)
      | [] => Some (ip, 0, s2)
      end
    with
    | None => None
    | Some (m, k, s3) =>
        match read_exponent s3 with
        | None => None
        | Some (ex, s4) => Some (decimal neg m (ex - k), s4)
        end
    end.

Definition hex_val (c : jschar) : option N :=
  if is_digit c then Some (c - 48)%N
  else if ((97 <=? c) && (c <=? 102))%N then Some (c - 87)%N
  else if ((65 <=? c) && (c <=? 70))%N then Some (c - 55)%N
  else None.

(** The digits of a literal of the given radix, all of them. *)
Fixpoint read_radix (radix : N) (s : jsstring) (acc : N) : option N :=
  match s with
  | [] => Some acc
  | c :: r =>
      match hex_val c with
      | Some d => if (d <? radix)%N then read_radix radix r (acc * radix + d)
                  else None
      | None => None
      end
  end.

(** NonDecimalIntegerLiteral: [0x], [0o] and [0b] in either case, unsigned,
    with at least one digit. *)
Definition non_decimal (t : jsstring) : option num :=
  match t with
  | z :: p :: ((_ :: _) as ds) =>
      let radix :=
        if (p =? ch "x")%N || (p =? ch "X")%N then 16%N
        else if (p =? ch "o")%N || (p =? ch "O")%N then 8%N
        else if (p =? ch "b")%N || (p =? ch "B")%N then 2%N
        else 0%N in
      if (z =? 48)%N && negb (radix =? 0)%N
      then match read_radix radix ds 0 with
           | Some n => Some (num_of_Z (Z.of_N n))
           | None => None
           end
      else None
  | _ => None
  end.

(** StringToNumber: the empty string, StrDecimalLiteral and
    NonDecimalIntegerLiteral. *)
Definition StringToNumber (s : jsstring) : num :=
  let t := trim s in
  match non_decimal t, t with
  | Some x, _ => x
  | None, [] => S754_zero false
  | None, c :: r =>
      let '(neg, u) :=
        if (c =? ch "-")%N then (true, r)
        else if (c =? ch "+")%N then (false, r) else (false, t) in
      if str_eqb u (lit "Infinity") then S754_infinity neg
      else
        let '(ip, n, s2) := read_digits u 0 0 in
        let '(m, k, nf, s3) :=
          match s2 with
          | d :: r' => if (d =? ch ".")%N
                       then let '(fp, k, s3) := read_digits r' ip 0 in (fp, k, k, s3)
                       else (ip, 0, 0, s2)
          | [] => (ip, 0, 0, s2)
          end in
        if n + nf =? 0 then NaN
        else match read_exponent s3 with
             | Some (ex, []) => decimal neg m (ex - k)
             | _ => NaN
             end
  end.

(** *** JSON text *)

Definition hex4_val (a b c d : jschar) : option jschar :=
  match hex_val a, hex_val b, hex_val c, hex_val d with
  | Some x, Some y, Some z, Some w => Some (((x * 16 + y) * 16 + z) * 16 + w)%N
  | _, _, _, _ => None
  end.

(** The characters of a JSON string after its opening quote. *)
Fixpoint read_string (s acc : jsstring) : option (jsstring * jsstring) :=
  match s with
  | [] => None
  | c :: r =>
      if (c =? dq)%N then Some (rev acc, r)
      else if (c <? 32)%N then None
      else if (c =? ch "\")%N then
        match r with
        | [] => None
        | e :: r1 =>
            if (e =? ch "u")%N then
              match r1 with
              | h1 :: h2 :: h3 :: h4 :: r2 =>
                  match hex4_val h1 h2 h3 h4 with
                  | Some u => read_string r2 (u :: acc)
                  | None => None
                  end
              | _ => None
              end
            else
              match
                if (e =? dq)%N then Some dq
                else if (e =? ch "\")%N then Some e
                else if (e =? ch "/")%N then Some e
                else if (e =? ch "b")%N then Some 8%N
                else if (e =? ch "f")%N then Some 12%N
                else if (e =? ch "n")%N then Some 10%N
                else if (e =? ch "r")%N then Some 13%N
                else if (e =? ch "t")%N then Some 9%N
                else None
              with
              | Some u => read_string r1 (u :: acc)
              | None => None
              end
        end
      else read_string r (c :: acc)
  end.

Fixpoint skip_ws (s : jsstring) : jsstring :=
  match s with
  | c :: r => if existsb (N.eqb c) [32; 9; 10; 13]%N then skip_ws r else s
  | [] => []
  end.

(** A property defined twice keeps its place and takes the later value. *)
Fixpoint put (k : jsstring) (v : jsval) (l : list (jsstring * jsval))
  : list (jsstring * jsval) :=
  match l with
  | [] => [(k, v)]
  | (k', v') :: l' => if str_eqb k k' then (k', v) :: l' else (k', v') :: put k v l'
  end.

Fixpoint parse_value (fuel : nat) (s : jsstring) : option (jsval * jsstring) :=
  match fuel with
  | O => None
  | S f =>
      match skip_ws s with
      | [] => None
      | c :: r =>
          if (c =? ch "{")%N then
            match skip_ws r with
            | d :: r' => if (d =? ch "}")%N then Some (JObj [], r')
                         else parse_members f r []
            | [] => None
            end
          else if (c =? ch "[")%N then
            match skip_ws r with
            | d :: r' => if (d =? ch "]")%N then Some (JArr [], r')
                         else parse_elements f r []
            | [] => None
            end
          else if (c =? dq)%N then
            match read_string r [] with
            | Some (t, r') => Some (JStr t, r')
            | None => None
            end
          else if starts_with (lit "true") (c :: r) then Some (JBool true, skipn 3 r)
          else if starts_with (lit "false") (c :: r) then Some (JBool false, skipn 4 r)
          else if starts_with (lit "null") (c :: r) then Some (JNull, skipn 3 r)
          else
            match read_json_number (c :: r) with
            | Some (x, r') => Some (JNum x, r')
            | None => None
            end
      end
  end
with parse_elements (fuel : nat) (s : jsstring) (acc : list jsval)
  : option (jsval * jsstring) :=
  match fuel with
  | O => None
  | S f =>
      match parse_value f s with
      | None => None
      | Some (v, r) =>
          match skip_ws r with
          | c :: r' =>
              if (c =? ch ",")%N then parse_elements f r' (v :: acc)
              else if (c =? ch "]")%N then Some (JArr (rev (v :: acc)), r')
              else None
          | [] => None
          end
      end
  end
with parse_members (fuel : nat) (s : jsstring) (acc : list (jsstring * jsval))
  : option (jsval * jsstring) :=
  match fuel with
  | O => None
  | S f =>
      match skip_ws s with
      | q :: r =>
          if negb (q =? dq)%N then None
          else
            match read_string r [] with
            | None => None
            | Some (k, r1) =>
                match skip_ws r1 with
                | c :: r2 =>
                    if negb (c =? ch ":")%N then None
                    else
                      match parse_value f r2 with
                      | None => None
                      | Some (v, r3) =>
                          match skip_ws r3 with
                          | d :: r4 =>
                              if (d =? ch ",")%N then parse_members f r4 (put k v acc)
                              else if (d =? ch "}")%N then Some (JObj (put k v acc), r4)
                              else None
                          | [] => None
                          end
                      end
                | [] => None
                end
            end
      | [] => None
      end
  end.

Definition JSON_parse (s : jsstring) : option jsval :=
  match parse_value (S (List.length s)) s with
  | Some (v, r) => match skip_ws r with [] => Some v | _ => None end
  | None => None
  end.

Definition hex_digit (n : N) : jschar :=
  if (n <? 10)%N then (48 + n)%N else (87 + n)%N.

Definition u_escape (c : jschar) : jsstring :=
  lit "\u" ++ [hex_digit (N.shiftr c 12); hex_digit (N.land (N.shiftr c 8) 15);
               hex_digit (N.land (N.shiftr c 4) 15); hex_digit (N.land c 15)].

Definition is_high (c : jschar) : bool := ((55296 <=? c) && (c <=? 56319))%N.
Definition is_low (c : jschar) : bool := ((56320 <=? c) && (c <=? 57343))%N.

(** QuoteJSONString without the quotes. *)
Fixpoint escape (s : jsstring) : jsstring :=
  match s with
  | [] => []
  | c :: r =>
      if (c =? dq)%N then ch "\" :: dq :: escape r
      else if (c =? ch "\")%N then c :: c :: escape r
      else if (c =? 8)%N then lit "\b" ++ escape r
      else if (c =? 12)%N then lit "\f" ++ escape r
      else if (c =? 10)%N then lit "\n" ++ escape r
      else if (c =? 13)%N then lit "\r" ++ escape r
      else if (c =? 9)%N then lit "\t" ++ escape r
      else if (c <? 32)%N then u_escape c ++ escape r
      else if is_high c then
        match r with
        | d :: r' => if is_low d then c :: d :: escape r'
                     else u_escape c ++ escape r
        | [] => u_escape c
        end
      else if is_low c then u_escape c ++ escape r
      else c :: escape r
  end.

Definition quote (s : jsstring) : jsstring := dq :: escape s ++ [dq].

(** The array index a property key spells, if it spells one. *)
Definition array_index (k : jsstring) : option Z :=
  match k with
  | [] => None
  | c :: r =>
      if forallb is_digit k
         && ((negb (c =? 48)%N) || match r with [] => true | _ => false end)
         && (Nat.leb (List.length k) 10)
      then let '(n, _, _) := read_digits k 0 0 in
           if n <=? 4294967294 then Some n else None
      else None
  end.

Fixpoint insert_index {A} (n : Z) (e : A) (l : list (Z * A)) : list (Z * A) :=
  match l with
  | [] => [(n, e)]
  | (m, f) :: r => if n <? m then (n, e) :: l else (m, f) :: insert_index n e r
  end.

(** OrdinaryOwnPropertyKeys: the array indices in ascending order, then the
    other keys in the order they were created. *)
Definition own_keys_order {A} (l : list (jsstring * A)) : list (jsstring * A) :=
  map snd
    (fold_left (fun acc kv =>
                  match array_index (fst kv) with
                  | Some n => insert_index n kv acc
                  | None => acc
                  end) l [])
  ++ filter (fun kv => match array_index (fst kv) with
                       | Some _ => false
                       | None => true
                       end) l.

Fixpoint join_members (l : list (jsstring * jsstring)) : jsstring :=
  match l with
  | [] => []
  | (k, t) :: r =>
      quote k ++ lit ":" ++ t ++ match r with [] => [] | _ => lit "," ++ join_members r end
  end.

Fixpoint JSON_stringify (v : jsval) : jsstring :=
  match v with
  | JUndefined | JNull => lit "null"
  | JBool true => lit "true"
  | JBool false => lit "false"
  | JNum x => if is_finite x then NumberToString x else lit "null"
  | JStr s => quote s
  | JArr l =>
      lit "["
      ++ (fix elements (l : list jsval) : jsstring :=
            match l with
            | [] => []
            | x :: r => JSON_stringify x
                        ++ match r with [] => [] | _ => lit "," ++ elements r end
            end) l
      ++ lit "]"
  | JObj l =>
      lit "{"
      ++ join_members
           (own_keys_order
              ((fix members (l : list (jsstring * jsval))
                  : list (jsstring * jsstring) :=
                  match l with
                  | [] => []
                  | (k, x) :: r =>
                      match x with
                      | JUndefined => members r
                      | _ => (k, JSON_stringify x) :: members r
                      end
                  end) l))
      ++ lit "}"
  end.

(** *** Dates *)

Definition two (n : Z) : jsstring := (if n <? 10 then lit "0" else []) ++ digits n.

(** Year, month (1-12) and day of a count of days since 1970-01-01. *)
Definition civil (days : Z) : Z * Z * Z :=
  let z := days + 719468 in
  let era := z / 146097 in
  let doe := z - era * 146097 in
  let yoe := (doe - doe / 1460 + doe / 36524 - doe / 146096) / 365 in
  let doy := doe - (365 * yoe + yoe / 4 - yoe / 100) in
  let mp := (5 * doy + 2) / 153 in
  let d := doy - (153 * mp + 2) / 5 + 1 in
  let m := if mp <? 10 then mp + 3 else mp - 9 in
  (yoe + era * 400 + (if m <=? 2 then 1 else 0), m, d).

Definition toUTCString (t : Z) : jsstring :=
  let days := t / 86400000 in
  let secs := (t mod 86400000) / 1000 in
  let '(y, m, d) := civil days in
  nth (Z.to_nat ((days + 4) mod 7))
      (map lit ["Sun"; "Mon"; "Tue"; "Wed"; "Thu"; "Fri"; "Sat"]%string) []
  ++ lit ", " ++ two d ++ lit " "
  ++ nth (Z.to_nat (m - 1))
       (map lit ["Jan"; "Feb"; "Mar"; "Apr"; "May"; "Jun";
                 "Jul"; "Aug"; "Sep"; "Oct"; "Nov"; "Dec"]%string) []
  ++ lit " " ++ zeros (4 - Z.of_nat (List.length (digits y))) ++ digits y
  ++ lit " " ++ two (secs / 3600) ++ lit ":" ++ two (secs / 60 mod 60)
  ++ lit ":" ++ two (secs mod 60) ++ lit " GMT".

(** The en-US clock time, in UTC. *)
Definition toLocaleTimeString (t : Z) : jsstring :=
  let secs := (t mod 86400000) / 1000 in
  let h := secs / 3600 in
  digits (if h mod 12 =? 0 then 12 else h mod 12)
  ++ lit ":" ++ two (secs / 60 mod 60) ++ lit ":" ++ two (secs mod 60)
  ++ (if h <? 12 then lit " AM" else lit " PM").

Definition engine_message (e : exn) : jsstring :=
  match e with
  | Error m => m
  | TypeError => lit "Cannot read properties of undefined"
  | SyntaxError => lit "Unexpected token in JSON"
  | FetchFailed => lit "Network connection lost."
  end.

End Node.

Definition node : Runtime := {|
  JSON_parse := Node.JSON_parse;
  JSON_stringify := Node.JSON_stringify;
  NumberToString := Node.NumberToString;
  StringToNumber := Node.StringToNumber;
  toFixed := Node.toFixed;
  toLowerCase := map ascii_lower;
  toUpperCase := map ascii_upper;
  toUTCString := Node.toUTCString;
  toLocaleTimeString := Node.toLocaleTimeString;
  engine_message := Node.engine_message
|}.


(* ===================================================================== *)
(** * Vocabulary of the statements *)
(* ===================================================================== *)

(** The three values of a signal. *)
Definition signals : list jsstring := map lit ["buy"; "sell"; "hold"]%string.

(** The seventy and thirty of the RSI rules. *)
Definition seventy : jsval := JNum (num_of_Z 70).
Definition thirty : jsval := JNum (num_of_Z 30).

(** The indicator subset the fallback generator reads. *)
Definition triple (ema9 ema21 rsi : jsval) : jsval :=
  obj [("ema9", ema9); ("ema21", ema21); ("rsi", rsi)]%string.

(** What the interpreters parse: the reply without its code fences and
    outer white space. *)
Definition cleaned (aiText : jsstring) : jsstring := trim (strip_fences aiText).



(** The fallbacks of the two interpreters. *)
Definition Worker_hold : Worker.Signal :=
  {| Worker.signal := lit "hold";
     Worker.explanation := lit "Fallback: No clear trend" |}.

Definition Index_hold : Index.Signal :=
  {| Index.signal := lit "hold";
     Index.confidence := JStr (lit "low");
     Index.explanation := JStr (lit "Error parsing AI response") |}.

(** Sample replies. *)
Definition reply_not_json : jsstring := lit "not json".

Definition reply_long_explanation : jsstring :=
  lit "{" ++ quoted "signal" ++ lit ":" ++ quoted "buy" ++ lit ","
  ++ quoted "explanation" ++ lit ":" ++ [dq] ++ repeat 97%N 501 ++ [dq] ++ lit "}".

(** A number within the closed interval [lo, hi]; NaN is in none. *)
Definition in_range (v : jsval) (lo hi : num) : Prop :=
  exists x, v = JNum x /\ num_le lo x = true /\ num_le x hi = true.

Definition zero : num := num_of_Z 0.
Definition hundred : num := num_of_Z 100.

(** [data.a] and [data.a.b] as values. *)
Definition at1 (data : jsval) (a : string) : jsval := opt_get data a.
Definition at2 (data : jsval) (a b : string) : jsval := opt_get (opt_get data a) b.

(** The messages of the two validators. *)
Definition invalid_indicator {rt : Runtime} (name : string) (lo hi : num) : exn :=
  Error (lit "Invalid " ++ lit name ++ lit ": must be between "
         ++ NumberToString lo ++ lit "-" ++ NumberToString hi).
Definition high_below_low : exn := Error (lit "Invalid OHLC: High must be >= Low").
Definition not_positive : exn := Error (lit "Invalid OHLC: Prices must be positive").

Definition index_high_below_low : exn :=
  Error (lit "High price cannot be lower than low price").
Definition index_negative : exn := Error (lit "Prices cannot be negative").
Definition index_rsi : exn := Error (lit "Invalid RSI value").
Definition index_macd : exn := Error (lit "Invalid MACD values").

(** A snapshot for [TradingWorker], by symbol, pattern, ATR and MACD: a
    candle on M15. *)
Definition snapshot (symbol pattern atr macd : jsval) : jsval :=
  obj [("symbol", symbol);
       ("tf", JStr (lit "M15"));
       ("ohlc", obj [("open", JNum (dec 11 (-1))); ("high", JNum (dec 12 (-1)));
                     ("low", JNum (dec 10 (-1))); ("close", JNum (dec 115 (-2)))]);
       ("indicators", obj [("rsi", JNum (num_of_Z 55));
                           ("ema9", JNum (dec 112 (-2)));
                           ("ema21", JNum (dec 11 (-1)));
                           ("macd", macd);
                           ("macd_signal", JNum (dec 5 (-4)))]);
       ("adx", JNum (num_of_Z 25));
       ("atr", atr);
       ("volume_ratio", JNum (dec 18 (-1)));
       ("pattern", pattern);
       ("session", JStr (lit "london"));
       ("support", JNum (dec 109 (-2)));
       ("resistance", JNum (dec 12 (-1)));
       ("macd_hist_prev", JNum (dec 2 (-4)))]%string.

Definition sample : jsval :=
  snapshot (JStr (lit "EURUSD")) (JStr (lit "hammer"))
    (JNum (dec 2 (-3))) (JNum (dec 1 (-3))).

(** The same with a MACD that is a string, and with an ATR of zero. *)
Definition sample_macd_text : jsval :=
  snapshot (JStr (lit "EURUSD")) (JStr (lit "hammer"))
    (JNum (dec 2 (-3))) (JStr (lit "abc")).
Definition sample_atr_zero : jsval :=
  snapshot (JStr (lit "EURUSD")) (JStr (lit "hammer"))
    (JNum (S754_zero false)) (JNum (dec 1 (-3))).

(** The same with delimiters in the symbol and in the pattern. *)
Definition sample_delimiters : jsval :=
  snapshot (JStr (lit "EUR{USD}")) (JStr (lit "{hammer}"))
    (JNum (dec 2 (-3))) (JNum (dec 1 (-3))).

(** A world for [TradingWorker] at 2026-11-02 10:00:00 UTC, by the
    outcomes of its two outbound calls. *)
Definition worker_world (ai telegram : FetchOutcome) : Worker.World :=
  {| Worker.now := 1793613600000;
     Worker.clock_derived := 1793613600001;
     Worker.clock_notify := 1793613600900;
     Worker.fetch_ai := fun _ _ => ai;
     Worker.fetch_telegram := fun _ => telegram |}.

(** A substitution of a template that interpolates [expr] satisfies [P]. *)
Definition sub_satisfies (expr : string) (P : jsstring -> Prop) (p : part) : Prop :=
  match p with
  | Sub e s => e = expr -> P s
  | Lit _ => True
  end.

Definition no_delimiter (s : jsstring) : Prop :=
  Forall (fun c => is_delimiter c = false) s.

(** Inputs of [filterSignal]: a confident sell, an RSI of 50, a volume at
    its average, and a daily trend by name. *)
Definition confident_sell : Index.Signal :=
  {| Index.signal := lit "sell";
     Index.confidence := JStr (lit "high");
     Index.explanation := JStr (lit "MACD falling") |}.
Definition rsi_fifty : jsval := obj [("rsi", JNum (num_of_Z 50))]%string.
Definition one : jsval := JNum (num_of_Z 1).
Definition d1 (trend : string) : jsval := obj [("d1Trend", JStr (lit trend))]%string.

(** What [filterSignal] returns when it rejects. *)
Definition held {rt : Runtime} (s : Index.Signal) (why : string) : Index.Signal :=
  {| Index.signal := lit "hold";
     Index.confidence := JStr (lit "low");
     Index.explanation := JStr (ToString (Index.explanation s) ++ lit why) |}.

(** The chunks of the prompt [TradingAI.callAI] builds for a snapshot: its
    derived values, then its template. *)
Definition worker_prompt_parts {rt : Runtime} (w : Worker.World) (data : jsval)
  : result (list part) :=
  prev <- get data "macd_hist_prev" ;;
  derived <- Worker.calculateDerivedValues w data
               (match prev with JUndefined => JNum (num_of_Z 0) | _ => prev end) ;;
  Worker.promptParts data derived.

(** Requests.  The pre-shared token, an environment that has it, and a
    POST of a JSON value with a given [x-api-key] header. *)
Definition secret : jsstring := lit "s3cret".

Definition env : Env :=
  {| PRE_SHARED_TOKEN := Some secret; FREEV36_API_KEY := Some (lit "sk-1") |}.

Definition post (key : option jsstring) (body : jsval) : Request :=
  {| method := lit "POST"; x_api_key := key; req_body := Node.JSON_stringify body |}.

(** A body for [index.js]. *)
Definition index_sample : jsval :=
  obj [("symbol", JStr (lit "EURUSD"));
       ("timeframe", JStr (lit "M15"));
       ("ohlc", obj [("open", JNum (dec 11 (-1))); ("high", JNum (dec 12 (-1)));
                     ("low", JNum (dec 10 (-1))); ("close", JNum (dec 115 (-2)))]);
       ("prevCandles", JArr []);
       ("indicators", obj [("rsi", JNum (num_of_Z 55));
                           ("ema9", JNum (dec 112 (-2)));
                           ("ema21", JNum (dec 11 (-1)));
                           ("macd", JNum (dec 1 (-3)));
                           ("macd_signal", JNum (dec 5 (-4)))]);
       ("volume", JNum (num_of_Z 1200));
       ("avgVolume", JNum (num_of_Z 1000));
       ("keyLevels", obj [("s1", JNum (dec 109 (-2))); ("r1", JNum (dec 12 (-1)))]);
       ("higherTF", obj [("h1Trend", JStr (lit "bullish"));
                         ("d1Trend", JStr (lit "bullish"))]);
       ("marketContext", obj [("session", JStr (lit "london"));
                              ("volatility", JStr (lit "normal"))])]%string.

(** The model endpoint answering 200 with a completion whose content is
    [content]. *)
Definition completion (content : jsstring) : FetchOutcome :=
  Responded true 200
    (Node.JSON_stringify
       (obj [("choices",
              JArr [obj [("message", obj [("content", JStr content)])]])]%string)).

Definition buy_reply : jsstring :=
  Node.JSON_stringify
    (obj [("signal", JStr (lit "BUY")); ("explanation", JStr (lit "trend up"))]%string).

(** A world for [index.js] at 2026-11-02 10:00:00 UTC. *)
Definition index_world (ai telegram : FetchOutcome) : Index.World :=
  {| Index.now_lookup := 1793613600000;
     Index.now_store := 1793613600800;
     Index.clock_alert := 1793613600900;
     Index.fetch_ai := fun _ _ => ai;
     Index.fetch_telegram := fun _ => telegram |}.

(** The status of an answer of [TradingWorker.handle]; 0 when it threw. *)
Definition status_of (r : result Response) : Z :=
  match r with Ok resp => status resp | Throw _ => 0 end.

(** The answers of the two handlers that carry no signal. *)
Definition too_many_requests : Response :=
  {| status := 429; payload := obj [("error", JStr (lit "Too many requests"))]%string |}.
Definition unauthorized : Response :=
  {| status := 401; payload := obj [("error", JStr (lit "Unauthorized"))]%string |}.

(** A fenced reply, as models wrap them. *)
Definition reply_fenced : jsstring :=
  lit "```json
{" ++ quoted "signal" ++ lit ":" ++ quoted "BUY" ++ lit ","
  ++ quoted "explanation" ++ lit ":" ++ quoted "x" ++ lit "}
```".

(** [TradingWorker] run on a list of arrival times, the sample request
    each time: the statuses, threading [lastRequestTime]. *)
Fixpoint statuses {rt : Runtime} (last : Z) (arrivals : list Z) : list Z :=
  match arrivals with
  | [] => []
  | t :: rest =>
      let w := {| Worker.now := t;
                  Worker.clock_derived := t;
                  Worker.clock_notify := t;
                  Worker.fetch_ai := fun _ _ => completion buy_reply;
                  Worker.fetch_telegram := fun _ => Responded true 200 [] |} in
      let '(r, last') := Worker.handle env w last (post (Some secret) sample) in
      status_of r :: statuses last' rest
  end.

(* ===================================================================== *)
(** * Vocabulary of the further properties *)
(* ===================================================================== *)

(** The code fence, its longer form, the backtick, and substring search. *)
Definition fence : jsstring := lit "```".
Definition json_fence : jsstring := lit "```json".
Definition backtick : jschar := 96%N.

Fixpoint contains (p s : jsstring) : bool :=
  starts_with p s || match s with [] => false | _ :: r => contains p r end.

(** A reply wrapped in fences, as models send them. *)
Definition fenced (body : jsstring) : jsstring := json_fence ++ body ++ fence.

(** [TradingWorker] on requests that arrive one after another: the clock
    readings of those it did not answer 429, threading
    [lastRequestTime]. *)
Fixpoint accepted {rt : Runtime} (env0 : Env) (last : Z)
  (arrivals : list (Worker.World * Request)) : list Z :=
  match arrivals with
  | [] => []
  | (w, request) :: rest =>
      let '(r, last') := Worker.handle env0 w last request in
      if status_of r =? 429 then accepted env0 last' rest
      else Worker.now w :: accepted env0 last' rest
  end.

(** Times that lie at least [gap] apart, the first one from [last]. *)
Fixpoint spaced (gap last : Z) (times : list Z) : Prop :=
  match times with
  | [] => True
  | t :: rest => gap <= t - last /\ spaced gap t rest
  end.

(** What a completion carries: [data?.choices?.[0]?.message?.content]. *)
Definition content_of (data : jsval) : jsval :=
  opt_get (opt_get (opt_first (opt_get data "choices")) "message") "content".

(** Gateway outcomes that make [TradingAI.fetchWithTimeout] throw: a
    rejection, a response that is not ok, a body that is no JSON, a content
    that is truthy and no string. *)
Definition gateway_failure {rt : Runtime} (o : FetchOutcome) : bool :=
  match o with
  | Rejected => true
  | Responded ok _ body =>
      negb ok
      || match JSON_parse body with
         | None => true
         | Some data =>
             truthy (content_of data) && negb (is_string (content_of data))
         end
  end.

(** Gateway outcomes that make [callAI] of [index.js] throw: a rejection,
    a response that is not ok, a body that is no JSON, a completion without
    content. *)
Definition no_completion {rt : Runtime} (o : FetchOutcome) : bool :=
  match o with
  | Rejected => true
  | Responded ok _ body =>
      negb ok
      || match JSON_parse body with
         | None => true
         | Some data => negb (truthy (content_of data))
         end
  end.

(** The three objects [generateFallbackSignal] can return. *)
Definition Worker_buy : Worker.Signal :=
  {| Worker.signal := lit "buy";
     Worker.explanation := lit "Fallback: EMA bullish & RSI not overbought" |}.
Definition Worker_sell : Worker.Signal :=
  {| Worker.signal := lit "sell";
     Worker.explanation := lit "Fallback: EMA bearish & RSI not oversold" |}.
Definition fallback_signals : list Worker.Signal :=
  [Worker_buy; Worker_sell; Worker_hold].

(** The values [buildAIPrompt] formats with [toFixed]. *)
Definition prompt_numbers (data : jsval) : list jsval :=
  [at2 data "ohlc" "close"; at1 data "support"; at1 data "resistance";
   at2 data "indicators" "ema9"; at2 data "indicators" "ema21";
   at2 data "indicators" "rsi"; at2 data "indicators" "macd";
   at2 data "indicators" "macd_signal"; at1 data "macd_hist_prev";
   at1 data "adx"; at1 data "atr"; at1 data "volume_ratio"].

(** The answer of [TradingWorker.handle] when its processing block
    throws, and the 400 of [parseRequest]. *)
Definition processing_failed {rt : Runtime} (error : exn) : Response :=
  {| status := 500;
     payload := obj [("error", JStr (lit "Processing failed"));
                     ("message", JStr (message error))]%string |}.

Definition bad_request (why : jsstring) : Response :=
  {| status := 400; payload := obj [("error", JStr why)]%string |}.

(** The header check of [index.js]: [apiKey !== PRE_SHARED_TOKEN] fails. *)
Definition index_authorizes (env0 : Env) (request : Request) : bool :=
  match x_api_key request, PRE_SHARED_TOKEN env0 with
  | Some apiKey, Some token => str_eqb apiKey token
  | _, _ => false
  end.

(** A request [index.js] would answer from its cache at [now]. *)
Definition fresh_entry (now : Z) (key : jsstring) (cache : Index.Cache) : bool :=
  match Index.cache_get key cache with
  | Some cached => now - Index.timestamp cached <? Index.CACHE_TTL
  | None => false
  end.

(** The times of a list that fall into the window of [len] milliseconds
    from [start]. *)
Definition within (start len : Z) (times : list Z) : list Z :=
  filter (fun t => (start <=? t) && (t <? start + len)) times.

(** A world with another model gateway. *)
Definition with_gateway (w : Worker.World)
  (ai : jsstring -> jsstring -> FetchOutcome) : Worker.World :=
  {| Worker.now := Worker.now w;
     Worker.clock_derived := Worker.clock_derived w;
     Worker.clock_notify := Worker.clock_notify w;
     Worker.fetch_ai := ai;
     Worker.fetch_telegram := Worker.fetch_telegram w |}.

(** An object with one property set, and with one property removed. *)
Fixpoint put_assoc (k : jsstring) (x : jsval) (l : list (jsstring * jsval))
  : list (jsstring * jsval) :=
  match l with
  | [] => [(k, x)]
  | (k', y) :: l' =>
      if str_eqb k k' then (k', x) :: l' else (k', y) :: put_assoc k x l'
  end.

Definition with_field (k : string) (x : jsval) (v : jsval) : jsval :=
  match v with JObj l => JObj (put_assoc (lit k) x l) | _ => v end.

Definition without (k : string) (v : jsval) : jsval :=
  match v with
  | JObj l => JObj (filter (fun kv => negb (str_eqb (fst kv) (lit k))) l)
  | _ => v
  end.

(** The sample snapshot with its close price sent as text, and without
    its previous MACD histogram. *)
Definition sample_text_close : jsval :=
  with_field "ohlc" (with_field "close" (JStr (lit "1.15")) (at1 sample "ohlc")) sample.

Definition sample_no_prev : jsval := without "macd_hist_prev" sample.

(** A cache whose entries all carry one of the three signal values. *)
Definition valid_cache (cache : Index.Cache) : Prop :=
  Forall (fun kv => In (Index.signal (Index.data (snd kv))) signals) cache.

(** What [handleRequest] throws on a body without symbol or timeframe. *)
Definition missing_fields : exn := Error (lit "Missing required fields").

(** A non-negative number, and a positive one. *)
Definition not_negative (v : jsval) : Prop :=
  exists x, v = JNum x /\ num_le zero x = true.
Definition positive (v : jsval) : Prop :=
  exists x, v = JNum x /\ num_lt zero x = true.

(** A reply whose explanation is a number. *)
Definition reply_number_explanation : jsstring :=
  lit "{" ++ quoted "signal" ++ lit ":" ++ quoted "buy" ++ lit ","
  ++ quoted "explanation" ++ lit ":5}".

(** The sample body of [index.js] with an RSI no validator accepts. *)
Definition index_sample_bad_rsi : jsval :=
  with_field "indicators"
    (with_field "rsi" (JNum (num_of_Z 150)) (at1 index_sample "indicators"))
    index_sample.

(** The Authorization header both scripts send to the gateway. *)
Definition bearer (env0 : Env) : jsstring :=
  lit "Bearer " ++ match FREEV36_API_KEY env0 with
                   | Some k => k
                   | None => lit "undefined"
                   end.

(** The chunks of the prompt [callAI] of [index.js] builds for a body. *)
Definition index_prompt_parts {rt : Runtime} (requestData : jsval)
  : result (list part) :=
  Index.promptParts (at1 requestData "symbol") (at1 requestData "timeframe")
    (at1 requestData "ohlc") (at1 requestData "indicators")
    (at1 requestData "volume") (at1 requestData "avgVolume")
    (at1 requestData "keyLevels") (at1 requestData "higherTF")
    (at1 requestData "marketContext").

(* ===================================================================== *)
(** * Facts about the embedding of values *)
(* ===================================================================== *)

Section ValueFacts.
Context {rt : Runtime}.

Lemma SFcompare_antisym (x y : num) :
  SFcompare y x = option_map CompOpp (SFcompare x y).
Proof.
  destruct x as [sx|sx| |sx mx ex], y as [sy|sy| |sy my ey]; simpl;
    try reflexivity;
    try (destruct sx; reflexivity); try (destruct sy; reflexivity);
    try (destruct sx, sy; reflexivity).
  pose proof (Pos.compare_cont_antisym mx my Eq) as P; simpl in P.
  destruct sx, sy; simpl; try reflexivity;
    rewrite (Z.compare_antisym ex ey);
    destruct (ex ?= ey) eqn:E; simpl; try reflexivity;
    rewrite <- P; reflexivity.
Qed.

Lemma num_lt_asym (x y : num) : num_lt x y = true -> num_lt y x = false.
Proof.
  unfold num_lt, SFltb. rewrite (SFcompare_antisym x y).
  destruct (SFcompare x y) as [[]|]; simpl; congruence.
Qed.

(** On numbers that are not NaN, [x < y] fails exactly when [y <= x]. *)
Lemma num_lt_false_le (x y : num) :
  is_nan x = false -> is_nan y = false ->
  num_lt x y = negb (num_le y x).
Proof.
  intros Hx Hy. unfold num_lt, num_le, SFltb, SFleb.
  rewrite (SFcompare_antisym x y).
  destruct x, y; try discriminate; simpl;
    repeat match goal with |- context [match ?c with _ => _ end] =>
      destruct c; simpl end; reflexivity.
Qed.

Lemma num_le_not_nan (x y : num) :
  num_le x y = true -> is_nan x = false /\ is_nan y = false.
Proof.
  unfold num_le, SFleb. destruct x, y; simpl; try discriminate; auto.
Qed.

Lemma num_le_Infinity (x : num) : is_nan x = false -> num_le x Infinity = true.
Proof. destruct x as [| [] | |]; simpl; try discriminate; reflexivity. Qed.

Lemma N_ltb_asym (c d : N) : (c <? d)%N = true -> (d <? c)%N = false.
Proof. rewrite N.ltb_lt, N.ltb_ge. lia. Qed.

Lemma str_ltb_asym (s t : jsstring) : str_ltb s t = true -> str_ltb t s = false.
Proof.
  revert t. induction s as [|c s IH]; intros [|d t]; simpl; try congruence.
  destruct (c <? d)%N eqn:Hcd.
  - rewrite (N_ltb_asym _ _ Hcd). destruct (d <? c)%N eqn:Hdc; [|reflexivity].
    apply N_ltb_asym in Hdc. congruence.
  - destruct (d <? c)%N; [discriminate|]. apply IH.
Qed.

Lemma IsLessThan_asym (a b : jsval) :
  IsLessThan a b = Some true -> IsLessThan b a <> Some true.
Proof.
  unfold IsLessThan.
  destruct (ToPrimitive a) as [| |ba|xa|sa|la|la] eqn:Ea;
    destruct (ToPrimitive b) as [| |bb|xb|sb|lb|lb] eqn:Eb;
    try (intros H; injection H as H; apply str_ltb_asym in H; congruence);
    intros H;
    repeat match goal with
           | H : context [if ?c then None else _] |- _ => destruct c
           | |- context [if ?c then None else _] => destruct c
           end;
    try discriminate;
    injection H as H; apply num_lt_asym in H; congruence.
Qed.

Lemma js_lt_gt (a b : jsval) : js_lt a b = true -> js_gt a b = false.
Proof.
  unfold js_lt, js_gt. intros H.
  destruct (IsLessThan a b) as [[]|] eqn:E; try discriminate.
  apply IsLessThan_asym in E.
  destruct (IsLessThan b a) as [[]|]; congruence.
Qed.

Lemma js_gt_lt (a b : jsval) : js_gt a b = true -> js_lt a b = false.
Proof.
  intros H. destruct (js_lt a b) eqn:E; [|reflexivity].
  apply js_lt_gt in E. congruence.
Qed.

(** Comparisons of two numbers are the IEEE ones. *)
Lemma js_lt_num (x y : num) : js_lt (JNum x) (JNum y) = num_lt x y.
Proof.
  unfold js_lt, IsLessThan; cbv [ToNumber ToPrimitive].
  destruct (is_nan x || is_nan y) eqn:E.
  - apply orb_true_iff in E. unfold num_lt, SFltb.
    destruct x, y; simpl in *; try reflexivity; destruct E; discriminate.
  - destruct (num_lt x y); reflexivity.
Qed.

Lemma js_gt_num (x y : num) : js_gt (JNum x) (JNum y) = num_lt y x.
Proof. exact (js_lt_num y x). Qed.

Lemma js_le_num (x y : num) : js_le (JNum x) (JNum y) = num_le x y.
Proof.
  unfold js_le, IsLessThan; cbv [ToNumber ToPrimitive].
  destruct (is_nan y || is_nan x) eqn:E.
  - apply orb_true_iff in E. unfold num_le, SFleb.
    destruct x, y; simpl in *; try reflexivity; destruct E; discriminate.
  - apply orb_false_iff in E as [Hy Hx].
    rewrite (num_lt_false_le y x Hy Hx). destruct (num_le x y); reflexivity.
Qed.

End ValueFacts.

(* ===================================================================== *)
(** * The fallback signal generator *)
(* ===================================================================== *)

Lemma buy_in_signals : In (lit "buy") signals.
Proof. vm_compute. tauto. Qed.

Lemma sell_in_signals : In (lit "sell") signals.
Proof. vm_compute. tauto. Qed.

Lemma hold_in_signals : In (lit "hold") signals.
Proof. vm_compute. tauto. Qed.

Section Fallback.
Context {rt : Runtime}.

Lemma get_triple (ema9 ema21 rsi : jsval) :
  get (triple ema9 ema21 rsi) "ema9" = Ok ema9
  /\ get (triple ema9 ema21 rsi) "ema21" = Ok ema21
  /\ get (triple ema9 ema21 rsi) "rsi" = Ok rsi.
Proof. repeat split; reflexivity. Qed.

(** The generator as one conditional on the two tests of the source. *)
Lemma generateFallbackSignal_triple (ema9 ema21 rsi : jsval) :
  Worker.generateFallbackSignal (triple ema9 ema21 rsi) =
  Ok (if js_gt ema9 ema21 && js_lt rsi seventy
      then {| Worker.signal := lit "buy";
              Worker.explanation := lit "Fallback: EMA bullish & RSI not overbought" |}
      else if js_lt ema9 ema21 && js_gt rsi thirty
      then {| Worker.signal := lit "sell";
              Worker.explanation := lit "Fallback: EMA bearish & RSI not oversold" |}
      else Worker_hold).
Proof.
  destruct (get_triple ema9 ema21 rsi) as (G1 & G2 & G3).
  unfold Worker.generateFallbackSignal.
  rewrite G1, G2, G3. cbn [bind]. fold seventy thirty.
  destruct (js_gt ema9 ema21 && js_lt rsi seventy); [reflexivity|].
  destruct (js_lt ema9 ema21 && js_gt rsi thirty); reflexivity.
Qed.

(** C8. [generateFallbackSignal] returns on every triple
    (ema9, ema21, rsi) of values its comparisons can coerce, which numbers,
    strings, booleans, null and undefined all are, and takes no [World],
    so it cannot reach the network: it answers buy when ema9 > ema21 and
    rsi < 70, sell when ema9 < ema21 and rsi > 30, hold in every other
    case, and so always exactly one of buy, sell, hold. *)
Theorem generateFallbackSignal_rule (ema9 ema21 rsi : jsval) :
  coercible ema9 = true -> coercible ema21 = true -> coercible rsi = true ->
  exists s,
    Worker.generateFallbackSignal (triple ema9 ema21 rsi) = Ok s
    /\ In (Worker.signal s) signals
    /\ (js_gt ema9 ema21 = true /\ js_lt rsi seventy = true ->
        Worker.signal s = lit "buy")
    /\ (js_lt ema9 ema21 = true /\ js_gt rsi thirty = true ->
        Worker.signal s = lit "sell")
    /\ (~ (js_gt ema9 ema21 = true /\ js_lt rsi seventy = true) ->
        ~ (js_lt ema9 ema21 = true /\ js_gt rsi thirty = true) ->
        Worker.signal s = lit "hold").
Proof.
  intros _ _ _.
  eexists. split; [apply generateFallbackSignal_triple|].
  destruct (js_gt ema9 ema21) eqn:Hgt.
  - rewrite (js_gt_lt _ _ Hgt). cbn [andb].
    destruct (js_lt rsi seventy) eqn:H70; cbn [Worker.signal Worker_hold].
    + split; [apply buy_in_signals|]. split; [reflexivity|].
      split; [intros [A _]; discriminate A|].
      intros Hn _. exfalso. apply Hn. split; reflexivity.
    + split; [apply hold_in_signals|]. split; [intros [_ A]; discriminate A|].
      split; [intros [A _]; discriminate A|]. reflexivity.
  - cbn [andb].
    destruct (js_lt ema9 ema21 && js_gt rsi thirty) eqn:Hs;
      cbn [Worker.signal Worker_hold].
    + split; [apply sell_in_signals|]. split; [intros [A _]; discriminate A|].
      split; [reflexivity|].
      intros _ Hn. exfalso. apply Hn. apply andb_true_iff in Hs. exact Hs.
    + split; [apply hold_in_signals|]. split; [intros [A _]; discriminate A|].
      split; [|reflexivity].
      intros [A B]. rewrite A, B in Hs. discriminate Hs.
Qed.

End Fallback.

(** Under [node]: ema9 = 2 above ema21 = 1 at an RSI of 50 is a buy. *)
Lemma generateFallbackSignal_rule_witness :
  exists s,
    Worker.generateFallbackSignal (rt := node)
      (triple (JNum (num_of_Z 2)) (JNum (num_of_Z 1)) (JNum (num_of_Z 50)))
    = Ok s
    /\ Worker.signal s = lit "buy".
Proof.
  destruct (@generateFallbackSignal_rule node (JNum (num_of_Z 2))
              (JNum (num_of_Z 1)) (JNum (num_of_Z 50)) eq_refl eq_refl eq_refl)
    as (s & E & _ & B & _).
  exists s. split; [exact E|]. apply B. split; vm_compute; reflexivity.
Defined.

(* ===================================================================== *)
(** * The response interpreters *)
(* ===================================================================== *)

Section Interpreter.
Context {rt : Runtime}.

Lemma str_eqb_eq (s t : jsstring) : str_eqb s t = true <-> s = t.
Proof.
  revert t. induction s as [|c s IH]; intros [|d t]; simpl;
    try (split; congruence).
  rewrite andb_true_iff, N.eqb_eq, IH. split.
  - intros [-> ->]. reflexivity.
  - intros H. injection H as -> ->. auto.
Qed.

Lemma includes_In (l : list jsstring) (s : jsstring) :
  includes l s = true <-> In s l.
Proof.
  unfold includes. rewrite existsb_exists. split.
  - intros (x & Hx & E). apply str_eqb_eq in E. subst. exact Hx.
  - intros H. exists s. split; [exact H|]. apply str_eqb_eq. reflexivity.
Qed.

Lemma fallback_of_nothing : Worker.generateFallbackSignal (JObj []) = Ok Worker_hold.
Proof. reflexivity. Qed.

Lemma firstn_le {A} (n : nat) (l : list A) : (List.length (firstn n l) <= n)%nat.
Proof. rewrite length_firstn. lia. Qed.

(** What [tryParseAI] returns, by the shape of the parsed reply. *)
Lemma tryParseAI_cases (aiText : jsstring) :
  Worker.tryParseAI aiText = Ok Worker_hold
  \/ exists l x,
       JSON_parse (cleaned aiText) = Some (JObj l)
       /\ assoc (lit "signal") l = JStr x
       /\ In (toLowerCase x) signals
       /\ (truthy (assoc (lit "explanation") l) = false
           \/ is_string (assoc (lit "explanation") l) = true)
       /\ Worker.tryParseAI aiText =
          Ok {| Worker.signal := toLowerCase x;
                Worker.explanation :=
                  if truthy (assoc (lit "explanation") l)
                  then substring0 500 (ToString (assoc (lit "explanation") l))
                  else lit "No explanation" |}.
Proof.
  unfold Worker.tryParseAI, Worker.tryParseAI_try, parse_json.
  fold (cleaned aiText).
  destruct (JSON_parse (cleaned aiText)) as [v|]; [|left; reflexivity].
  destruct v as [| |b|n|s|l|l]; try (left; reflexivity).
  cbn [bind get try_catch].
  change (lit "signal") with (lit "signal") in *.
  destruct (assoc (lit "signal") l) as [| |b|n|x|l'|l'] eqn:Es;
    try (left; reflexivity).
  fold signals.
  destruct (includes signals (toLowerCase x)) eqn:Hin; [|left; reflexivity].
  cbn [negb].
  destruct (truthy (assoc (lit "explanation") l)) eqn:Ht;
    destruct (is_string (assoc (lit "explanation") l)) eqn:Hs;
    cbn [negb andb]; try (left; reflexivity);
    right; exists l, x; rewrite Ht;
    repeat split; auto; apply includes_In; exact Hin.
Qed.

(** What [parseAIResponse] returns on a string. *)
Lemma parseAIResponse_cases (aiText : jsstring) :
  Index.parseAIResponse (JStr aiText) = Ok Index_hold
  \/ exists l x,
       JSON_parse (cleaned aiText) = Some (JObj l)
       /\ assoc (lit "signal") l = JStr x
       /\ In (toLowerCase x) signals
       /\ Index.parseAIResponse (JStr aiText) =
          Ok {| Index.signal := toLowerCase x;
                Index.confidence :=
                  js_or (assoc (lit "confidence") l) (JStr (lit "medium"));
                Index.explanation :=
                  js_or (assoc (lit "explanation") l)
                        (JStr (lit "No explanation provided")) |}.
Proof.
  unfold Index.parseAIResponse, Index.parseAIResponse_try, parse_json.
  cbn [as_string bind]. fold (cleaned aiText).
  destruct (JSON_parse (cleaned aiText)) as [v|]; [|left; reflexivity].
  destruct v as [| |b|n|s|l|l]; try (left; reflexivity).
  cbn [bind get try_catch].
  destruct (assoc (lit "signal") l) as [| |b|n|x|l'|l'] eqn:Es;
    try (left; reflexivity);
    try (destruct (truthy _); left; reflexivity).
  destruct (truthy (JStr x)); [|left; reflexivity].
  cbn [negb call_toLowerCase as_string bind]. fold signals.
  destruct (includes signals (toLowerCase x)) eqn:Hin; [|left; reflexivity].
  right. exists l, x. repeat split; auto. apply includes_In; exact Hin.
Qed.





End Interpreter.

(* ===================================================================== *)
(** * Explanation length and default confidence *)
(* ===================================================================== *)

(** C5, as stated, fails in [index.js]: an explanation of 501 code units
    comes back whole. *)
Lemma index_explanation_not_truncated :
  Index.parseAIResponse (rt := node) (JStr reply_long_explanation)
  = Ok {| Index.signal := lit "buy";
          Index.confidence := JStr (lit "medium");
          Index.explanation := JStr (repeat 97%N 501) |}
  /\ (500 < List.length (repeat 97%N 501))%nat.
Proof. split; [vm_compute; reflexivity | apply Nat.ltb_lt; vm_compute; reflexivity]. Qed.

Section ExplanationAndConfidence.
Context {rt : Runtime}.

Lemma tryParseAI_explained (aiText : jsstring) l x e :
  JSON_parse (cleaned aiText) = Some (JObj l) ->
  assoc (lit "signal") l = JStr x ->
  In (toLowerCase x) signals ->
  assoc (lit "explanation") l = JStr e -> e <> [] ->
  Worker.tryParseAI aiText =
  Ok {| Worker.signal := toLowerCase x; Worker.explanation := firstn 500 e |}.
Proof.
  intros P S I X Ne.
  unfold Worker.tryParseAI, Worker.tryParseAI_try, parse_json.
  fold (cleaned aiText). rewrite P. cbn [bind get].
  rewrite S. fold signals.
  apply includes_In in I. rewrite I, X.
  destruct e; [congruence|]. reflexivity.
Qed.

(** C5, amended.  [TradingAI.tryParseAI] returns no confidence and an
    explanation of at most 500 code units: the first 500 of the reply's
    explanation when that is a non-empty string.  [parseAIResponse] of
    [index.js] fills in [medium] when the reply has no confidence and
    passes the explanation on as it is. *)
Theorem explanation_and_confidence (aiText : jsstring) :
  (exists s,
      Worker.tryParseAI aiText = Ok s
      /\ (List.length (Worker.explanation s) <= 500)%nat
      /\ (forall l x e,
             JSON_parse (cleaned aiText) = Some (JObj l) ->
             assoc (lit "signal") l = JStr x ->
             In (toLowerCase x) signals ->
             assoc (lit "explanation") l = JStr e -> e <> [] ->
             Worker.explanation s = firstn 500 e))
  /\ (forall l x,
         JSON_parse (cleaned aiText) = Some (JObj l) ->
         assoc (lit "signal") l = JStr x -> x <> [] ->
         In (toLowerCase x) signals ->
         exists s,
           Index.parseAIResponse (JStr aiText) = Ok s
           /\ (assoc (lit "confidence") l = JUndefined ->
               Index.confidence s = JStr (lit "medium"))
           /\ (truthy (assoc (lit "explanation") l) = true ->
               Index.explanation s = assoc (lit "explanation") l)).
Proof.
  split.
  - destruct (tryParseAI_cases aiText) as [E | (l & x & P & S & I & _ & E)];
      rewrite E; eexists; (split; [reflexivity|]); cbn [Worker.explanation].
    + split; [apply Nat.leb_le; vm_compute; reflexivity|].
      intros l x e P S I X Ne.
      rewrite (tryParseAI_explained aiText P S I X Ne) in E.
      symmetry.
      exact (f_equal (fun r => match r with
                               | Ok s => Worker.explanation s
                               | Throw _ => []
                               end) E).
    + split.
      * destruct (truthy _); [exact (firstn_le 500 _) | apply Nat.leb_le; vm_compute; reflexivity].
      * intros l' x' e P' S' I' X Ne.
        rewrite (tryParseAI_explained aiText P' S' I' X Ne) in E.
        symmetry.
      exact (f_equal (fun r => match r with
                               | Ok s => Worker.explanation s
                               | Throw _ => []
                               end) E).
  - intros l x P S Nx I.
    unfold Index.parseAIResponse, Index.parseAIResponse_try, parse_json.
    cbn [as_string bind]. fold (cleaned aiText). rewrite P. cbn [bind get].
    rewrite S. destruct x as [|c x]; [congruence|].
    cbn [truthy negb call_toLowerCase as_string bind]. fold signals.
    apply includes_In in I. rewrite I. cbn [negb try_catch].
    eexists. split; [reflexivity|]. cbn [Index.confidence Index.explanation].
    split.
    + intros ->. reflexivity.
    + intros T. unfold js_or. rewrite T. reflexivity.
Qed.

End ExplanationAndConfidence.

(** The long reply under [node]: [index.js] defaults the confidence and
    keeps all 501 code units. *)
Lemma explanation_and_confidence_witness :
  exists s,
    Index.parseAIResponse (rt := node) (JStr reply_long_explanation) = Ok s
    /\ Index.confidence s = JStr (lit "medium")
    /\ Index.explanation s = JStr (repeat 97%N 501).
Proof.
  destruct (proj2 (explanation_and_confidence (rt := node) reply_long_explanation)
              [(lit "signal", JStr (lit "buy"));
               (lit "explanation", JStr (repeat 97%N 501))]
              (lit "buy"))
    as (s & E & C & X).
  - vm_compute. reflexivity.
  - reflexivity.
  - discriminate.
  - vm_compute. tauto.
  - exists s. split; [exact E|]. split.
    + apply C. reflexivity.
    + rewrite X; reflexivity.
Defined.

(* ===================================================================== *)
(** * The indicator validators *)
(* ===================================================================== *)

(** C2, as stated, fails in [TradingAI.validateInputs], which never looks
    at the MACD fields: a snapshot whose [macd] is a string is accepted. *)
Lemma validateInputs_accepts_text_macd :
  at2 sample_macd_text "indicators" "macd" = JStr (lit "abc")
  /\ Worker.validateInputs (rt := node) sample_macd_text = Ok tt.
Proof. split; vm_compute; reflexivity. Qed.

Section Validators.
Context {rt : Runtime}.

Lemma get_opt_get (v : jsval) (k : string) :
  is_nullish v = false -> get v k = Ok (opt_get v k).
Proof. destruct v; simpl; congruence. Qed.

Lemma zero_not_nan : is_nan zero = false.
Proof. reflexivity. Qed.

(** [validateIndicator] accepts exactly the numbers of the interval. *)
Lemma validateIndicator_ok (v : jsval) (lo hi : num) (name : string) :
  in_range v lo hi -> Worker.validateIndicator v lo hi name = Ok tt.
Proof.
  intros (x & -> & L & H). unfold Worker.validateIndicator.
  destruct (num_le_not_nan _ _ L) as [Nlo Nx].
  destruct (num_le_not_nan _ _ H) as [_ Nhi].
  rewrite js_lt_num, js_gt_num.
  rewrite (num_lt_false_le x lo Nx Nlo), (num_lt_false_le hi x Nhi Nx), L, H.
  cbv [ToNumber ToPrimitive is_number negb orb]. rewrite Nx. reflexivity.
Qed.

Lemma validateIndicator_bad (v : jsval) (lo hi : num) (name : string) :
  is_nan lo = false -> is_nan hi = false ->
  ~ in_range v lo hi ->
  Worker.validateIndicator v lo hi name = Throw (invalid_indicator name lo hi).
Proof.
  intros Nlo Nhi Out. unfold Worker.validateIndicator.
  destruct v as [| |b|x|s|l|l]; try reflexivity.
  rewrite js_lt_num, js_gt_num.
  cbv [ToNumber ToPrimitive is_number negb]. cbn [orb].
  destruct (is_nan x) eqn:Nx; [reflexivity|]. cbn [orb].
  rewrite (num_lt_false_le x lo Nx Nlo), (num_lt_false_le hi x Nhi Nx).
  destruct (num_le lo x) eqn:L; [|reflexivity].
  destruct (num_le x hi) eqn:H; [|reflexivity].
  exfalso. apply Out. exists x. auto.
Qed.

Lemma str_neq (s t : jsstring) : str_eqb s t = false -> s <> t.
Proof. intros H E. apply str_eqb_eq in E. congruence. Qed.

Lemma Error_neq (s t : jsstring) : s <> t -> Error s <> Error t.
Proof. intros H E. injection E as E. auto. Qed.

(** The five errors of [validateInputs] name different things. *)
Lemma validateInputs_errors_distinct :
  NoDup [invalid_indicator "RSI" zero hundred;
         invalid_indicator "ADX" zero hundred;
         invalid_indicator "ATR" zero Infinity;
         high_below_low; not_positive].
Proof.
  assert (D : forall (n : nat) (s t : jsstring),
             nth_error s n <> nth_error t n -> Error s <> Error t).
  { intros n s t H E. apply H.
    exact (f_equal (fun e => match e with
                             | Error m => nth_error m n
                             | _ => None
                             end) E). }
  unfold invalid_indicator, high_below_low, not_positive.
  repeat (apply NoDup_cons; [cbn [In]; intros H|]); [..|apply NoDup_nil];
    repeat match goal with
           | H : _ \/ _ |- _ => destruct H as [H|H]
           | H : False |- _ => destruct H
           end;
    revert H.
  all: first [ apply (D 8%nat); intros Q; vm_compute in Q; discriminate Q
             | apply (D 9%nat); intros Q; vm_compute in Q; discriminate Q
             | apply (D 14%nat); intros Q; vm_compute in Q; discriminate Q ].
Qed.

Lemma index_errors_distinct :
  NoDup [index_high_below_low; index_negative; index_rsi; index_macd].
Proof.
  repeat (apply NoDup_cons; [cbn [In]; intros H|]); [..|apply NoDup_nil];
    repeat match goal with
           | H : _ \/ _ |- _ => destruct H as [H|H]
           | H : False |- _ => destruct H
           end;
    revert H; apply Error_neq; apply str_neq; vm_compute; reflexivity.
Qed.

(** [validateInputs] on a snapshot that has its two sub-objects. *)
Lemma validateInputs_unfold (data : jsval) :
  is_nullish data = false ->
  is_nullish (at1 data "indicators") = false ->
  is_nullish (at1 data "ohlc") = false ->
  Worker.validateInputs data =
  (Worker.validateIndicator (at2 data "indicators" "rsi") zero hundred "RSI" ;;;
   Worker.validateIndicator (at1 data "adx") zero hundred "ADX" ;;;
   Worker.validateIndicator (at1 data "atr") zero Infinity "ATR" ;;;
   if js_lt (at2 data "ohlc" "high") (at2 data "ohlc" "low")
   then Throw high_below_low
   else if js_le (at2 data "ohlc" "open") (JNum zero)
           || js_le (at2 data "ohlc" "high") (JNum zero)
           || js_le (at2 data "ohlc" "low") (JNum zero)
           || js_le (at2 data "ohlc" "close") (JNum zero)
   then Throw not_positive
   else Ok tt).
Proof.
  intros Hd Hi Ho. unfold Worker.validateInputs, at1, at2 in *.
  fold zero hundred.
  rewrite !(get_opt_get data _ Hd). cbn [bind].
  rewrite !(get_opt_get _ _ Hi). cbn [bind].
  destruct (Worker.validateIndicator _ zero hundred "RSI"); [|reflexivity].
  cbn [bind].
  destruct (Worker.validateIndicator _ zero hundred "ADX"); [|reflexivity].
  cbn [bind].
  destruct (Worker.validateIndicator _ zero Infinity "ATR"); [|reflexivity].
  cbn [bind].
  rewrite !(get_opt_get _ _ Ho). cbn [bind].
  destruct (js_lt _ _); reflexivity.
Qed.

(** [validateTradingData] on an OHLC object and indicators that exist. *)
Lemma validateTradingData_unfold (ohlc prevCandles indicators volume avgVolume : jsval) :
  truthy ohlc && typeof_object ohlc = true ->
  is_nullish indicators = false ->
  Index.validateTradingData ohlc prevCandles indicators volume avgVolume =
  if js_lt (at1 ohlc "high") (at1 ohlc "low") then Throw index_high_below_low
  else if js_lt (at1 ohlc "open") (JNum zero) || js_lt (at1 ohlc "close") (JNum zero)
  then Throw index_negative
  else if negb (is_number (at1 indicators "rsi"))
          || js_lt (at1 indicators "rsi") (JNum zero)
          || js_gt (at1 indicators "rsi") (JNum hundred)
  then Throw index_rsi
  else if negb (is_number (at1 indicators "macd"))
          || negb (is_number (at1 indicators "macd_signal"))
  then Throw index_macd
  else if negb (is_number volume) || js_lt volume (JNum zero)
  then Throw (Error (lit "Invalid volume"))
  else if negb (is_number avgVolume) || js_le avgVolume (JNum zero)
  then Throw (Error (lit "Invalid average volume"))
  else Ok tt.
Proof.
  intros Ho Hi. apply andb_true_iff in Ho as [Ht Hobj].
  assert (No : is_nullish ohlc = false) by (destruct ohlc; simpl in *; congruence).
  unfold Index.validateTradingData, at1. rewrite Ht, Hobj. cbn [negb orb].
  rewrite !(get_opt_get _ _ No), !(get_opt_get _ _ Hi). cbn [bind].
  fold zero hundred.
  destruct (js_lt _ _); [reflexivity|].
  destruct (_ || _); [reflexivity|].
  destruct (_ || _); reflexivity.
Qed.

(** C2, amended.  Each validator rejects by field, with errors that
    differ from one another.  [TradingAI.validateInputs], on a snapshot
    that has its indicators, rejects, in this order, an RSI that is no
    number of [0,100], such an ADX, and an ATR that is no number of
    [0,Infinity]; past these, on a snapshot that has its ohlc object with
    four prices the comparisons can coerce, it rejects a high below the
    low, then a price p for which p <= 0 holds (a price that is absent or
    not a number is not refused), and accepts every other snapshot; it
    does not look at the MACD.  A snapshot without its indicators, and one
    past the three indicator checks without its ohlc object, make it throw
    a TypeError instead of an error of its own.  [validateTradingData] of
    [index.js] refuses an ohlc that is no object; on an ohlc object with
    four prices the comparisons can coerce and indicators that are present
    it rejects, in this order, a high below the low, a negative open or
    close, an RSI that is no number or lies below 0 or above 100, a MACD
    field that is no number, a volume that is no number or negative, and
    an average volume that is no number or not above zero, and accepts
    every other snapshot; it has no ADX and no ATR. *)
Theorem validators_by_field
  (data ohlc prevCandles indicators volume avgVolume : jsval) :
  (is_nullish data = false ->
   let rsi := at2 data "indicators" "rsi" in
   let adx := at1 data "adx" in
   let atr := at1 data "atr" in
   let high := at2 data "ohlc" "high" in
   let low := at2 data "ohlc" "low" in
   let not_above_zero (k : string) := js_le (at2 data "ohlc" k) (JNum zero) in
   (is_nullish (at1 data "indicators") = true ->
    Worker.validateInputs data = Throw TypeError)
   /\ (is_nullish (at1 data "indicators") = false ->
       (~ in_range rsi zero hundred ->
        Worker.validateInputs data = Throw (invalid_indicator "RSI" zero hundred))
       /\ (in_range rsi zero hundred -> ~ in_range adx zero hundred ->
           Worker.validateInputs data
           = Throw (invalid_indicator "ADX" zero hundred))
       /\ (in_range rsi zero hundred -> in_range adx zero hundred ->
           ~ in_range atr zero Infinity ->
           Worker.validateInputs data
           = Throw (invalid_indicator "ATR" zero Infinity))
       /\ (in_range rsi zero hundred -> in_range adx zero hundred ->
           in_range atr zero Infinity ->
           (is_nullish (at1 data "ohlc") = true ->
            Worker.validateInputs data = Throw TypeError)
           /\ (is_nullish (at1 data "ohlc") = false ->
               coercible (at2 data "ohlc" "open") = true ->
               coercible high = true ->
               coercible low = true ->
               coercible (at2 data "ohlc" "close") = true ->
               (js_lt high low = true ->
                Worker.validateInputs data = Throw high_below_low)
               /\ (js_lt high low = false ->
                   not_above_zero "open"%string || not_above_zero "high"%string
                   || not_above_zero "low"%string || not_above_zero "close"%string
                   = true ->
                   Worker.validateInputs data = Throw not_positive)
               /\ (js_lt high low = false ->
                   not_above_zero "open"%string || not_above_zero "high"%string
                   || not_above_zero "low"%string || not_above_zero "close"%string
                   = false ->
                   Worker.validateInputs data = Ok tt)))))
  /\ NoDup [invalid_indicator "RSI" zero hundred;
            invalid_indicator "ADX" zero hundred;
            invalid_indicator "ATR" zero Infinity;
            high_below_low; not_positive]
  /\ (truthy ohlc && typeof_object ohlc = false ->
      Index.validateTradingData ohlc prevCandles indicators volume avgVolume
      = Throw (Error (lit "Invalid OHLC data")))
  /\ (truthy ohlc && typeof_object ohlc = true ->
      is_nullish indicators = false ->
      coercible (at1 ohlc "open") = true ->
      coercible (at1 ohlc "high") = true ->
      coercible (at1 ohlc "low") = true ->
      coercible (at1 ohlc "close") = true ->
      let validate :=
        Index.validateTradingData ohlc prevCandles indicators volume avgVolume in
      let high := at1 ohlc "high" in
      let low := at1 ohlc "low" in
      let negative (k : string) := js_lt (at1 ohlc k) (JNum zero) in
      let rsi := at1 indicators "rsi" in
      let rsi_out :=
        negb (is_number rsi) || js_lt rsi (JNum zero) || js_gt rsi (JNum hundred) in
      (js_lt high low = true -> validate = Throw index_high_below_low)
      /\ (js_lt high low = false ->
          negative "open"%string || negative "close"%string = true ->
          validate = Throw index_negative)
      /\ (js_lt high low = false ->
          negative "open"%string || negative "close"%string = false ->
          rsi_out = true ->
          validate = Throw index_rsi)
      /\ (js_lt high low = false ->
          negative "open"%string || negative "close"%string = false ->
          rsi_out = false ->
          negb (is_number (at1 indicators "macd"))
          || negb (is_number (at1 indicators "macd_signal")) = true ->
          validate = Throw index_macd)
      /\ (js_lt high low = false ->
          negative "open"%string || negative "close"%string = false ->
          rsi_out = false ->
          negb (is_number (at1 indicators "macd"))
          || negb (is_number (at1 indicators "macd_signal")) = false ->
          (negb (is_number volume) || js_lt volume (JNum zero) = true ->
           validate = Throw (Error (lit "Invalid volume")))
          /\ (negb (is_number volume) || js_lt volume (JNum zero) = false ->
              negb (is_number avgVolume) || js_le avgVolume (JNum zero) = true ->
              validate = Throw (Error (lit "Invalid average volume")))
          /\ (negb (is_number volume) || js_lt volume (JNum zero) = false ->
              negb (is_number avgVolume) || js_le avgVolume (JNum zero) = false ->
              validate = Ok tt)))
  /\ NoDup [index_high_below_low; index_negative; index_rsi; index_macd].
Proof.
  split; [|split; [apply validateInputs_errors_distinct|
                   split; [|split; [|apply index_errors_distinct]]]].
  - intros Hd. cbv zeta. split.
    { intros Ni. unfold Worker.validateInputs, at1 in *.
      rewrite (get_opt_get data _ Hd). cbn [bind].
      destruct (opt_get data "indicators"); try discriminate Ni; reflexivity. }
    intros Hi.
    assert (U : Worker.validateInputs data =
                (Worker.validateIndicator (at2 data "indicators" "rsi")
                   zero hundred "RSI" ;;;
                 Worker.validateIndicator (at1 data "adx") zero hundred "ADX" ;;;
                 Worker.validateIndicator (at1 data "atr") zero Infinity "ATR" ;;;
                 ohlc <- get data "ohlc" ;;
                 high <- get ohlc "high" ;;
                 Throw TypeError)
                \/ is_nullish (at1 data "ohlc") = false).
    { destruct (is_nullish (at1 data "ohlc")) eqn:No; [left|right; reflexivity].
      unfold Worker.validateInputs, at1, at2 in *. fold zero hundred.
      rewrite !(get_opt_get data _ Hd). cbn [bind].
      rewrite !(get_opt_get _ _ Hi). cbn [bind].
      destruct (Worker.validateIndicator _ zero hundred "RSI"); [|reflexivity].
      cbn [bind].
      destruct (Worker.validateIndicator _ zero hundred "ADX"); [|reflexivity].
      cbn [bind].
      destruct (Worker.validateIndicator _ zero Infinity "ATR"); [|reflexivity].
      cbn [bind].
      destruct (opt_get data "ohlc"); try discriminate No; reflexivity. }
    assert (E : forall r,
               (forall rest,
                   (Worker.validateIndicator (at2 data "indicators" "rsi")
                      zero hundred "RSI" ;;;
                    Worker.validateIndicator (at1 data "adx") zero hundred "ADX" ;;;
                    Worker.validateIndicator (at1 data "atr") zero Infinity "ATR" ;;;
                    rest) = r) ->
               Worker.validateInputs data = r).
    { intros r H. destruct U as [U|Ho]; [rewrite U; apply H|].
      rewrite (validateInputs_unfold data Hd Hi Ho). apply H. }
    split; [|split; [|split]].
    + intros B. apply E. intros rest.
      rewrite (validateIndicator_bad "RSI" zero_not_nan
                 (eq_refl : is_nan hundred = false) B).
      reflexivity.
    + intros R B. apply E. intros rest. rewrite (validateIndicator_ok "RSI" R).
      rewrite (validateIndicator_bad "ADX" zero_not_nan
                 (eq_refl : is_nan hundred = false) B).
      reflexivity.
    + intros R A B. apply E. intros rest. rewrite (validateIndicator_ok "RSI" R).
      rewrite (validateIndicator_ok "ADX" A).
      rewrite (validateIndicator_bad "ATR" zero_not_nan
                 (eq_refl : is_nan Infinity = false) B).
      reflexivity.
    + intros R A T. split.
      * intros No. destruct U as [U|Ho]; [|congruence]. rewrite U.
        rewrite (validateIndicator_ok "RSI" R), (validateIndicator_ok "ADX" A),
          (validateIndicator_ok "ATR" T). cbn [bind].
        unfold at1 in No.
        rewrite (get_opt_get data _ Hd). cbn [bind].
        destruct (opt_get data "ohlc"); try discriminate No; reflexivity.
      * intros Ho _ _ _ _. rewrite (validateInputs_unfold data Hd Hi Ho).
        rewrite (validateIndicator_ok "RSI" R), (validateIndicator_ok "ADX" A),
          (validateIndicator_ok "ATR" T). cbn [bind].
        split; [|split].
        -- intros ->. reflexivity.
        -- intros -> ->. reflexivity.
        -- intros -> ->. reflexivity.
  - intros Ob. unfold Index.validateTradingData.
    apply andb_false_iff in Ob as [Ob|Ob]; rewrite Ob; cbn [negb orb];
      rewrite ?orb_true_r; reflexivity.
  - intros Ho Hi _ _ _ _. cbv zeta.
    rewrite (@validateTradingData_unfold ohlc prevCandles indicators volume avgVolume Ho Hi).
    split; [|split; [|split; [|split]]].
    + intros ->. reflexivity.
    + intros -> ->. reflexivity.
    + intros -> -> ->. reflexivity.
    + intros -> -> -> ->. reflexivity.
    + intros -> -> -> ->. split; [|split].
      * intros ->. reflexivity.
      * intros -> ->. reflexivity.
      * intros -> ->. reflexivity.
Qed.

End Validators.

(** The sample snapshot under [node]: it has its sub-objects, all its
    indicators are in range, and [validateInputs] accepts it. *)
Lemma validators_by_field_witness :
  Worker.validateInputs (rt := node) sample = Ok tt.
Proof.
  destruct (validators_by_field (rt := node) sample JNull JNull JNull JNull JNull)
    as (A & _).
  destruct (A eq_refl) as (_ & B).
  destruct (B eq_refl) as (_ & _ & _ & K).
  assert (R : in_range (at2 sample "indicators" "rsi") zero hundred)
    by (exists (num_of_Z 55); repeat split).
  assert (X : in_range (at1 sample "adx") zero hundred)
    by (exists (num_of_Z 25); repeat split).
  assert (T : in_range (at1 sample "atr") zero Infinity)
    by (exists (dec 2 (-3)); repeat split).
  destruct (K R X T) as (_ & O).
  destruct (O eq_refl eq_refl eq_refl eq_refl eq_refl) as (_ & _ & Hok).
  apply Hok; vm_compute; reflexivity.
Defined.

(* ===================================================================== *)
(** * An ATR of zero *)
(* ===================================================================== *)

Section ZeroATR.
Context {rt : Runtime}.

Lemma div_by_zero_not_finite (x : num) (s : bool) :
  is_finite (num_div x (S754_zero s)) = false.
Proof. destruct x; reflexivity. Qed.

Lemma get_ok_opt_get (v : jsval) (k : string) (u : jsval) :
  get v k = Ok u -> u = opt_get v k.
Proof. destruct v; simpl; congruence. Qed.

(** The distances of [calculateDerivedValues] are quotients by the ATR,
    and the two flags are tests of those quotients. *)
Lemma calculateDerivedValues_distances (w : Worker.World) (data prev : jsval)
  (d : Worker.Derived) :
  Worker.calculateDerivedValues w data prev = Ok d ->
  Worker.supportDistanceATR d =
    num_div (js_sub (at2 data "ohlc" "close") (at1 data "support"))
            (ToNumber (at1 data "atr"))
  /\ Worker.resistanceDistanceATR d =
       num_div (js_sub (at1 data "resistance") (at2 data "ohlc" "close"))
               (ToNumber (at1 data "atr"))
  /\ Worker.isNearSupport d =
       js_le (JNum (Worker.supportDistanceATR d))
             (JNum Worker.SUPPORT_RESISTANCE_DISTANCE_ATR)
  /\ Worker.isNearResistance d =
       js_le (JNum (Worker.resistanceDistanceATR d))
             (JNum Worker.SUPPORT_RESISTANCE_DISTANCE_ATR).
Proof.
  unfold Worker.calculateDerivedValues, at1, at2.
  destruct (get data "ohlc") as [ohlc|] eqn:E1; [|discriminate]. cbn [bind].
  destruct (get data "indicators") as [ind|] eqn:E2; [|discriminate]. cbn [bind].
  destruct (get data "atr") as [atr|] eqn:E3; [|discriminate]. cbn [bind].
  destruct (get data "support") as [sup|] eqn:E4; [|discriminate]. cbn [bind].
  destruct (get data "resistance") as [res|] eqn:E5; [|discriminate]. cbn [bind].
  destruct (get ohlc "close") as [price|] eqn:E6; [|discriminate]. cbn [bind].
  destruct (get ind "macd") as [macd|]; [|discriminate]. cbn [bind].
  destruct (get ind "macd_signal") as [msig|]; [|discriminate]. cbn [bind].
  destruct (get data "pattern") as [pat|]; [|discriminate]. cbn [bind].
  destruct (call_toLowerCase pat) as [lc|]; [|discriminate]. cbn [bind].
  destruct (get ind "ema9") as [e9|]; [|discriminate]. cbn [bind].
  destruct (get ind "ema21") as [e21|]; [|discriminate]. cbn [bind].
  destruct (get ind "rsi") as [rsi|]; [|discriminate]. cbn [bind].
  intros H. injection H as <-.
  apply get_ok_opt_get in E1, E3, E4, E5, E6. subst.
  cbn [Worker.supportDistanceATR Worker.resistanceDistanceATR
       Worker.isNearSupport Worker.isNearResistance].
  repeat split.
Qed.

(** C10. [validateIndicator] lets an ATR of zero, of either sign, through
    its range check, and [validateInputs] accepts the sample snapshot with
    that ATR.  [calculateDerivedValues] then divides by it: on every
    snapshot whose ATR is a zero, both distances are not finite and the
    two near flags are computed from them; on the sample both distances
    are +Infinity and both flags are false. *)
Theorem zero_atr_passes_and_divides (w : Worker.World) :
  (forall s, Worker.validateIndicator (JNum (S754_zero s)) zero Infinity "ATR" = Ok tt)
  /\ at1 sample_atr_zero "atr" = JNum (S754_zero false)
  /\ Worker.validateInputs sample_atr_zero = Ok tt
  /\ (exists d,
         Worker.calculateDerivedValues w sample_atr_zero (JNum (dec 2 (-4))) = Ok d
         /\ Worker.supportDistanceATR d = Infinity
         /\ Worker.resistanceDistanceATR d = Infinity
         /\ Worker.isNearSupport d = false
         /\ Worker.isNearResistance d = false)
  /\ (forall data prev d s,
         at1 data "atr" = JNum (S754_zero s) ->
         Worker.calculateDerivedValues w data prev = Ok d ->
         is_finite (Worker.supportDistanceATR d) = false
         /\ is_finite (Worker.resistanceDistanceATR d) = false
         /\ Worker.isNearSupport d =
              js_le (JNum (Worker.supportDistanceATR d))
                    (JNum Worker.SUPPORT_RESISTANCE_DISTANCE_ATR)
         /\ Worker.isNearResistance d =
              js_le (JNum (Worker.resistanceDistanceATR d))
                    (JNum Worker.SUPPORT_RESISTANCE_DISTANCE_ATR)).
Proof.
  split; [intros s; apply validateIndicator_ok; exists (S754_zero s);
          destruct s; repeat split|].
  split; [reflexivity|].
  split.
  { rewrite validateInputs_unfold by reflexivity.
    rewrite (validateIndicator_ok "RSI") by (exists (num_of_Z 55); repeat split).
    rewrite (validateIndicator_ok "ADX") by (exists (num_of_Z 25); repeat split).
    rewrite (validateIndicator_ok "ATR") by (exists (S754_zero false); repeat split).
    reflexivity. }
  split.
  { destruct (Worker.calculateDerivedValues w sample_atr_zero (JNum (dec 2 (-4))))
      as [d|e] eqn:E; [|discriminate E].
    exists d. split; [reflexivity|].
    destruct (calculateDerivedValues_distances _ _ _ E) as (S & R & NS & NR).
    rewrite NS, NR, S, R. repeat split. }
  intros data prev d s A E.
  destruct (calculateDerivedValues_distances _ _ _ E) as (S & R & NS & NR).
  split; [|split; [|split; assumption]].
  - rewrite S, A. apply div_by_zero_not_finite.
  - rewrite R, A. apply div_by_zero_not_finite.
Qed.

End ZeroATR.

(** Through [TradingWorker.handle] that snapshot gets no further than the
    body parser, to which an ATR of zero is a missing field. *)
Lemma handle_refuses_zero_atr :
  Worker.handle (rt := node) env (worker_world Rejected Rejected) 0
    (post (Some secret) sample_atr_zero)
  = (Ok {| status := 400;
           payload := obj [("error", JStr (lit "Missing atr"))]%string |},
     1793613600000).
Proof. vm_compute. reflexivity. Qed.

(* ===================================================================== *)
(** * The signal filter of [index.js] *)
(* ===================================================================== *)

Section Filter.
Context {rt : Runtime}.

Lemma filterSignal_buy_against_d1 (s : Index.Signal)
  (indicators volume avgVolume higherTF : jsval) :
  Index.signal s = lit "buy" ->
  at1 higherTF "d1Trend" = JStr (lit "strong bearish") ->
  Index.filterSignal s indicators volume avgVolume higherTF =
  Ok (held s " (Rejected: Against D1 strong trend)").
Proof.
  intros B D. unfold Index.filterSignal. rewrite B.
  change (str_eqb (lit "buy") (lit "buy")) with true. cbv iota.
  assert (N : is_nullish higherTF = false).
  { destruct higherTF; try reflexivity; discriminate D. }
  rewrite (get_opt_get _ _ N). unfold at1 in D. rewrite D. reflexivity.
Qed.

Lemma filterSignal_not_buy_ignores_trend (s : Index.Signal)
  (indicators volume avgVolume higherTF higherTF' : jsval) :
  str_eqb (Index.signal s) (lit "buy") = false ->
  Index.filterSignal s indicators volume avgVolume higherTF =
  Index.filterSignal s indicators volume avgVolume higherTF'.
Proof. intros B. unfold Index.filterSignal. rewrite B. reflexivity. Qed.

End Filter.

(** C4.  The first half holds: a buy against a strongly bearish daily
    trend, with an explanation the template can coerce to a string,
    becomes a hold of low confidence whose explanation gains the
    rejection note.  The symmetric half does not: [filterSignal] reads the
    higher-timeframe trend only for a buy, so for any other signal the
    result is the same whatever the trend, and the confident sell against
    a strongly bullish daily trend comes back unchanged. *)
Theorem filterSignal_trend_rule {rt : Runtime} :
  (forall s indicators volume avgVolume higherTF,
      Index.signal s = lit "buy" ->
      at1 higherTF "d1Trend" = JStr (lit "strong bearish") ->
      coercible (Index.explanation s) = true ->
      Index.filterSignal s indicators volume avgVolume higherTF =
      Ok (held s " (Rejected: Against D1 strong trend)"))
  /\ (forall s indicators volume avgVolume higherTF higherTF',
         str_eqb (Index.signal s) (lit "buy") = false ->
         Index.filterSignal s indicators volume avgVolume higherTF =
         Index.filterSignal s indicators volume avgVolume higherTF')
  /\ Index.filterSignal confident_sell rsi_fifty one one (d1 "strong bullish")
     = Ok confident_sell.
Proof.
  split; [intros s i v a h B D _; exact (filterSignal_buy_against_d1 s i v a h B D)|].
  split; [exact filterSignal_not_buy_ignores_trend|].
  reflexivity.
Qed.

(* ===================================================================== *)
(** * Sanitizing what goes into the prompt *)
(* ===================================================================== *)

(** C3, as stated, fails.  [index.js] has no sanitizer: its prompt holds
    the symbol as received, braces included.  [TradingAI.buildAIPrompt]
    sanitizes the symbol but interpolates the pattern as it came. *)
Lemma delimiters_reach_the_prompt :
  (exists ps,
      Index.promptParts (rt := node) (JStr (lit "EUR{USD}"))
        (at1 index_sample "timeframe") (at1 index_sample "ohlc")
        (at1 index_sample "indicators") (at1 index_sample "volume")
        (at1 index_sample "avgVolume") (at1 index_sample "keyLevels")
        (at1 index_sample "higherTF") (at1 index_sample "marketContext") = Ok ps
      /\ subs_of "symbol" ps = [lit "EUR{USD}"]
      /\ contains (lit "Symbol: EUR{USD} (") (render ps) = true)
  /\ (exists ps,
         worker_prompt_parts (rt := node) (worker_world Rejected Rejected)
           sample_delimiters = Ok ps
         /\ subs_of "data.pattern" ps = [lit "{hammer}"]
         /\ contains (lit "Pattern: {hammer} (") (render ps) = true)
  /\ existsb is_delimiter (lit "EUR{USD}") = true
  /\ existsb is_delimiter (lit "{hammer}") = true.
Proof.
  split; [eexists; split; [|split]; vm_compute; reflexivity|].
  split; [eexists; split; [|split]; vm_compute; reflexivity|].
  split; vm_compute; reflexivity.
Qed.

Section Prompt.
Context {rt : Runtime}.

Lemma strip_delimiters_clean (s : jsstring) : no_delimiter (strip_delimiters s).
Proof.
  unfold no_delimiter, strip_delimiters. apply Forall_forall.
  intros c H. apply filter_In in H as [_ H]. now apply negb_true_iff in H.
Qed.

Lemma sequence_Forall {A} (P : A -> Prop) (l : list (result A)) :
  Forall (fun r => forall a, r = Ok a -> P a) l ->
  forall ps, sequence l = Ok ps -> Forall P ps.
Proof.
  induction 1 as [|r l Hr Hl IH]; intros ps; cbn [sequence bind].
  - intros E. injection E as <-. constructor.
  - destruct r as [a|e]; [|discriminate]. cbn [bind].
    destruct (sequence l) as [t|e]; [|discriminate]. cbn [bind].
    intros E. assert (ps = a :: t) by congruence. subst.
    constructor; [apply Hr; reflexivity | apply IH; reflexivity].
Qed.

Lemma subs_of_satisfy (expr : string) (P : jsstring -> Prop) (ps : list part) :
  Forall (sub_satisfies expr P) ps ->
  forall s, In s (subs_of expr ps) -> P s.
Proof.
  unfold subs_of. intros F s H. apply in_flat_map in H as (p & Hp & Hs).
  rewrite Forall_forall in F. specialize (F p Hp).
  destruct p as [t|e v]; [destruct Hs|]. cbn [sub_satisfies] in F.
  destruct (String.eqb e expr) eqn:E; [|destruct Hs].
  apply String.eqb_eq in E. destruct Hs as [<-|[]]. auto.
Qed.

Lemma T_any (expr : string) (P : jsstring -> Prop) (s : string) (p : part) :
  T s = Ok p -> sub_satisfies expr P p.
Proof. unfold T. intros E. assert (p = Lit (lit s)) by congruence. subst. exact I. Qed.

Lemma Q_any (expr : string) (P : jsstring -> Prop) (p : part) :
  Q = Ok p -> sub_satisfies expr P p.
Proof. unfold Q. intros E. assert (p = Lit [dq]) by congruence. subst. exact I. Qed.

Lemma S_other (expr e : string) (P : jsstring -> Prop) (r : result jsstring) (p : part) :
  e <> expr -> S_ e r = Ok p -> sub_satisfies expr P p.
Proof.
  intros N. unfold S_. destruct r as [s|x]; cbn [bind]; [|discriminate].
  intros E. assert (p = Sub e s) by congruence. subst. intros H. contradiction.
Qed.

Lemma S_this (expr : string) (P : jsstring -> Prop) (r : result jsstring) (p : part) :
  (forall s, r = Ok s -> P s) -> S_ expr r = Ok p -> sub_satisfies expr P p.
Proof.
  intros H. unfold S_. destruct r as [s|x]; cbn [bind]; [|discriminate].
  intros E. assert (p = Sub expr s) by congruence. subst. intros _. auto.
Qed.

Ltac template_parts this :=
  repeat (apply Forall_cons;
          [ intros ?p;
            first [ apply T_any
                  | apply Q_any
                  | apply S_other; discriminate
                  | apply S_this; this ]
          | ]);
  apply Forall_nil.

(** In the prompt of [TradingAI] the symbol is the sanitized one. *)
Lemma worker_prompt_symbol (data : jsval) (derived : Worker.Derived) (ps : list part) :
  Worker.promptParts data derived = Ok ps ->
  Forall (sub_satisfies "data.symbol"
            (fun s => s = Worker.sanitizeForPrompt (at1 data "symbol"))) ps.
Proof.
  unfold Worker.promptParts. apply sequence_Forall.
  template_parts
    ltac:(intros s; destruct (get data "symbol") as [v|] eqn:G; cbn [bind];
          [|discriminate];
          intros E; apply get_ok_opt_get in G; subst v; unfold at1; congruence).
Qed.

(** In the prompt of [index.js] the symbol is the one received. *)
Lemma index_prompt_symbol
  (symbol tf ohlc indicators volume avgVolume keyLevels higherTF marketContext : jsval)
  (ps : list part) :
  Index.promptParts symbol tf ohlc indicators volume avgVolume
    keyLevels higherTF marketContext = Ok ps ->
  Forall (sub_satisfies "symbol" (fun s => s = ToString symbol)) ps.
Proof.
  unfold Index.promptParts. apply sequence_Forall.
  template_parts ltac:(intros s E; congruence).
Qed.

Lemma assoc_put_same (k : jsstring) (x : jsval) (l : list (jsstring * jsval)) :
  assoc k (put_assoc k x l) = x.
Proof.
  induction l as [|[k' y] l IH]; cbn [put_assoc assoc].
  - rewrite (proj2 (str_eqb_eq k k) eq_refl). reflexivity.
  - destruct (str_eqb k k') eqn:E; cbn [assoc]; rewrite E; auto.
Qed.

Lemma assoc_put_other (k k' : jsstring) (x : jsval) (l : list (jsstring * jsval)) :
  str_eqb k' k = false -> assoc k' (put_assoc k x l) = assoc k' l.
Proof.
  intros N. induction l as [|[k1 y] l IH]; cbn [put_assoc assoc].
  - rewrite N. reflexivity.
  - destruct (str_eqb k k1) eqn:E; cbn [assoc].
    + apply str_eqb_eq in E. subst k1. rewrite N. reflexivity.
    + destruct (str_eqb k' k1); auto.
Qed.

(** Reading an object one of whose properties was set. *)
Lemma get_with_field_same (k : string) (x : jsval) (l : list (jsstring * jsval)) :
  get (with_field k x (JObj l)) k = Ok x.
Proof. cbn [with_field get]. rewrite assoc_put_same. reflexivity. Qed.

Lemma get_with_field_other (k k' : string) (x : jsval) (l : list (jsstring * jsval)) :
  str_eqb (lit k') (lit k) = false ->
  get (with_field k x (JObj l)) k' = get (JObj l) k'.
Proof.
  intros N. cbn [with_field get]. rewrite (@assoc_put_other _ _ x l N).
  reflexivity.
Qed.

Lemma sequence_hole {A} (l1 l2 : list (result A)) (a : A) (ps : list A) :
  sequence (l1 ++ Ok a :: l2) = Ok ps ->
  exists ps1 ps2,
    sequence l1 = Ok ps1 /\ sequence l2 = Ok ps2 /\ ps = ps1 ++ a :: ps2.
Proof.
  revert ps. induction l1 as [|r l1 IH]; intros ps; cbn [app sequence bind].
  - destruct (sequence l2) as [ps2|]; cbn [bind]; [|discriminate].
    intros E. exists [], ps2. repeat split. cbn [app]. congruence.
  - destruct r as [b|]; cbn [bind]; [|discriminate].
    destruct (sequence (l1 ++ Ok a :: l2)) as [t|]; cbn [bind]; [|discriminate].
    destruct (IH t eq_refl) as (ps1 & ps2 & -> & E2 & ->).
    intros E. exists (b :: ps1), ps2. cbn [bind app]. repeat split; congruence.
Qed.

Lemma render_hole (ps1 ps2 : list part) (e : string) (s : jsstring) :
  render (ps1 ++ Sub e s :: ps2) = render ps1 ++ s ++ render ps2.
Proof. unfold render. rewrite map_app, concat_app. reflexivity. Qed.

(** A template with one hole: when its chunks are [l1], the chunk of [s]
    and [l2], what it renders is a text before [s], [s], and a text
    after. *)
Lemma template_hole (l1 l2 : list (result part)) :
  exists pre post,
    forall e s ps,
      sequence (l1 ++ Ok (Sub e s) :: l2) = Ok ps ->
      render ps = pre ++ s ++ post.
Proof.
  exists (match sequence l1 with Ok p => render p | Throw _ => [] end),
         (match sequence l2 with Ok p => render p | Throw _ => [] end).
  intros e s ps E.
  destruct (sequence_hole _ _ _ E) as (ps1 & ps2 & -> & -> & ->).
  apply render_hole.
Qed.

(** The chunks of the prompt of [TradingAI] around the one that holds the
    symbol: they are the same whatever the symbol is. *)
Lemma worker_prompt_split (l : list (jsstring * jsval)) (derived : Worker.Derived) :
  exists l1 l2,
    forall x,
      Worker.promptParts (with_field "symbol" x (JObj l)) derived
      = sequence (l1 ++ Ok (Sub "data.symbol" (Worker.sanitizeForPrompt x)) :: l2).
Proof.
  eexists. eexists. intros x.
  unfold Worker.promptParts, Worker.field, Worker.fixed1, Worker.fixed2.
  rewrite get_with_field_same.
  rewrite !get_with_field_other by reflexivity.
  apply (f_equal sequence).
  match goal with |- ?L = _ => rewrite <- (firstn_skipn 35 L) end.
  cbn [firstn skipn]. reflexivity.
Qed.

(** The chunks of the prompt of [index.js] around the one that holds the
    symbol. *)
Lemma index_prompt_split
  (tf ohlc indicators volume avgVolume keyLevels higherTF marketContext : jsval) :
  exists l1 l2,
    forall symbol,
      Index.promptParts symbol tf ohlc indicators volume avgVolume
        keyLevels higherTF marketContext
      = sequence (l1 ++ Ok (Sub "symbol" (ToString symbol)) :: l2).
Proof.
  eexists. eexists. intros symbol. unfold Index.promptParts.
  apply (f_equal sequence).
  match goal with |- ?L = _ => rewrite <- (firstn_skipn 1 L) end.
  cbn [firstn skipn]. reflexivity.
Qed.

(** C3, amended.  [TradingAI.buildAIPrompt] interpolates the symbol
    through [sanitizeForPrompt]: each place of the prompt that holds the
    symbol holds [String(symbol)] without any of the nine delimiter
    characters, and the symbol is nowhere else in the prompt.  The prompt
    built for a snapshot is a text before the symbol, [String(symbol)]
    without the nine characters, and a text after it, and neither text
    changes with the symbol; so no character of the symbol outside the
    sanitized ones reaches the prompt.  The prompt of [index.js]
    interpolates the symbol as it was received: it is a text,
    [String(symbol)] as it is, and a text.  The symbol is taken to be a
    value [String] can coerce. *)
Theorem prompt_symbol_sanitized (data : jsval) (derived : Worker.Derived)
  (symbol tf ohlc indicators volume avgVolume keyLevels higherTF marketContext : jsval) :
  (forall ps,
      Worker.promptParts data derived = Ok ps ->
      forall s, In s (subs_of "data.symbol" ps) ->
                s = strip_delimiters (ToString (at1 data "symbol"))
                /\ no_delimiter s)
  /\ (forall ps,
         Index.promptParts symbol tf ohlc indicators volume avgVolume
           keyLevels higherTF marketContext = Ok ps ->
         forall s, In s (subs_of "symbol" ps) -> s = ToString symbol)
  /\ (forall l,
         exists pre post,
           forall x prompt,
             coercible x = true ->
             Worker.buildAIPrompt (with_field "symbol" x (JObj l)) derived
             = Ok prompt ->
             prompt = pre ++ strip_delimiters (ToString x) ++ post
             /\ no_delimiter (strip_delimiters (ToString x)))
  /\ (exists pre post,
         forall x ps,
           coercible x = true ->
           Index.promptParts x tf ohlc indicators volume avgVolume
             keyLevels higherTF marketContext = Ok ps ->
           render ps = pre ++ ToString x ++ post).
Proof.
  split; [|split; [|split]].
  - intros ps E s H.
    pose proof (subs_of_satisfy (worker_prompt_symbol _ _ E) _ H) as ->.
    split; [reflexivity | apply strip_delimiters_clean].
  - intros ps E s H.
    exact (subs_of_satisfy (index_prompt_symbol _ _ _ _ _ _ _ _ _ E) _ H).
  - intros l. destruct (worker_prompt_split l derived) as (l1 & l2 & P).
    destruct (template_hole l1 l2) as (pre & post & R).
    exists pre, post. intros x prompt _ E.
    unfold Worker.buildAIPrompt in E. rewrite P in E.
    destruct (sequence _) as [ps|] eqn:Sq; cbn [bind] in E; [|discriminate E].
    split; [|apply strip_delimiters_clean].
    change (strip_delimiters (ToString x)) with (Worker.sanitizeForPrompt x).
    rewrite <- (R _ _ _ Sq). congruence.
  - destruct (index_prompt_split tf ohlc indicators volume avgVolume
                keyLevels higherTF marketContext) as (l1 & l2 & P).
    destruct (template_hole l1 l2) as (pre & post & R).
    exists pre, post. intros x ps _ E. rewrite P in E. exact (R _ _ _ E).
Qed.

End Prompt.


Lemma Ok_inj {A} (a b : A) : Ok a = Ok b -> a = b.
Proof. congruence. Qed.

(** The snapshot with delimiters under [node]: the one place of the prompt
    that holds the symbol holds it without its braces. *)
Lemma prompt_symbol_sanitized_witness :
  exists ps,
    worker_prompt_parts (rt := node) (worker_world Rejected Rejected)
      sample_delimiters = Ok ps
    /\ subs_of "data.symbol" ps = [lit "EURUSD"]
    /\ (forall s, In s (subs_of "data.symbol" ps) -> no_delimiter s).
Proof.
  unfold worker_prompt_parts.
  change (get sample_delimiters "macd_hist_prev") with (Ok (JNum (dec 2 (-4)))).
  cbn [bind].
  destruct (Worker.calculateDerivedValues (rt := node)
              (worker_world Rejected Rejected) sample_delimiters (JNum (dec 2 (-4))))
    as [d|e] eqn:D; [|vm_compute in D; discriminate D].
  cbn [bind].
  destruct (Worker.promptParts (rt := node) sample_delimiters d) as [ps|e] eqn:P.
  - exists ps. split; [reflexivity|]. split.
    + vm_compute in D. apply Ok_inj in D. subst d.
      vm_compute in P. apply Ok_inj in P. subst ps.
      vm_compute. reflexivity.
    + intros s H.
      exact (proj2 (proj1 (prompt_symbol_sanitized (rt := node) sample_delimiters d
                             JNull JNull JNull JNull JNull JNull JNull JNull JNull)
                      ps P s H)).
  - exfalso. vm_compute in D. apply Ok_inj in D. subst d.
    vm_compute in P. discriminate P.
Defined.

(* ===================================================================== *)
(** * The request handlers *)
(* ===================================================================== *)

Section WorkerHandler.
Context {rt : Runtime}.

Lemma truthy_not_nullish (v : jsval) : truthy v = true -> is_nullish v = false.
Proof. destruct v; simpl; congruence. Qed.

Lemma generateFallbackSignal_total (indicators : jsval) :
  is_nullish indicators = false ->
  exists s, Worker.generateFallbackSignal indicators = Ok s.
Proof.
  intros N. unfold Worker.generateFallbackSignal.
  rewrite !(get_opt_get _ _ N). cbn [bind].
  destruct (_ && _); [eexists; reflexivity|].
  destruct (_ && _); eexists; reflexivity.
Qed.

(** [callAI] absorbs whatever its [try] block throws. *)
Lemma callAI_total (w : Worker.World) (data : jsval) (key : option jsstring) :
  is_nullish data = false ->
  truthy (at1 data "indicators") = true ->
  exists text, Worker.callAI w data key = Ok text.
Proof.
  intros N T. unfold Worker.callAI.
  destruct (Worker.callAI_try w data key) as [text|e]; cbn [try_catch].
  - exists text. reflexivity.
  - rewrite (get_opt_get _ _ N). cbn [bind]. unfold at1 in T.
    unfold js_or. rewrite T.
    destruct (generateFallbackSignal_total _ (truthy_not_nullish _ T)) as (s & ->).
    cbn [bind]. eexists. reflexivity.
Qed.

Lemma tryParseAI_total (aiText : jsstring) :
  exists s, Worker.tryParseAI aiText = Ok s /\ In (Worker.signal s) signals.
Proof.
  destruct (tryParseAI_cases aiText) as [E | (l & x & _ & _ & I & _ & E)];
    rewrite E; eexists; (split; [reflexivity|]).
  - apply hold_in_signals.
  - exact I.
Qed.

(** [sendMessage] absorbs whatever the Telegram call does. *)
Lemma sendMessage_total (w : Worker.World) (text : jsstring) :
  Worker.sendMessage w text = Ok tt.
Proof.
  unfold Worker.sendMessage, Worker.telegram_fetchWithTimeout.
  destruct (Worker.fetch_telegram w text) as [|[] st body]; reflexivity.
Qed.

Lemma sendTelegramNotification_total (w : Worker.World) (data : jsval)
  (s : Worker.Signal) :
  is_nullish data = false ->
  truthy (at1 data "ohlc") = true ->
  is_number (at2 data "ohlc" "close") = true ->
  Worker.sendTelegramNotification w data s = Ok tt.
Proof.
  intros N To Nc. unfold Worker.sendTelegramNotification, Worker.notificationParts.
  unfold Worker.field, Worker.fixed2.
  rewrite !(get_opt_get _ _ N). cbn [bind].
  rewrite (get_opt_get _ _ (truthy_not_nullish _ To)). cbn [bind].
  unfold at1, at2 in *.
  destruct (opt_get (opt_get data "ohlc") "close"); try discriminate Nc.
  cbv [sequence T S_ bind call_toFixed]. apply sendMessage_total.
Qed.

Lemma check_required_ok (bodyJson : jsval) (fields : list string) :
  Worker.check_required bodyJson fields = Ok None ->
  Forall (fun f => truthy (opt_get bodyJson f) = true) fields.
Proof.
  induction fields as [|f fields IH]; cbn [Worker.check_required]; [constructor|].
  destruct (get bodyJson f) as [v|] eqn:G; cbn [bind]; [|discriminate].
  apply get_ok_opt_get in G. subst v.
  destruct (truthy (opt_get bodyJson f)) eqn:Tf; cbn [negb]; [|discriminate].
  intros H. constructor; auto.
Qed.

(** What [parseRequest] hands on has every required field. *)
Lemma parseRequest_data (request : Request) (data : jsval) :
  Worker.parseRequest request = Ok (inl data) ->
  Forall (fun f => truthy (opt_get data f) = true) Worker.required.
Proof.
  unfold Worker.parseRequest.
  destruct (parse_json (req_body request)) as [bodyJson|]; cbn [bind try_catch];
    [|discriminate].
  destruct (Worker.check_required bodyJson Worker.required) as [[r|]|] eqn:C;
    cbn [bind try_catch]; try discriminate.
  intros E. assert (data = bodyJson) by congruence. subst.
  apply check_required_ok. exact C.
Qed.

Lemma parseRequest_total (request : Request) :
  exists r, Worker.parseRequest request = Ok r.
Proof.
  unfold Worker.parseRequest.
  destruct (parse_json (req_body request)) as [bodyJson|]; cbn [bind try_catch];
    [|eexists; reflexivity].
  destruct (Worker.check_required bodyJson Worker.required) as [[r|]|];
    cbn [bind try_catch]; eexists; reflexivity.
Qed.

Lemma required_fields (data : jsval) :
  Forall (fun f => truthy (opt_get data f) = true) Worker.required ->
  is_nullish data = false
  /\ truthy (at1 data "indicators") = true
  /\ truthy (at1 data "ohlc") = true.
Proof.
  intros F. rewrite Forall_forall in F.
  assert (S : truthy (opt_get data "symbol") = true) by (apply F; simpl; tauto).
  repeat split.
  - destruct data; try reflexivity; discriminate S.
  - apply F. simpl. tauto.
  - apply F. simpl. tauto.
Qed.

(** The processing block of [handle] on a body that has its fields and a
    numeric close: always a 200 with a signal. *)
Lemma worker_processing (env0 : Env) (w : Worker.World) (last : Z)
  (request : Request) (data : jsval) :
  (Worker.now w - last <? 12000) = false ->
  str_eqb (method request) (lit "POST") = true ->
  Worker.authenticateRequest env0 request = true ->
  Worker.parseRequest request = Ok (inl data) ->
  is_number (at2 data "ohlc" "close") = true ->
  exists s,
    Worker.handle env0 w last request =
    (Ok (Worker.createResponse 200 (Worker.Signal_to_js s)), Worker.now w)
    /\ In (Worker.signal s) signals.
Proof.
  intros R M A P C. unfold Worker.handle. rewrite R, M, A, P. cbn [negb bind].
  destruct (required_fields _ (parseRequest_data _ P)) as (N & Ti & To).
  destruct (callAI_total w data (FREEV36_API_KEY env0) N Ti) as (text & ->).
  cbn [bind].
  destruct (tryParseAI_total text) as (s & -> & I). cbn [bind].
  rewrite (sendTelegramNotification_total w data s N To C). cbn [bind try_catch].
  exists s. auto.
Qed.

(** [handle] answers every request: nothing it calls throws past it. *)
Lemma worker_handle_total (env0 : Env) (w : Worker.World) (last : Z)
  (request : Request) :
  exists r, fst (Worker.handle env0 w last request) = Ok r.
Proof.
  unfold Worker.handle.
  destruct (_ <? _); [eexists; reflexivity|]. cbn [fst].
  destruct (negb (str_eqb _ _)); [eexists; reflexivity|].
  destruct (negb (Worker.authenticateRequest _ _)); [eexists; reflexivity|].
  destruct (parseRequest_total request) as ([data|r] & ->); cbn [bind];
    [|eexists; reflexivity].
  destruct (bind (Worker.callAI w data (FREEV36_API_KEY env0)) _);
    eexists; reflexivity.
Qed.

End WorkerHandler.

Section IndexHandler.
Context {rt : Runtime}.

(** [callAI] of [index.js] passes a failed gateway call on. *)
Lemma index_callAI_gateway_down (w : Index.World)
  (symbol tf ohlc prevCandles indicators volume avgVolume
   keyLevels higherTF marketContext : jsval) (key : option jsstring) :
  (forall prompt authorization, Index.fetch_ai w prompt authorization = Rejected) ->
  exists e,
    Index.callAI w symbol tf ohlc prevCandles indicators volume avgVolume
      keyLevels higherTF marketContext key = Throw e.
Proof.
  intros Down. unfold Index.callAI.
  destruct (Index.validateTradingData _ _ _ _ _); cbn [bind]; [|eexists; reflexivity].
  destruct (Index.promptParts _ _ _ _ _ _ _ _ _); cbn [bind]; [|eexists; reflexivity].
  rewrite Down. eexists. reflexivity.
Qed.

Lemma index_analyse_gateway_down (env0 : Env) (w : Index.World) (requestData : jsval) :
  (forall prompt authorization, Index.fetch_ai w prompt authorization = Rejected) ->
  exists e, Index.analyse env0 w requestData = Throw e.
Proof.
  intros Down. unfold Index.analyse.
  repeat (match goal with
          | |- context [bind (get ?v ?k) _] =>
              destruct (get v k); cbn [bind]; [|eexists; reflexivity]
          end).
  match goal with
  | |- context [Index.callAI w ?a ?b ?c ?d ?e ?f ?g ?h ?i ?j ?k] =>
      destruct (index_callAI_gateway_down w a b c d e f g h i j k Down) as (x & ->)
  end.
  eexists. reflexivity.
Qed.

Lemma index_authorized (env0 : Env) (request : Request) (k : jsstring) :
  x_api_key request = Some k -> PRE_SHARED_TOKEN env0 = Some k ->
  match x_api_key request, PRE_SHARED_TOKEN env0 with
  | Some apiKey, Some token => negb (str_eqb apiKey token)
  | _, _ => true
  end = false.
Proof.
  intros -> ->. apply negb_false_iff. apply str_eqb_eq. reflexivity.
Qed.

(** With the cache holding nothing for the request, a gateway that is
    down is answered 500. *)
Lemma index_gateway_down_500 (env0 : Env) (w : Index.World) (cache : Index.Cache)
  (request : Request) (k : jsstring) :
  str_eqb (method request) (lit "POST") = true ->
  x_api_key request = Some k -> PRE_SHARED_TOKEN env0 = Some k ->
  (forall requestData cacheKey,
      Index.read_request request = Ok (requestData, cacheKey) ->
      Index.cache_get cacheKey cache = None) ->
  (forall prompt authorization, Index.fetch_ai w prompt authorization = Rejected) ->
  status (fst (Index.handleRequest env0 w cache request)) = 500.
Proof.
  intros M K Tk Miss Down. unfold Index.handleRequest.
  rewrite M, (index_authorized _ _ K Tk). cbn [negb].
  destruct (Index.read_request request) as [[requestData cacheKey]|e];
    [|reflexivity].
  rewrite (Miss _ _ eq_refl).
  destruct (index_analyse_gateway_down env0 w requestData Down) as (e & ->).
  reflexivity.
Qed.

(** After the analysis, a Telegram response is answered 200 whether it is
    ok or not. *)
Lemma index_alert_responded (env0 : Env) (w : Index.World) (cache : Index.Cache)
  (request : Request) (k : jsstring) (requestData : jsval) (cacheKey : jsstring)
  (s : Index.Signal) (ok : bool) (st : Z) (body : jsstring) :
  str_eqb (method request) (lit "POST") = true ->
  x_api_key request = Some k -> PRE_SHARED_TOKEN env0 = Some k ->
  Index.read_request request = Ok (requestData, cacheKey) ->
  Index.cache_get cacheKey cache = None ->
  Index.analyse env0 w requestData = Ok s ->
  Index.fetch_telegram w
    (render (Index.alertParts w (at1 requestData "symbol")
               (at1 requestData "timeframe") s)) = Responded ok st body ->
  fst (Index.handleRequest env0 w cache request)
  = Index.ok_response (Index.Signal_to_js s).
Proof.
  intros M K Tk R C A F. unfold Index.handleRequest.
  rewrite M, (index_authorized _ _ K Tk), R, C, A. cbn [negb].
  assert (N : is_nullish requestData = false).
  { unfold Index.analyse in A. destruct requestData; try reflexivity; discriminate A. }
  rewrite !(get_opt_get _ _ N). cbn [bind]. unfold Index.sendTelegramAlert.
  unfold at1 in F. rewrite F. reflexivity.
Qed.

End IndexHandler.

(** C1, as stated, fails in [index.js]: with the header right and a body
    that its validator accepts, a rejected gateway call is answered 500. *)
Lemma index_gateway_failure_is_500 :
  Index.validateTradingData (rt := node)
    (at1 index_sample "ohlc") (at1 index_sample "prevCandles")
    (at1 index_sample "indicators") (at1 index_sample "volume")
    (at1 index_sample "avgVolume") = Ok tt
  /\ fst (Index.handleRequest (rt := node) env
            (index_world Rejected (Responded true 200 [])) []
            (post (Some secret) index_sample))
     = Index.failed (rt := node) FetchFailed
  /\ status (Index.failed (rt := node) FetchFailed) = 500.
Proof. repeat split; vm_compute; reflexivity. Qed.

(** C1, amended.  In [TradingWorker], once a request is past the rate
    limiter, the method check, the authentication and the body parser, its
    close price is a number, its symbol and timeframe are values the
    notification can coerce to a string and the three indicators the
    fallback generator compares are values it can coerce, the answer is a
    200 that carries a signal of the three values, whatever the gateway,
    the model's reply and the notifier do.  In [index.js] an unparseable
    reply is absorbed into the hold of the interpreter and a notifier
    response, ok or not, leaves the answer a 200 with the signal when the
    symbol, the timeframe, the confidence and the explanation are values
    the alert can coerce to a string, but a failed gateway call is
    answered 500 (when the cache holds nothing for the request). *)
Theorem failures_by_variant {rt : Runtime} :
  (forall env0 w last request data,
      (Worker.now w - last <? 12000) = false ->
      str_eqb (method request) (lit "POST") = true ->
      Worker.authenticateRequest env0 request = true ->
      Worker.parseRequest request = Ok (inl data) ->
      is_number (at2 data "ohlc" "close") = true ->
      coercible (at1 data "symbol") = true ->
      coercible (at1 data "tf") = true ->
      coercible (at2 data "indicators" "ema9") = true ->
      coercible (at2 data "indicators" "ema21") = true ->
      coercible (at2 data "indicators" "rsi") = true ->
      exists s,
        Worker.handle env0 w last request =
        (Ok (Worker.createResponse 200 (Worker.Signal_to_js s)), Worker.now w)
        /\ In (Worker.signal s) signals)
  /\ (forall env0 w cache request k,
         str_eqb (method request) (lit "POST") = true ->
         x_api_key request = Some k -> PRE_SHARED_TOKEN env0 = Some k ->
         (forall requestData cacheKey,
             Index.read_request request = Ok (requestData, cacheKey) ->
             Index.cache_get cacheKey cache = None) ->
         (forall prompt authorization,
             Index.fetch_ai w prompt authorization = Rejected) ->
         status (fst (Index.handleRequest env0 w cache request)) = 500)
  /\ (forall aiText, exists s, Index.parseAIResponse (JStr aiText) = Ok s)
  /\ (forall env0 w cache request k requestData cacheKey s ok st body,
         str_eqb (method request) (lit "POST") = true ->
         x_api_key request = Some k -> PRE_SHARED_TOKEN env0 = Some k ->
         Index.read_request request = Ok (requestData, cacheKey) ->
         Index.cache_get cacheKey cache = None ->
         Index.analyse env0 w requestData = Ok s ->
         coercible (at1 requestData "symbol") = true ->
         coercible (at1 requestData "timeframe") = true ->
         coercible (Index.confidence s) = true ->
         coercible (Index.explanation s) = true ->
         Index.fetch_telegram w
           (render (Index.alertParts w (at1 requestData "symbol")
                      (at1 requestData "timeframe") s)) = Responded ok st body ->
         fst (Index.handleRequest env0 w cache request)
         = Index.ok_response (Index.Signal_to_js s)).
Proof.
  split; [intros env0 w last request data R M A P C _ _ _ _ _;
          exact (worker_processing env0 w last request R M A P C)|].
  split; [exact index_gateway_down_500|].
  split; [|intros env0 w cache request k requestData cacheKey s ok st body
             M K T R G An _ _ _ _ F;
           exact (index_alert_responded env0 w cache request M K T R G An F)].
  intros aiText.
  destruct (parseAIResponse_cases aiText) as [E | (l & x & _ & _ & _ & E)];
    rewrite E; eexists; reflexivity.
Qed.

(** The sample request to [TradingWorker] under [node] with both outbound
    calls rejected: a 200 with the fallback generator's buy. *)
Lemma failures_by_variant_witness :
  exists s,
    Worker.handle (rt := node) env (worker_world Rejected Rejected) 0
      (post (Some secret) sample)
    = (Ok (Worker.createResponse 200 (Worker.Signal_to_js s)), 1793613600000)
    /\ In (Worker.signal s) signals.
Proof.
  apply (proj1 (failures_by_variant (rt := node)) env
           (worker_world Rejected Rejected) 0 (post (Some secret) sample) sample).
  - reflexivity.
  - reflexivity.
  - vm_compute. reflexivity.
  - vm_compute. reflexivity.
  - reflexivity.
  - reflexivity.
  - reflexivity.
  - reflexivity.
  - reflexivity.
  - reflexivity.
Defined.

(* ===================================================================== *)
(** * A reply the interpreter cannot use *)
(* ===================================================================== *)

Section InterpreterFailure.
Context {rt : Runtime}.

Lemma tryParseAI_failure (aiText : jsstring) (e : exn) :
  Worker.tryParseAI_try (cleaned aiText) = Throw e ->
  Worker.tryParseAI aiText = Ok Worker_hold.
Proof.
  intros H. unfold Worker.tryParseAI. fold (cleaned aiText). rewrite H. reflexivity.
Qed.

(** C9. When the [try] block of an interpreter throws, on a reply that
    does not parse or has the wrong shape, the result is the fixed hold:
    in [TradingAI] because the fallback generator is run on the empty
    object, in [index.js] because the [catch] returns a literal.  No
    indicator of the request enters either function, and so the answer of
    [TradingWorker.handle] to a request whose model reply is unusable is
    that hold for every snapshot. *)
Theorem interpreter_failure_is_hold (aiText : jsstring) :
  Worker.generateFallbackSignal (JObj []) = Ok Worker_hold
  /\ Worker.signal Worker_hold = lit "hold"
  /\ Index.signal Index_hold = lit "hold"
  /\ (forall e, Worker.tryParseAI_try (cleaned aiText) = Throw e ->
                Worker.tryParseAI aiText = Ok Worker_hold)
  /\ (forall e, Index.parseAIResponse_try (JStr aiText) = Throw e ->
                Index.parseAIResponse (JStr aiText) = Ok Index_hold)
  /\ (forall env0 w last request data e,
         (Worker.now w - last <? 12000) = false ->
         str_eqb (method request) (lit "POST") = true ->
         Worker.authenticateRequest env0 request = true ->
         Worker.parseRequest request = Ok (inl data) ->
         is_number (at2 data "ohlc" "close") = true ->
         Worker.callAI w data (FREEV36_API_KEY env0) = Ok aiText ->
         Worker.tryParseAI_try (cleaned aiText) = Throw e ->
         Worker.handle env0 w last request =
         (Ok (Worker.createResponse 200 (Worker.Signal_to_js Worker_hold)),
          Worker.now w)).
Proof.
  split; [reflexivity|]. split; [reflexivity|]. split; [reflexivity|].
  split; [intros e; apply tryParseAI_failure|].
  split.
  - intros e H. unfold Index.parseAIResponse. rewrite H. reflexivity.
  - intros env0 w last request data e R M A P C G H.
    unfold Worker.handle. rewrite R, M, A, P. cbn [negb bind].
    rewrite G. cbn [bind]. rewrite (tryParseAI_failure _ H). cbn [bind].
    destruct (required_fields _ (parseRequest_data _ P)) as (N & _ & To).
    rewrite (sendTelegramNotification_total w data Worker_hold N To C).
    reflexivity.
Qed.

End InterpreterFailure.

(** The sample request under [node] when the model answers [not json]:
    both [try] blocks throw, and [TradingWorker] answers the hold although
    the fallback generator says buy on the indicators of the request. *)
Lemma interpreter_failure_is_hold_witness :
  Worker.tryParseAI_try (rt := node) (cleaned reply_not_json) = Throw SyntaxError
  /\ Index.parseAIResponse (rt := node) (JStr reply_not_json) = Ok Index_hold
  /\ (exists s, Worker.generateFallbackSignal (rt := node) (at1 sample "indicators")
                = Ok s /\ Worker.signal s = lit "buy")
  /\ Worker.handle (rt := node) env
       (worker_world (completion reply_not_json) Rejected) 0
       (post (Some secret) sample)
     = (Ok (Worker.createResponse 200 (Worker.Signal_to_js Worker_hold)),
        1793613600000).
Proof.
  assert (A : Worker.tryParseAI_try (rt := node) (cleaned reply_not_json)
              = Throw SyntaxError) by (vm_compute; reflexivity).
  assert (B : Index.parseAIResponse_try (rt := node) (JStr reply_not_json)
              = Throw SyntaxError) by (vm_compute; reflexivity).
  destruct (interpreter_failure_is_hold (rt := node) reply_not_json)
    as (_ & _ & _ & _ & I & H).
  split; [exact A|]. split; [exact (I _ B)|].
  split; [eexists; split; vm_compute; reflexivity|].
  apply (H env (worker_world (completion reply_not_json) Rejected) 0
           (post (Some secret) sample) sample SyntaxError).
  - reflexivity.
  - reflexivity.
  - vm_compute. reflexivity.
  - vm_compute. reflexivity.
  - reflexivity.
  - vm_compute. reflexivity.
  - exact A.
Defined.

(* ===================================================================== *)
(** * The order of the pipeline *)
(* ===================================================================== *)


Section Order.
Context {rt : Runtime}.

Lemma worker_rate_limited (env0 : Env) (w : Worker.World) (last : Z) (request : Request) :
  (Worker.now w - last <? 12000) = true ->
  Worker.handle env0 w last request = (Ok too_many_requests, last).
Proof. intros R. unfold Worker.handle. rewrite R. reflexivity. Qed.


Lemma worker_unauthorized (env0 : Env) (w : Worker.World) (last : Z) (request : Request) :
  (Worker.now w - last <? 12000) = false ->
  str_eqb (method request) (lit "POST") = true ->
  Worker.authenticateRequest env0 request = false ->
  Worker.handle env0 w last request = (Ok unauthorized, Worker.now w).
Proof. intros R M A. unfold Worker.handle. rewrite R, M, A. reflexivity. Qed.

Lemma worker_method_not_allowed (env0 : Env) (w : Worker.World) (last : Z)
  (request : Request) :
  (Worker.now w - last <? 12000) = false ->
  str_eqb (method request) (lit "POST") = false ->
  status_of (fst (Worker.handle env0 w last request)) = 405.
Proof. intros R M. unfold Worker.handle. rewrite R, M. reflexivity. Qed.

Lemma check_required_400 (bodyJson : jsval) (fields : list string) (r : Response) :
  Worker.check_required bodyJson fields = Ok (Some r) -> status r = 400.
Proof.
  induction fields as [|f fields IH]; cbn [Worker.check_required]; [discriminate|].
  destruct (get bodyJson f) as [v|]; cbn [bind]; [|discriminate].
  destruct (negb (truthy v)); [|exact IH].
  intros E. assert (Some r = Some (Worker.createResponse 400
                      (obj [("error"%string, JStr (lit "Missing " ++ lit f))])))
    as E' by congruence.
  injection E' as ->. reflexivity.
Qed.

Lemma parseRequest_400 (request : Request) (r : Response) :
  Worker.parseRequest request = Ok (inr r) -> status r = 400.
Proof.
  unfold Worker.parseRequest.
  destruct (parse_json (req_body request)) as [bodyJson|]; cbn [bind try_catch].
  - destruct (Worker.check_required bodyJson Worker.required) as [[r'|]|] eqn:C;
      cbn [bind try_catch]; intros E.
    + assert (r = r') by congruence. subst. exact (check_required_400 _ _ C).
    + discriminate E.
    + assert (inr r = @inr jsval _ (Worker.createResponse 400
                 (obj [("error"%string, JStr (lit "Invalid JSON"))]))) as E'
        by congruence.
      injection E' as ->. reflexivity.
  - intros E.
    assert (inr r = @inr jsval _ (Worker.createResponse 400
               (obj [("error"%string, JStr (lit "Invalid JSON"))]))) as E'
      by congruence.
    injection E' as ->. reflexivity.
Qed.

(** A body the parser refuses is answered 400 before the model is called:
    the answer does not depend on the world's outbound calls. *)
Lemma worker_bad_body (env0 : Env) (w : Worker.World) (last : Z) (request : Request)
  (r : Response) :
  (Worker.now w - last <? 12000) = false ->
  str_eqb (method request) (lit "POST") = true ->
  Worker.authenticateRequest env0 request = true ->
  Worker.parseRequest request = Ok (inr r) ->
  Worker.handle env0 w last request = (Ok r, Worker.now w) /\ status r = 400.
Proof.
  intros R M A P. split; [|exact (parseRequest_400 _ P)].
  unfold Worker.handle. rewrite R, M, A, P. reflexivity.
Qed.







End Order.


(* ===================================================================== *)
(** * Further properties: the text filters *)
(* ===================================================================== *)

Section Sanitizer.
Context {rt : Runtime}.

Lemma strip_delimiters_app (s t : jsstring) :
  strip_delimiters (s ++ t) = strip_delimiters s ++ strip_delimiters t.
Proof. unfold strip_delimiters. apply filter_app. Qed.

Lemma strip_delimiters_fixed (s : jsstring) :
  no_delimiter s -> strip_delimiters s = s.
Proof.
  unfold no_delimiter, strip_delimiters. induction 1 as [|c s Hc Hs IH]; cbn [filter].
  - reflexivity.
  - rewrite Hc. cbn [negb]. now rewrite IH.
Qed.

Lemma filter_length_le {A} (f : A -> bool) (l : list A) :
  (List.length (filter f l) <= List.length l)%nat.
Proof.
  induction l as [|a l IH]; cbn [filter List.length]; [lia|].
  destruct (f a); cbn [List.length]; lia.
Qed.

(** X1.  [sanitizeForPrompt] keeps exactly the characters of
    [String(text)] outside its class, in their order: it changes nothing in
    a text that has none of the nine delimiters, applying it twice is
    applying it once, it works piece by piece on a concatenation, and its
    result is never longer than its input. *)
Theorem sanitizeForPrompt_filter :
  (forall text,
      Worker.sanitizeForPrompt (JStr (Worker.sanitizeForPrompt text))
      = Worker.sanitizeForPrompt text)
  /\ (forall s, no_delimiter s -> Worker.sanitizeForPrompt (JStr s) = s)
  /\ (forall s t,
         Worker.sanitizeForPrompt (JStr (s ++ t))
         = Worker.sanitizeForPrompt (JStr s) ++ Worker.sanitizeForPrompt (JStr t))
  /\ (forall text c,
         In c (Worker.sanitizeForPrompt text)
         <-> In c (ToString text) /\ is_delimiter c = false)
  /\ (forall text,
         (List.length (Worker.sanitizeForPrompt text)
          <= List.length (ToString text))%nat).
Proof.
  unfold Worker.sanitizeForPrompt. cbn [ToString].
  split; [|split; [|split; [|split]]].
  - intros text. apply strip_delimiters_fixed, strip_delimiters_clean.
  - exact strip_delimiters_fixed.
  - exact strip_delimiters_app.
  - intros text c. unfold strip_delimiters. rewrite filter_In, negb_true_iff.
    reflexivity.
  - intros text. apply filter_length_le.
Qed.

Ltac notification_parts this :=
  repeat (apply Forall_cons;
          [ intros ?p;
            first [ apply T_any
                  | apply S_other; discriminate
                  | apply S_this; this ]
          | ]);
  apply Forall_nil.

Lemma notification_symbol (w : Worker.World) (data : jsval) (s : Worker.Signal)
  (ps : list part) :
  Worker.notificationParts w data s = Ok ps ->
  Forall (sub_satisfies "data.symbol"
            (fun t => t = Worker.sanitizeForPrompt (at1 data "symbol"))) ps.
Proof.
  unfold Worker.notificationParts. apply sequence_Forall.
  notification_parts
    ltac:(intros t; destruct (get data "symbol") as [v|] eqn:G; cbn [bind];
          [|discriminate];
          intros E; apply get_ok_opt_get in G; subst v; unfold at1; congruence).
Qed.

Lemma notification_explanation (w : Worker.World) (data : jsval) (s : Worker.Signal)
  (ps : list part) :
  Worker.notificationParts w data s = Ok ps ->
  Forall (sub_satisfies "parsedSignal.explanation"
            (fun t => t = Worker.explanation s)) ps.
Proof.
  unfold Worker.notificationParts. apply sequence_Forall.
  notification_parts ltac:(intros t E; congruence).
Qed.

(** The chunks of the notification around the one that holds the symbol:
    they are the same whatever the symbol is. *)
Lemma notification_split (w : Worker.World) (l : list (jsstring * jsval))
  (s : Worker.Signal) :
  exists l1 l2,
    forall x,
      Worker.notificationParts w (with_field "symbol" x (JObj l)) s
      = sequence (l1 ++ Ok (Sub "data.symbol" (Worker.sanitizeForPrompt x)) :: l2).
Proof.
  eexists. eexists. intros x.
  unfold Worker.notificationParts, Worker.field, Worker.fixed2.
  rewrite get_with_field_same.
  rewrite !get_with_field_other by reflexivity.
  apply (f_equal sequence).
  match goal with |- ?L = _ => rewrite <- (firstn_skipn 3 L) end.
  cbn [firstn skipn]. reflexivity.
Qed.

(** X2.  In the Telegram message of [sendTelegramNotification], which is
    sent as HTML, the symbol is the sanitized one: no angle bracket (nor
    any other delimiter) of the request's symbol reaches the message.
    Each place of the message that holds the symbol holds [String(symbol)]
    without the nine delimiter characters, and the message built for a
    snapshot is a text before the symbol, that sanitized symbol, and a
    text after it, neither of which changes with the symbol.  The
    explanation is interpolated as the interpreter returned it.  The
    symbol is taken to be a value [String] can coerce. *)
Theorem notification_symbol_sanitized (w : Worker.World) (data : jsval)
  (s : Worker.Signal) (ps : list part) :
  Worker.notificationParts w data s = Ok ps ->
  (forall t, In t (subs_of "data.symbol" ps) ->
             t = strip_delimiters (ToString (at1 data "symbol"))
             /\ no_delimiter t)
  /\ (forall t, In t (subs_of "parsedSignal.explanation" ps) ->
                t = Worker.explanation s)
  /\ (forall l,
         exists pre post,
           forall x message,
             coercible x = true ->
             Worker.notificationParts w (with_field "symbol" x (JObj l)) s
             = Ok message ->
             render message = pre ++ strip_delimiters (ToString x) ++ post
             /\ no_delimiter (strip_delimiters (ToString x))).
Proof.
  intros E. split; [|split].
  - intros t H.
    pose proof (subs_of_satisfy (notification_symbol _ _ _ E) _ H) as ->.
    split; [reflexivity | apply strip_delimiters_clean].
  - intros t H. exact (subs_of_satisfy (notification_explanation _ _ _ E) _ H).
  - intros l. destruct (notification_split w l s) as (l1 & l2 & P).
    destruct (template_hole l1 l2) as (pre & post & R).
    exists pre, post. intros x message _ M. rewrite P in M.
    split; [|apply strip_delimiters_clean].
    exact (R _ _ _ M).
Qed.

End Sanitizer.

(** The snapshot with delimiters in its symbol, notified under [node]: the
    message holds the symbol without its braces. *)
Lemma notification_symbol_sanitized_witness :
  exists ps,
    Worker.notificationParts (rt := node) (worker_world Rejected Rejected)
      sample_delimiters Worker_hold = Ok ps
    /\ subs_of "data.symbol" ps = [lit "EURUSD"]
    /\ (forall t, In t (subs_of "data.symbol" ps) -> no_delimiter t).
Proof.
  destruct (Worker.notificationParts (rt := node) (worker_world Rejected Rejected)
              sample_delimiters Worker_hold) as [ps|e] eqn:P.
  - exists ps. split; [reflexivity|]. split.
    + vm_compute in P. apply Ok_inj in P. subst ps. vm_compute. reflexivity.
    + intros t H.
      exact (proj2 (proj1 (notification_symbol_sanitized (rt := node) _ _ _ P) t H)).
  - exfalso. vm_compute in P. discriminate P.
Defined.

Section Fences.

Lemma starts_with_fence (s : jsstring) :
  starts_with fence s =
  match s with
  | a :: b :: c :: _ => (96 =? a)%N && ((96 =? b)%N && (96 =? c)%N)
  | _ => false
  end.
Proof.
  change fence with [96; 96; 96]%N.
  destruct s as [|a [|b [|c s]]]; cbn [starts_with];
    rewrite ?andb_false_r, ?andb_true_r; reflexivity.
Qed.

Lemma json_fence_is_fence (s : jsstring) :
  starts_with json_fence s = true -> starts_with fence s = true.
Proof.
  rewrite starts_with_fence.
  change json_fence with [96; 96; 96; 106; 115; 111; 110]%N.
  destruct s as [|a [|b [|c s]]]; cbn [starts_with];
    rewrite ?andb_false_r; try discriminate.
  rewrite !andb_true_iff. tauto.
Qed.

Lemma strip_fences_from_cons (c : jschar) (r : jsstring) :
  strip_fences_from 0 (c :: r) =
  if starts_with json_fence (c :: r) then strip_fences_from 6 r
  else if starts_with fence (c :: r) then strip_fences_from 2 r
  else c :: strip_fences_from 0 r.
Proof. reflexivity. Qed.

Lemma no_fence_no_json_fence (s : jsstring) :
  starts_with fence s = false -> starts_with json_fence s = false.
Proof.
  intros F. destruct (starts_with json_fence s) eqn:J; [|reflexivity].
  apply json_fence_is_fence in J. congruence.
Qed.

(** Dropping matches to the right of a character does not complete a fence
    that starts at it. *)
Lemma strip_fences_head (c : jschar) (r : jsstring) :
  starts_with fence (c :: r) = false ->
  starts_with fence (c :: strip_fences_from 0 r) = false.
Proof.
  intros H. rewrite starts_with_fence in *.
  destruct (96 =? c)%N eqn:Tc;
    [|destruct (strip_fences_from 0 r) as [|x [|y z]]; reflexivity].
  destruct r as [|d r1]; [reflexivity|].
  rewrite strip_fences_from_cons.
  destruct (starts_with fence (d :: r1)) eqn:F.
  - exfalso. rewrite starts_with_fence in F.
    destruct r1 as [|e [|f r2]]; try discriminate F.
    apply andb_true_iff in F as [Td F]. apply andb_true_iff in F as [Te _].
    rewrite Td, Te in H. discriminate H.
  - rewrite (no_fence_no_json_fence _ F).
    destruct (96 =? d)%N eqn:Td;
      [|destruct (strip_fences_from 0 r1); reflexivity].
    destruct r1 as [|e r2]; [reflexivity|].
    cbn [andb] in H.
    assert (Fe : starts_with fence (e :: r2) = false).
    { rewrite starts_with_fence. destruct r2 as [|f [|g r3]]; try reflexivity.
      rewrite H. reflexivity. }
    rewrite strip_fences_from_cons, (no_fence_no_json_fence _ Fe), Fe.
    rewrite H. reflexivity.
Qed.

Lemma strip_fences_from_no_fence (s : jsstring) :
  forall skip, contains fence (strip_fences_from skip s) = false.
Proof.
  induction s as [|c r IH]; intros [|k]; try reflexivity.
  - rewrite strip_fences_from_cons.
    destruct (starts_with json_fence (c :: r)); [apply IH|].
    destruct (starts_with fence (c :: r)) eqn:F; [apply IH|].
    cbn [contains]. rewrite (strip_fences_head _ _ F), IH. reflexivity.
  - cbn [strip_fences_from]. apply IH.
Qed.

Lemma strip_fences_fixed (s : jsstring) :
  contains fence s = false -> strip_fences s = s.
Proof.
  unfold strip_fences. induction s as [|c r IH]; [reflexivity|].
  cbn [contains]. intros H. apply orb_false_iff in H as [F C].
  rewrite strip_fences_from_cons, (no_fence_no_json_fence _ F), F, (IH C).
  reflexivity.
Qed.

Lemma strip_fences_from_length (s : jsstring) :
  forall skip, (List.length (strip_fences_from skip s) <= List.length s)%nat.
Proof.
  induction s as [|c r IH]; intros [|k]; cbn [List.length]; try (cbn; lia).
  - rewrite strip_fences_from_cons.
    destruct (starts_with json_fence (c :: r)); [specialize (IH 6%nat); lia|].
    destruct (starts_with fence (c :: r)); [specialize (IH 2%nat); lia|].
    cbn [List.length]. specialize (IH 0%nat). lia.
  - cbn [strip_fences_from]. specialize (IH k). lia.
Qed.

(** Substrings of a text without a fence have none. *)
Lemma starts_with_app (p s t : jsstring) :
  starts_with p s = true -> starts_with p (s ++ t) = true.
Proof.
  revert s. induction p as [|c p IH]; intros [|d s]; cbn; try congruence.
  rewrite !andb_true_iff. intros [E H]. auto.
Qed.

Lemma contains_app_r (p s t : jsstring) :
  contains p s = true -> contains p (s ++ t) = true.
Proof.
  induction s as [|c s IH].
  - cbn [contains app]. rewrite orb_false_r. intros H.
    destruct p; [|discriminate H]. destruct t; reflexivity.
  - cbn [contains app]. rewrite !orb_true_iff. intros [H|H].
    + left. exact (@starts_with_app _ _ t H).
    + right. auto.
Qed.

Lemma contains_app_l (p s t : jsstring) :
  contains p t = true -> contains p (s ++ t) = true.
Proof.
  induction s as [|c s IH]; [trivial|].
  intros H. cbn [contains app]. rewrite (IH H). apply orb_true_r.
Qed.

Lemma trim_start_suffix (s : jsstring) : exists a, s = a ++ trim_start s.
Proof.
  induction s as [|c s (a & IH)]; [exists []; reflexivity|].
  cbn [trim_start]. destruct (is_space c).
  - exists (c :: a). cbn [app]. now rewrite <- IH.
  - exists []. reflexivity.
Qed.

Lemma trim_infix (s : jsstring) : exists a b, s = a ++ trim s ++ b.
Proof.
  unfold trim. destruct (trim_start_suffix s) as (a & Ha).
  destruct (trim_start_suffix (rev (trim_start s))) as (b & Hb).
  exists a, (rev b). rewrite <- rev_app_distr, <- Hb, rev_involutive. exact Ha.
Qed.

Lemma trim_no_fence (s : jsstring) :
  contains fence s = false -> contains fence (trim s) = false.
Proof.
  intros H. destruct (contains fence (trim s)) eqn:C; [|reflexivity].
  destruct (trim_infix s) as (a & b & E).
  rewrite E, (@contains_app_l _ a _ (@contains_app_r _ _ b C)) in H. discriminate H.
Qed.

(** X3.  The replacement of [/```json|```/g] leaves no code fence behind:
    neither the text it returns nor the trimmed text the interpreters hand
    to [JSON.parse] holds three backticks in a row.  A text without a
    fence is returned as it is, so stripping twice is stripping once, and
    the result is never longer than the reply. *)
Theorem strip_fences_leaves_no_fence :
  (forall s, contains fence (strip_fences s) = false)
  /\ (forall aiText, contains fence (cleaned aiText) = false)
  /\ (forall s, contains fence s = false -> strip_fences s = s)
  /\ (forall s, strip_fences (strip_fences s) = strip_fences s)
  /\ (forall s, (List.length (strip_fences s) <= List.length s)%nat).
Proof.
  split; [|split; [|split; [|split]]].
  - intros s. apply strip_fences_from_no_fence.
  - intros s. apply trim_no_fence, strip_fences_from_no_fence.
  - exact strip_fences_fixed.
  - intros s. apply strip_fences_fixed, strip_fences_from_no_fence.
  - intros s. apply strip_fences_from_length.
Qed.

Lemma strip_fences_from_skip (k : nat) (p s : jsstring) :
  List.length p = k -> strip_fences_from k (p ++ s) = strip_fences_from 0 s.
Proof.
  revert k. induction p as [|c p IH]; intros k <-; [reflexivity|].
  cbn [List.length app strip_fences_from]. apply IH. reflexivity.
Qed.

Lemma strip_fences_body (body : jsstring) :
  Forall (fun c => c <> backtick) body ->
  strip_fences_from 0 (body ++ fence) = body.
Proof.
  induction 1 as [|c body Hc Hb IH]; [reflexivity|].
  cbn [app]. rewrite strip_fences_from_cons.
  assert (F : starts_with fence (c :: body ++ fence) = false).
  { rewrite starts_with_fence. apply N.eqb_neq in Hc. rewrite N.eqb_sym in Hc.
    unfold backtick in Hc. rewrite Hc.
    destruct (body ++ fence) as [|x [|y z]]; reflexivity. }
  rewrite (no_fence_no_json_fence _ F), F, IH. reflexivity.
Qed.

Lemma strip_fences_fenced (body : jsstring) :
  Forall (fun c => c <> backtick) body ->
  strip_fences (fenced body) = body /\ strip_fences body = body.
Proof.
  intros H. split.
  - unfold strip_fences, fenced.
    change json_fence with (96%N :: [96; 96; 106; 115; 111; 110]%N).
    cbn [app]. rewrite strip_fences_from_cons.
    replace (starts_with json_fence _) with true by reflexivity.
    change (96 :: 106 :: 115 :: 111 :: 110 :: body ++ fence)%N
      with ([96; 106; 115; 111; 110]%N ++ body ++ fence) at 1.
    change (96%N :: [96; 106; 115; 111; 110]%N ++ body ++ fence)
      with ([96; 96; 106; 115; 111; 110]%N ++ body ++ fence).
    rewrite (@strip_fences_from_skip 6) by reflexivity.
    apply strip_fences_body, H.
  - unfold strip_fences. induction H as [|c body Hc Hb IH]; [reflexivity|].
    rewrite strip_fences_from_cons.
    assert (F : starts_with fence (c :: body) = false).
    { rewrite starts_with_fence. apply N.eqb_neq in Hc. rewrite N.eqb_sym in Hc.
      unfold backtick in Hc. rewrite Hc. destruct body as [|x [|y z]]; reflexivity. }
    rewrite (no_fence_no_json_fence _ F), F, IH. reflexivity.
Qed.

End Fences.

Section FencedReplies.
Context {rt : Runtime}.

(** X4.  A reply the model wraps in a json fence is read as the reply
    without the wrapper: for every body that holds no backtick, both
    interpreters return on the fenced body what they return on the body
    itself. *)
Theorem fenced_reply_read_as_body (body : jsstring) :
  Forall (fun c => c <> backtick) body ->
  cleaned (fenced body) = trim body
  /\ Worker.tryParseAI (fenced body) = Worker.tryParseAI body
  /\ Index.parseAIResponse (JStr (fenced body)) = Index.parseAIResponse (JStr body).
Proof.
  intros H. destruct (strip_fences_fenced H) as [F B].
  unfold cleaned, Worker.tryParseAI, Index.parseAIResponse, Index.parseAIResponse_try.
  cbn [as_string bind]. rewrite F, B. auto.
Qed.

End FencedReplies.

(** A fenced buy under [node]: read as the buy inside. *)
Lemma fenced_reply_read_as_body_witness :
  Worker.tryParseAI (rt := node) (fenced buy_reply)
  = Worker.tryParseAI (rt := node) buy_reply
  /\ Worker.tryParseAI (rt := node) buy_reply
     = Ok {| Worker.signal := lit "buy"; Worker.explanation := lit "trend up" |}.
Proof.
  split; [|vm_compute; reflexivity].
  apply (fenced_reply_read_as_body (rt := node) (body := buy_reply)).
  repeat (apply Forall_cons; [discriminate|]). apply Forall_nil.
Defined.

(* ===================================================================== *)
(** * Further properties: the signal filter of [index.js] *)
(* ===================================================================== *)

Section FilterMore.
Context {rt : Runtime}.

Lemma filterSignal_passes (s : Index.Signal)
  (indicators volume avgVolume higherTF : jsval) :
  str_eqb (Index.signal s) (lit "buy") = false ->
  str_eqb (Index.signal s) (lit "sell") = false ->
  Index.filterSignal s indicators volume avgVolume higherTF = Ok s.
Proof. intros B S. unfold Index.filterSignal. rewrite B, S. reflexivity. Qed.

Lemma filterSignal_cases (s r : Index.Signal)
  (indicators volume avgVolume higherTF : jsval) :
  Index.filterSignal s indicators volume avgVolume higherTF = Ok r ->
  r = s
  \/ (Index.signal s = lit "buy"
      /\ r = held s " (Rejected: Against D1 strong trend)")
  \/ ((Index.signal s = lit "buy" \/ Index.signal s = lit "sell")
      /\ r = held s " (Rejected: Extreme RSI without volume confirmation)").
Proof.
  unfold Index.filterSignal.
  destruct (str_eqb (Index.signal s) (lit "buy")) eqn:B.
  - apply str_eqb_eq in B.
    destruct (get higherTF "d1Trend") as [d|]; cbn [bind]; [|discriminate].
    destruct (is_str d (lit "strong bearish")).
    + intros E. apply Ok_inj in E. subst r. right. left. split; [exact B|reflexivity].
    + destruct (get indicators "rsi") as [rsi|]; cbn [bind]; [|discriminate].
      destruct (js_gt rsi (JNum (num_of_Z 70)) && _); cbn [bind orb].
      * intros E. apply Ok_inj in E. subst r. right. right.
        split; [left; exact B|reflexivity].
      * destruct (str_eqb (Index.signal s) (lit "sell")); cbn [bind].
        -- destruct (js_lt rsi (JNum (num_of_Z 30)) && _); cbn [bind orb];
             intros E; apply Ok_inj in E; subst r; [right; right|left; reflexivity].
           split; [left; exact B|reflexivity].
        -- intros E. apply Ok_inj in E. subst r. left. reflexivity.
  - cbn [bind].
    destruct (str_eqb (Index.signal s) (lit "sell")) eqn:S; cbn [bind].
    + apply str_eqb_eq in S.
      destruct (get indicators "rsi") as [rsi|]; cbn [bind]; [|discriminate].
      destruct (js_lt rsi (JNum (num_of_Z 30)) && _); cbn [bind orb];
        intros E; apply Ok_inj in E; subst r; [right; right|left; reflexivity].
      split; [right; exact S|reflexivity].
    + intros E. apply Ok_inj in E. subst r. left. reflexivity.
Qed.

Lemma filterSignal_signal (s r : Index.Signal)
  (indicators volume avgVolume higherTF : jsval) :
  Index.filterSignal s indicators volume avgVolume higherTF = Ok r ->
  Index.signal r = Index.signal s \/ Index.signal r = lit "hold".
Proof.
  intros E. destruct (filterSignal_cases _ _ _ _ _ E) as [->|[(_ & ->)|(_ & ->)]];
    auto.
Qed.

(** X5.  [filterSignal] only ever downgrades.  What it returns is the
    signal it was given or that signal turned into a hold of low
    confidence whose explanation is the given one with a rejection note
    appended; only a buy or a sell is ever turned.  A signal that is
    neither (a hold) is returned as given whatever the other arguments
    are, also when they are undefined; so filtering a rejected signal again
    returns it unchanged.  A buy whose higherTF is missing and a sell whose
    indicators are missing make it throw a TypeError. *)
Theorem filterSignal_only_downgrades (s : Index.Signal)
  (indicators volume avgVolume higherTF : jsval) :
  let filtered := Index.filterSignal s indicators volume avgVolume higherTF in
  (str_eqb (Index.signal s) (lit "buy") = false ->
   str_eqb (Index.signal s) (lit "sell") = false ->
   filtered = Ok s)
  /\ (forall r, filtered = Ok r ->
        r = s
        \/ (Index.signal s = lit "buy"
            /\ r = held s " (Rejected: Against D1 strong trend)")
        \/ ((Index.signal s = lit "buy" \/ Index.signal s = lit "sell")
            /\ r = held s " (Rejected: Extreme RSI without volume confirmation)"))
  /\ (forall r, filtered = Ok r ->
        Index.signal r = Index.signal s \/ Index.signal r = lit "hold")
  /\ (forall r, filtered = Ok r -> r <> s ->
        forall indicators' volume' avgVolume' higherTF',
          Index.filterSignal r indicators' volume' avgVolume' higherTF' = Ok r)
  /\ (Index.signal s = lit "buy" -> is_nullish higherTF = true ->
      filtered = Throw TypeError)
  /\ (Index.signal s = lit "sell" -> is_nullish indicators = true ->
      filtered = Throw TypeError).
Proof.
  intros filtered. subst filtered.
  split; [apply filterSignal_passes|].
  split; [intros r; apply filterSignal_cases|].
  split; [intros r; apply filterSignal_signal|].
  split; [|split].
  - intros r E N i v a h.
    destruct (filterSignal_cases _ _ _ _ _ E) as [->|[(_ & ->)|(_ & ->)]];
      [congruence| |]; apply filterSignal_passes; reflexivity.
  - intros B N. unfold Index.filterSignal. rewrite B.
    replace (str_eqb (lit "buy") (lit "buy")) with true by reflexivity.
    destruct higherTF; try discriminate N; reflexivity.
  - intros S N. unfold Index.filterSignal. rewrite S.
    replace (str_eqb (lit "sell") (lit "buy")) with false by reflexivity.
    replace (str_eqb (lit "sell") (lit "sell")) with true by reflexivity.
    cbn [bind]. destruct indicators; try discriminate N; reflexivity.
Qed.

(** X6.  The second rule of [filterSignal] is symmetric, unlike its first.
    Take an RSI, a volume and an average volume its comparisons can
    coerce and an explanation its template can coerce to a string:
    with the daily trend not strongly bearish, a buy at an RSI above 70 and
    a sell at an RSI below 30 are both turned into a hold of low confidence
    when the volume is below 1.2 times its average, and both are returned
    as given when it is not (a volume exactly at 1.2 times the average
    confirms). *)
Theorem filterSignal_extreme_rsi (s : Index.Signal)
  (indicators volume avgVolume higherTF : jsval) :
  is_nullish indicators = false ->
  coercible (Index.explanation s) = true ->
  coercible (at1 indicators "rsi") = true ->
  coercible volume = true ->
  coercible avgVolume = true ->
  let weak := js_lt volume (JNum (js_mul avgVolume (JNum (dec 12 (-1))))) in
  let rsi := at1 indicators "rsi" in
  let filtered := Index.filterSignal s indicators volume avgVolume higherTF in
  let note := " (Rejected: Extreme RSI without volume confirmation)"%string in
  (Index.signal s = lit "buy" ->
   is_nullish higherTF = false ->
   is_str (at1 higherTF "d1Trend") (lit "strong bearish") = false ->
   (js_gt rsi seventy && weak = true -> filtered = Ok (held s note))
   /\ (js_gt rsi seventy && weak = false -> filtered = Ok s))
  /\ (Index.signal s = lit "sell" ->
      (js_lt rsi thirty && weak = true -> filtered = Ok (held s note))
      /\ (js_lt rsi thirty && weak = false -> filtered = Ok s)).
Proof.
  intros N _ _ _ _ weak rsi filtered note. subst weak rsi filtered note.
  unfold Index.filterSignal, at1, seventy, thirty. split.
  - intros B Nh D. rewrite B.
    replace (str_eqb (lit "buy") (lit "buy")) with true by reflexivity.
    replace (str_eqb (lit "buy") (lit "sell")) with false by reflexivity.
    rewrite (get_opt_get _ _ Nh), (get_opt_get _ _ N). cbn [bind]. rewrite D.
    split; intros ->; reflexivity.
  - intros S. rewrite S.
    replace (str_eqb (lit "sell") (lit "buy")) with false by reflexivity.
    replace (str_eqb (lit "sell") (lit "sell")) with true by reflexivity.
    rewrite (get_opt_get _ _ N). cbn [bind].
    split; intros ->; reflexivity.
Qed.

End FilterMore.

(** A sell at an RSI of 25 on average volume under [node]: held. *)
Lemma filterSignal_extreme_rsi_witness :
  Index.filterSignal (rt := node) confident_sell
    (obj [("rsi", JNum (num_of_Z 25))]%string) one one JUndefined
  = Ok (held (rt := node) confident_sell
          " (Rejected: Extreme RSI without volume confirmation)").
Proof.
  apply (proj2 (@filterSignal_extreme_rsi node confident_sell
                  (obj [("rsi", JNum (num_of_Z 25))]%string)
                  one one JUndefined eq_refl eq_refl eq_refl eq_refl eq_refl)
           eq_refl).
  vm_compute. reflexivity.
Defined.

(* ===================================================================== *)
(** * Further properties: [TradingWorker] request by request *)
(* ===================================================================== *)

Section WorkerMore.
Context {rt : Runtime}.

(** Past the rate limiter [handle] answers, with one of five statuses. *)
Lemma worker_past_limiter (env0 : Env) (w : Worker.World) (last : Z)
  (request : Request) :
  (Worker.now w - last <? 12000) = false ->
  exists r,
    Worker.handle env0 w last request = (Ok r, Worker.now w)
    /\ In (status r) [200; 400; 401; 405; 500].
Proof.
  intros R. unfold Worker.handle. rewrite R.
  destruct (negb (str_eqb _ _)); [eexists; split; [reflexivity|cbn; auto 6]|].
  destruct (negb (Worker.authenticateRequest _ _));
    [eexists; split; [reflexivity|cbn; auto 6]|].
  destruct (parseRequest_total request) as ([data|r] & E); rewrite E; cbn [bind].
  - destruct (bind (Worker.callAI w data (FREEV36_API_KEY env0)) _) as [r|e] eqn:B;
      cbn [try_catch].
    + exists r. split; [reflexivity|].
      destruct (Worker.callAI w data (FREEV36_API_KEY env0)); cbn [bind] in B;
        [|discriminate B].
      destruct (Worker.tryParseAI a); cbn [bind] in B; [|discriminate B].
      destruct (Worker.sendTelegramNotification w data a0); cbn [bind] in B;
        [|discriminate B].
      apply Ok_inj in B. subst r. cbn. auto.
    + eexists. split; [reflexivity|]. cbn. auto 6.
  - exists r. split; [reflexivity|]. rewrite (parseRequest_400 _ E). cbn. auto.
Qed.

(** X7.  [handle] answers every request, with one of six statuses; it
    answers 429 exactly when less than 12000 ms have passed since the
    request it last let through, and it moves that time to the current
    one exactly when it does not answer 429.  It answers 500 only for a
    body that has its required fields and in which the close price is no
    number, or the symbol or the timeframe is a value the notification
    cannot coerce to a string, or one of the three indicators the
    fallback generator compares is a value it cannot coerce. *)
Theorem worker_statuses (env0 : Env) (w : Worker.World) (last : Z)
  (request : Request) :
  exists r,
    fst (Worker.handle env0 w last request) = Ok r
    /\ In (status r) [200; 400; 401; 405; 429; 500]
    /\ (status r = 429 <-> Worker.now w - last < 12000)
    /\ snd (Worker.handle env0 w last request)
       = (if status r =? 429 then last else Worker.now w)
    /\ (status r = 500 ->
        exists data,
          Worker.parseRequest request = Ok (inl data)
          /\ (is_number (at2 data "ohlc" "close") = false
              \/ coercible (at1 data "symbol") = false
              \/ coercible (at1 data "tf") = false
              \/ coercible (at2 data "indicators" "ema9") = false
              \/ coercible (at2 data "indicators" "ema21") = false
              \/ coercible (at2 data "indicators" "rsi") = false)).
Proof.
  destruct (Worker.now w - last <? 12000) eqn:R.
  - rewrite (worker_rate_limited env0 w last request R).
    exists too_many_requests. cbn [fst snd]. split; [reflexivity|].
    split; [cbn; auto 8|]. apply Z.ltb_lt in R.
    split; [split; [intros _; exact R|reflexivity]|].
    split; [reflexivity|]. cbn. discriminate.
  - destruct (worker_past_limiter env0 w last request R) as (r & E & S).
    exists r. rewrite E. cbn [fst snd]. split; [reflexivity|].
    apply Z.ltb_ge in R.
    assert (N : status r <> 429).
    { cbn [In] in S. intros X. rewrite X in S.
      repeat (destruct S as [S|S]; [discriminate S|]). exact S. }
    split; [cbn [In] in *; tauto|].
    split; [split; [intros X; contradiction|lia]|].
    split; [apply Z.eqb_neq in N; rewrite N; reflexivity|].
    intros S5. apply Z.ltb_ge in R.
    destruct (str_eqb (method request) (lit "POST")) eqn:M.
    2:{ pose proof (worker_method_not_allowed env0 w last request R M) as X.
        rewrite E in X. cbn in X. congruence. }
    destruct (Worker.authenticateRequest env0 request) eqn:A.
    2:{ pose proof (worker_unauthorized env0 w last request R M A) as X.
        rewrite E in X. apply (f_equal fst) in X. cbn in X. apply Ok_inj in X.
        subst r. discriminate S5. }
    destruct (parseRequest_total request) as ([data|r'] & P).
    2:{ destruct (worker_bad_body env0 w last request R M A P) as (X & Y).
        rewrite E in X. apply (f_equal fst) in X. cbn in X. apply Ok_inj in X.
        subst r'. congruence. }
    exists data. split; [exact P|].
    destruct (is_number (at2 data "ohlc" "close")) eqn:C; [|left; reflexivity].
    destruct (worker_processing env0 w last request R M A P C) as (s & X & _).
    rewrite E in X. apply (f_equal fst) in X. cbn in X. apply Ok_inj in X.
    subst r. discriminate S5.
Qed.

Lemma filter_and_le {A} (f g : A -> bool) (l : list A) :
  (List.length (filter (fun x => f x && g x) l) <= List.length (filter g l))%nat.
Proof.
  induction l as [|a l IH]; cbn [filter List.length]; [lia|].
  destruct (g a), (f a); cbn [andb List.length]; lia.
Qed.

(** Of times spaced [g] apart from [last], at most [(B - last - 1) / g]
    lie below [B]. *)
Lemma spaced_below (g B : Z) (ts : list Z) :
  0 < g ->
  forall last, spaced g last ts ->
  Z.of_nat (List.length (filter (fun t => t <? B) ts)) <= Z.max 0 ((B - last - 1) / g).
Proof.
  intros G. induction ts as [|t ts IH]; intros last; cbn [spaced filter List.length];
    [lia|].
  intros [S1 S2]. specialize (IH t S2).
  destruct (t <? B) eqn:L; cbn [List.length].
  - apply Z.ltb_lt in L.
    assert (0 <= (B - t - 1) / g) by (apply Z.div_pos; lia).
    assert ((B - t - 1) / g + 1 <= (B - last - 1) / g).
    { rewrite <- (Z.div_add (B - t - 1) 1 g) by lia.
      apply Z.div_le_mono; lia. }
    lia.
  - apply Z.ltb_ge in L.
    assert ((B - t - 1) / g < 0) by (apply Z.div_lt_upper_bound; lia).
    lia.
Qed.

Lemma spaced_window (g len start : Z) (ts : list Z) :
  0 < g ->
  forall last, spaced g last ts ->
  Z.of_nat (List.length (within start len ts)) <= 1 + Z.max 0 ((len - 1) / g).
Proof.
  intros G. unfold within.
  induction ts as [|t ts IH]; intros last; cbn [spaced filter List.length]; [lia|].
  intros [S1 S2].
  destruct ((start <=? t) && (t <? start + len)) eqn:W; cbn [List.length].
  - apply andb_true_iff in W as [W1 W2]. apply Z.leb_le in W1.
    pose proof (filter_and_le (fun x => start <=? x) (fun x => x <? start + len) ts) as F.
    pose proof (spaced_below (start + len) ts G t S2) as B.
    assert ((start + len - t - 1) / g <= (len - 1) / g)
      by (apply Z.div_le_mono; lia).
    lia.
  - exact (IH t S2).
Qed.

(** X8.  The rate limiter over any sequence of requests, whatever they
    are and whatever the clock reads: two requests that get past it are at
    least 12000 ms apart (the first one from the initial time), and of
    those that get past it at most five fall into any window of 60000 ms,
    the five requests per minute of the source comment. *)
Theorem rate_limiter_spacing (env0 : Env) (last : Z)
  (arrivals : list (Worker.World * Request)) :
  spaced 12000 last (accepted env0 last arrivals)
  /\ forall start,
       (List.length (within start 60000 (accepted env0 last arrivals)) <= 5)%nat.
Proof.
  assert (S : spaced 12000 last (accepted env0 last arrivals)).
  { revert last. induction arrivals as [|[w request] rest IH]; intros last;
      cbn [accepted]; [exact I|].
    destruct (Worker.now w - last <? 12000) eqn:R.
    - rewrite (worker_rate_limited env0 w last request R). cbn. apply IH.
    - destruct (worker_past_limiter env0 w last request R) as (r & -> & S).
      cbn [status_of].
      assert (N : (status r =? 429) = false).
      { apply Z.eqb_neq. cbn [In] in S. intros X. rewrite X in S.
        repeat (destruct S as [S|S]; [discriminate S|]). exact S. }
      rewrite N. cbn [spaced]. apply Z.ltb_ge in R. split; [lia|apply IH]. }
  split; [exact S|]. intros start.
  pose proof (@spaced_window 12000 60000 start _ eq_refl last S) as W.
  change ((60000 - 1) / 12000) with 4 in W. lia.
Qed.

(** X9.  Both header checks fail closed.  [authenticateRequest] accepts
    exactly a header that is present, not empty, and equal to a
    PRE_SHARED_TOKEN that is set; the check of [index.js] accepts exactly a
    header that is present and equal to a token that is set, the empty one
    included.  With the token unset neither accepts any request. *)
Theorem header_checks_fail_closed (env0 : Env) (request : Request) :
  (Worker.authenticateRequest env0 request = true
   <-> exists k, k <> [] /\ x_api_key request = Some k
                 /\ PRE_SHARED_TOKEN env0 = Some k)
  /\ (index_authorizes env0 request = true
      <-> exists k, x_api_key request = Some k /\ PRE_SHARED_TOKEN env0 = Some k)
  /\ (PRE_SHARED_TOKEN env0 = None ->
      Worker.authenticateRequest env0 request = false
      /\ index_authorizes env0 request = false)
  /\ (x_api_key request = None ->
      Worker.authenticateRequest env0 request = false
      /\ index_authorizes env0 request = false)
  /\ (forall w cache,
         status (fst (Index.handleRequest env0 w cache request)) = 401
         <-> str_eqb (method request) (lit "POST") = true
             /\ index_authorizes env0 request = false).
Proof.
  unfold Worker.authenticateRequest, index_authorizes.
  split; [|split; [|split; [|split]]].
  - destruct (x_api_key request) as [h|], (PRE_SHARED_TOKEN env0) as [t|];
      try (split; [discriminate|intros (k & _ & X & Y); discriminate]).
    split.
    + intros H. apply andb_true_iff in H as [H E]. apply andb_true_iff in H as [H _].
      apply str_eqb_eq in E. subst t. exists h.
      split; [destruct h; [discriminate H|discriminate]|auto].
    + intros (k & N & X & Y). injection X as ->. injection Y as ->.
      destruct k as [|c k]; [contradiction|]. cbn [truthy andb].
      apply str_eqb_eq. reflexivity.
  - destruct (x_api_key request) as [h|], (PRE_SHARED_TOKEN env0) as [t|];
      try (split; [discriminate|intros (k & X & Y); discriminate]).
    rewrite str_eqb_eq. split.
    + intros ->. exists t. auto.
    + intros (k & X & Y). congruence.
  - intros ->. destruct (x_api_key request); auto.
  - intros ->. auto.
  - intros w cache. unfold Index.handleRequest.
    destruct (str_eqb (method request) (lit "POST")); cbn [negb].
    + destruct (x_api_key request) as [h|], (PRE_SHARED_TOKEN env0) as [t|];
        try (cbn; tauto).
      destruct (str_eqb h t); cbn [negb]; [|cbn; tauto].
      split; [|intros [_ X]; discriminate X].
      destruct (Index.read_request request) as [[requestData cacheKey]|e];
        [|cbn; discriminate].
      destruct (Index.cache_get cacheKey cache) as [cached|].
      * destruct (_ <? _); [cbn; discriminate|].
        destruct (Index.analyse env0 w requestData); [|cbn; discriminate].
        destruct (bind _ _); cbn; discriminate.
      * destruct (Index.analyse env0 w requestData); [|cbn; discriminate].
        destruct (bind _ _); cbn; discriminate.
    + cbn. split; [discriminate|intros [X _]; discriminate X].
Qed.

Lemma check_required_first_missing (v : jsval) (pre post : list string) (f : string) :
  is_nullish v = false ->
  Forall (fun g => truthy (opt_get v g) = true) pre ->
  truthy (opt_get v f) = false ->
  Worker.check_required v (pre ++ f :: post)
  = Ok (Some (bad_request (lit "Missing " ++ lit f))).
Proof.
  intros N F M. induction F as [|g pre Hg Hpre IH]; cbn [app Worker.check_required];
    rewrite (get_opt_get _ _ N); cbn [bind].
  - rewrite M. reflexivity.
  - rewrite Hg. exact IH.
Qed.

(** X10.  [parseRequest] reports the first required field, in the order
    of its list, whose value is falsy: a field that is absent, null,
    false, an empty string, or the number 0.  A body whose ADX, ATR,
    volume ratio, support or resistance is 0 is therefore answered 400 as
    missing that field. *)
Theorem parseRequest_first_missing (request : Request) (v : jsval)
  (pre post : list string) (f : string) :
  JSON_parse (req_body request) = Some v ->
  is_nullish v = false ->
  Worker.required = pre ++ f :: post ->
  Forall (fun g => truthy (opt_get v g) = true) pre ->
  truthy (opt_get v f) = false ->
  Worker.parseRequest request = Ok (inr (bad_request (lit "Missing " ++ lit f))).
Proof.
  intros P N R F M. unfold Worker.parseRequest, parse_json. rewrite P, R.
  cbn [bind]. rewrite (@check_required_first_missing v pre post f N F M). reflexivity.
Qed.

(** X11.  What [parseRequest] does with a body that is no object.  A body
    that is no JSON, and the JSON text null, are answered 400 Invalid
    JSON; every other JSON value that is no object (a number, a string, a
    boolean, an array) and the empty object are answered 400 Missing
    symbol.  What it hands on is always an object. *)
Theorem parseRequest_non_objects (request : Request) :
  (JSON_parse (req_body request) = None ->
   Worker.parseRequest request = Ok (inr (bad_request (lit "Invalid JSON"))))
  /\ (JSON_parse (req_body request) = Some JNull ->
      Worker.parseRequest request = Ok (inr (bad_request (lit "Invalid JSON"))))
  /\ (forall v, JSON_parse (req_body request) = Some v ->
                is_nullish v = false ->
                match v with JObj (_ :: _) => False | _ => True end ->
                Worker.parseRequest request
                = Ok (inr (bad_request (lit "Missing symbol"))))
  /\ (forall data, Worker.parseRequest request = Ok (inl data) ->
                   exists l, data = JObj l
                             /\ JSON_parse (req_body request) = Some data).
Proof.
  unfold Worker.parseRequest, parse_json.
  split; [|split; [|split]].
  - intros ->. reflexivity.
  - intros ->. reflexivity.
  - intros v -> N O. cbn [bind].
    destruct v as [| |b|x|s|l|[|kv l]]; try discriminate N; try contradiction;
      reflexivity.
  - intros data. destruct (JSON_parse (req_body request)) as [v|] eqn:P;
      cbn [bind try_catch]; [|discriminate].
    destruct (Worker.check_required v Worker.required) as [[r|]|] eqn:C;
      cbn [bind try_catch]; try discriminate.
    intros E. assert (data = v) by congruence. subst v.
    apply check_required_ok in C. apply required_fields in C as (N & T & _).
    unfold at1 in T. destruct data; try discriminate T. eauto.
Qed.

End WorkerMore.

(** The snapshot with an ATR of 0 under [node]: the five fields before
    [atr] are there, and the answer is 400 Missing atr. *)
Lemma parseRequest_first_missing_witness :
  Worker.parseRequest (rt := node) (post (Some secret) sample_atr_zero)
  = Ok (inr (bad_request (lit "Missing atr"))).
Proof.
  apply (@parseRequest_first_missing node (post (Some secret) sample_atr_zero)
           sample_atr_zero
           ["symbol"; "tf"; "ohlc"; "indicators"; "adx"]%string
           ["volume_ratio"; "pattern"; "session"; "support"; "resistance"]%string
           "atr").
  - vm_compute. reflexivity.
  - reflexivity.
  - reflexivity.
  - repeat (apply Forall_cons; [vm_compute; reflexivity|]). apply Forall_nil.
  - vm_compute. reflexivity.
Defined.

(* ===================================================================== *)
(** * Further properties: what [TradingAI.callAI] falls back to *)
(* ===================================================================== *)

Section FallbackPath.
Context {rt : Runtime}.

Lemma generateFallbackSignal_in (indicators : jsval) (fb : Worker.Signal) :
  Worker.generateFallbackSignal indicators = Ok fb -> In fb fallback_signals.
Proof.
  unfold Worker.generateFallbackSignal.
  destruct (get indicators "ema9"); cbn [bind]; [|discriminate].
  destruct (get indicators "ema21"); cbn [bind]; [|discriminate].
  destruct (get indicators "rsi"); cbn [bind]; [|discriminate].
  destruct (_ && _); [intros E; apply Ok_inj in E; subst fb; left; reflexivity|].
  destruct (_ && _); intros E; apply Ok_inj in E; subst fb; cbn; auto.
Qed.

(** Comparisons with [undefined] are false. *)
Lemma undefined_compares_false (v : jsval) :
  js_lt JUndefined v = false /\ js_gt JUndefined v = false
  /\ js_lt v JUndefined = false /\ js_gt v JUndefined = false.
Proof.
  unfold js_lt, js_gt, IsLessThan.
  change (ToPrimitive JUndefined) with JUndefined.
  repeat split; destruct (ToPrimitive v);
    change (ToNumber JUndefined) with S754_nan; cbn [is_nan orb];
    rewrite ?orb_true_r; reflexivity.
Qed.

(** X12.  [generateFallbackSignal] on indicators with a value missing:
    when ema9, ema21 or rsi is absent from the object it is given, the
    result is the hold with the text Fallback: No clear trend, whatever
    the other two are among the values its comparisons can coerce; on
    [undefined] or [null] it throws a TypeError (callAI passes an empty
    object instead).  What it returns is always one of three fixed
    objects. *)
Theorem generateFallbackSignal_missing_value (indicators : jsval) :
  (is_nullish indicators = false ->
   coercible (at1 indicators "ema9") = true ->
   coercible (at1 indicators "ema21") = true ->
   coercible (at1 indicators "rsi") = true ->
   at1 indicators "ema9" = JUndefined \/ at1 indicators "ema21" = JUndefined
   \/ at1 indicators "rsi" = JUndefined ->
   Worker.generateFallbackSignal indicators = Ok Worker_hold)
  /\ (is_nullish indicators = true ->
      Worker.generateFallbackSignal indicators = Throw TypeError)
  /\ (forall fb, Worker.generateFallbackSignal indicators = Ok fb ->
                 In fb fallback_signals).
Proof.
  split; [|split; [|apply generateFallbackSignal_in]].
  - intros N _ _ _ H. unfold Worker.generateFallbackSignal, at1 in *.
    rewrite !(get_opt_get _ _ N). cbn [bind].
    destruct H as [H|[H|H]]; rewrite H.
    + destruct (undefined_compares_false (opt_get indicators "ema21"))
        as (L & G & _ & _).
      rewrite L, G. reflexivity.
    + destruct (undefined_compares_false (opt_get indicators "ema9"))
        as (_ & _ & L & G).
      rewrite L, G. reflexivity.
    + destruct (undefined_compares_false seventy) as (L & _).
      destruct (undefined_compares_false thirty) as (_ & G & _).
      unfold seventy, thirty in *. rewrite L, G, !andb_false_r. reflexivity.
  - intros N. destruct indicators; try discriminate N; reflexivity.
Qed.

Section ReadBack.

(** The engine reads back what it wrote of the three fallback objects,
    and its lowercasing leaves the three signal values alone. *)
Hypothesis reads_back :
  forall s, In s fallback_signals ->
            JSON_parse (cleaned (JSON_stringify (Worker.Signal_to_js s)))
            = Some (Worker.Signal_to_js s).
Hypothesis lowercase_fixed : forall x, In x signals -> toLowerCase x = x.

Lemma tryParseAI_reads_fallback (s : Worker.Signal) :
  In s fallback_signals ->
  Worker.tryParseAI (JSON_stringify (Worker.Signal_to_js s)) = Ok s.
Proof.
  intros H. pose proof (reads_back H) as P. unfold cleaned in P.
  unfold Worker.tryParseAI, Worker.tryParseAI_try, parse_json. rewrite P.
  cbn [bind]. destruct H as [<-|[<-|[<-|[]]]].
  - change (get (Worker.Signal_to_js Worker_buy) "signal") with (Ok (JStr (lit "buy"))).
    cbn [bind]. rewrite (lowercase_fixed buy_in_signals). reflexivity.
  - change (get (Worker.Signal_to_js Worker_sell) "signal")
      with (Ok (JStr (lit "sell"))).
    cbn [bind]. rewrite (lowercase_fixed sell_in_signals). reflexivity.
  - change (get (Worker.Signal_to_js Worker_hold) "signal")
      with (Ok (JStr (lit "hold"))).
    cbn [bind]. rewrite (lowercase_fixed hold_in_signals). reflexivity.
Qed.

Lemma gateway_failure_throws (w : Worker.World) (data : jsval)
  (key : option jsstring) :
  (forall prompt authorization,
      gateway_failure (Worker.fetch_ai w prompt authorization) = true) ->
  exists e, Worker.callAI_try w data key = Throw e.
Proof.
  intros Down. unfold Worker.callAI_try.
  destruct (Worker.validateInputs data); cbn [bind]; [|eexists; reflexivity].
  destruct (get data "macd_hist_prev"); cbn [bind]; [|eexists; reflexivity].
  destruct (Worker.calculateDerivedValues _ _ _); cbn [bind]; [|eexists; reflexivity].
  destruct (Worker.buildAIPrompt _ _) as [prompt|]; cbn [bind];
    [|eexists; reflexivity].
  unfold Worker.fetchWithTimeout.
  match goal with
  | |- context [Worker.fetch_ai w ?p ?a] =>
      specialize (Down p a); destruct (Worker.fetch_ai w p a) as [|ok st body]
  end; [eexists; reflexivity|].
  cbn [gateway_failure] in Down.
  destruct ok; cbn [negb orb] in *; [|eexists; reflexivity].
  unfold parse_json. destruct (JSON_parse body) as [v|]; cbn [bind];
    [|eexists; reflexivity].
  fold (content_of v). apply andb_true_iff in Down as [T S].
  unfold js_or. rewrite T.
  destruct (content_of v); try discriminate S; eexists; reflexivity.
Qed.

(** X13.  What [handle] answers when the [try] block of [callAI] throws,
    for whatever reason (the validator refuses the snapshot, the prompt
    cannot be built, the gateway fails): a 200 whose signal is exactly
    what [generateFallbackSignal] computes from the indicators of the
    request, read back unchanged by [tryParseAI].  A gateway that rejects,
    answers with a status that is not ok, answers with a body that is no
    JSON, or answers with a content that is no string makes the [try]
    block throw.  The close price is taken to be a number, the symbol and
    the timeframe to be values the notification can coerce to a string,
    the three indicators the generator compares to be values it can
    coerce, and the engine to read back the JSON it writes. *)
Theorem failed_try_answers_fallback (env0 : Env) (w : Worker.World) (last : Z)
  (request : Request) (data : jsval) :
  (Worker.now w - last <? 12000) = false ->
  str_eqb (method request) (lit "POST") = true ->
  Worker.authenticateRequest env0 request = true ->
  Worker.parseRequest request = Ok (inl data) ->
  is_number (at2 data "ohlc" "close") = true ->
  coercible (at1 data "symbol") = true ->
  coercible (at1 data "tf") = true ->
  coercible (at2 data "indicators" "ema9") = true ->
  coercible (at2 data "indicators" "ema21") = true ->
  coercible (at2 data "indicators" "rsi") = true ->
  (exists e, Worker.callAI_try w data (FREEV36_API_KEY env0) = Throw e)
  \/ (forall prompt authorization,
         gateway_failure (Worker.fetch_ai w prompt authorization) = true) ->
  exists fb,
    Worker.generateFallbackSignal (at1 data "indicators") = Ok fb
    /\ In fb fallback_signals
    /\ Worker.handle env0 w last request
       = (Ok (Worker.createResponse 200 (Worker.Signal_to_js fb)), Worker.now w).
Proof.
  intros R M A P C _ _ _ _ _ F.
  assert (Te : exists e, Worker.callAI_try w data (FREEV36_API_KEY env0) = Throw e).
  { destruct F as [F|F]; [exact F|apply gateway_failure_throws, F]. }
  destruct Te as (e & Te).
  destruct (required_fields _ (parseRequest_data _ P)) as (N & Ti & To).
  destruct (generateFallbackSignal_total _ (truthy_not_nullish _ Ti)) as (fb & G).
  pose proof (generateFallbackSignal_in _ G) as I.
  exists fb. split; [exact G|]. split; [exact I|].
  unfold Worker.handle. rewrite R, M, A, P. cbn [negb bind].
  unfold Worker.callAI. rewrite Te. cbn [try_catch].
  rewrite (get_opt_get _ _ N). cbn [bind]. unfold at1 in Ti, G.
  unfold js_or. rewrite Ti, G. cbn [bind].
  rewrite (tryParseAI_reads_fallback I). cbn [bind].
  rewrite (sendTelegramNotification_total w data fb N To C). reflexivity.
Qed.

End ReadBack.

(** X14.  A completion that carries no content is read as the fixed hold,
    not as the fallback computed from the indicators: on an ok response
    whose [choices[0].message.content] is absent, null or empty,
    [fetchWithTimeout] returns the empty string, and [tryParseAI] of the
    empty string, which is no JSON, is the hold. *)
Theorem missing_content_is_hold (w : Worker.World) (prompt authorization : jsstring)
  (st : Z) (body : jsstring) (v : jsval) :
  JSON_parse [] = None ->
  Worker.fetch_ai w prompt authorization = Responded true st body ->
  JSON_parse body = Some v ->
  truthy (content_of v) = false ->
  Worker.fetchWithTimeout w prompt authorization = Ok []
  /\ Worker.tryParseAI [] = Ok Worker_hold.
Proof.
  intros E0 F P T. split.
  - unfold Worker.fetchWithTimeout, parse_json. rewrite F, P. cbn [negb bind].
    fold (content_of v). unfold js_or. rewrite T. reflexivity.
  - unfold Worker.tryParseAI, Worker.tryParseAI_try, parse_json.
    change (trim (strip_fences [])) with (@nil jschar). rewrite E0.
    cbn [bind try_catch]. apply fallback_of_nothing.
Qed.

Lemma calculateDerivedValues_fields (w : Worker.World) (data prev : jsval)
  (d : Worker.Derived) :
  Worker.calculateDerivedValues w data prev = Ok d ->
  let ema9 := at2 data "indicators" "ema9" in
  let ema21 := at2 data "indicators" "ema21" in
  let rsi := at2 data "indicators" "rsi" in
  let macd := at2 data "indicators" "macd" in
  let macd_signal := at2 data "indicators" "macd_signal" in
  Worker.price d = at2 data "ohlc" "close"
  /\ Worker.hourUTC d = getUTCHours (Worker.clock_derived w)
  /\ Worker.sessionType d = Worker.getSessionType (Worker.hourUTC d)
  /\ Worker.trend d = (if js_gt ema9 ema21 then lit "bullish"
                       else if js_lt ema9 ema21 then lit "bearish"
                       else lit "neutral")
  /\ Worker.momentum d = (if js_gt rsi seventy then lit "overbought"
                          else if js_lt rsi thirty then lit "oversold"
                          else lit "neutral")
  /\ Worker.macdTrend d = (if js_gt macd macd_signal then lit "bullish"
                           else lit "bearish").
Proof.
  unfold Worker.calculateDerivedValues, at2, seventy, thirty.
  repeat (match goal with
          | |- context [bind (get ?v ?k) _] =>
              let G := fresh "G" in
              destruct (get v k) eqn:G; cbn [bind]; [|discriminate];
              apply get_ok_opt_get in G; subst
          end).
  destruct (call_toLowerCase _); cbn [bind]; [|discriminate].
  repeat (match goal with
          | |- context [bind (get ?v ?k) _] =>
              let G := fresh "G" in
              destruct (get v k) eqn:G; cbn [bind]; [|discriminate];
              apply get_ok_opt_get in G; subst
          end).
  intros E. apply Ok_inj in E. subst d. cbn. repeat split.
Qed.

(** X15.  The labels of [calculateDerivedValues] and the fallback
    generator read the same comparisons, so they cannot disagree: when
    the fallback for a snapshot is a buy its derived trend is bullish and
    its momentum is not overbought, when it is a sell the trend is bearish
    and the momentum is not oversold, and a neutral trend has the fallback
    hold.  Each label is one of the values the prompt names, and the hour
    is one of a day. *)
Theorem fallback_agrees_with_labels (w : Worker.World) (data prev : jsval)
  (d : Worker.Derived) (fb : Worker.Signal) :
  Worker.calculateDerivedValues w data prev = Ok d ->
  Worker.generateFallbackSignal (at1 data "indicators") = Ok fb ->
  (Worker.signal fb = lit "buy" ->
   Worker.trend d = lit "bullish" /\ Worker.momentum d <> lit "overbought")
  /\ (Worker.signal fb = lit "sell" ->
      Worker.trend d = lit "bearish" /\ Worker.momentum d <> lit "oversold")
  /\ (Worker.trend d = lit "neutral" -> fb = Worker_hold)
  /\ In (Worker.trend d) (map lit ["bullish"; "bearish"; "neutral"]%string)
  /\ In (Worker.momentum d) (map lit ["overbought"; "oversold"; "neutral"]%string)
  /\ In (Worker.macdTrend d) (map lit ["bullish"; "bearish"]%string)
  /\ In (Worker.sessionType d) (map lit ["ASIA"; "OVERLAP"; "REGULAR"]%string)
  /\ 0 <= Worker.hourUTC d < 24.
Proof.
  intros D G.
  destruct (calculateDerivedValues_fields _ _ _ D) as (_ & H & S & T & Mo & Ma).
  unfold Worker.generateFallbackSignal, at1, at2 in *.
  destruct (get (opt_get data "indicators") "ema9") as [ema9|] eqn:G9;
    cbn [bind] in G; [|discriminate G].
  destruct (get (opt_get data "indicators") "ema21") as [ema21|] eqn:G21;
    cbn [bind] in G; [|discriminate G].
  destruct (get (opt_get data "indicators") "rsi") as [rsi|] eqn:Gr;
    cbn [bind] in G; [|discriminate G].
  apply get_ok_opt_get in G9, G21, Gr. subst ema9 ema21 rsi.
  unfold seventy, thirty in *.
  set (ema9 := opt_get (opt_get data "indicators") "ema9") in *.
  set (ema21 := opt_get (opt_get data "indicators") "ema21") in *.
  set (rsi := opt_get (opt_get data "indicators") "rsi") in *.
  rewrite T, Mo, Ma, S, H. clear T Mo Ma S H D.
  split; [intros B; split
         |split; [intros B; split
                 |split; [|split; [|split; [|split; [|split]]]]]].
  - destruct (js_gt ema9 ema21) eqn:E1; cbn [andb] in G.
    + destruct (js_lt rsi (JNum (num_of_Z 70))) eqn:E2.
      * reflexivity.
      * exfalso. destruct (js_lt ema9 ema21 && _);
          apply Ok_inj in G; subst fb; discriminate B.
    + exfalso. destruct (js_lt ema9 ema21 && _);
        apply Ok_inj in G; subst fb; discriminate B.
  - destruct (js_gt ema9 ema21) eqn:E1; cbn [andb] in G.
    + destruct (js_lt rsi (JNum (num_of_Z 70))) eqn:E2.
      * rewrite (js_lt_gt _ _ E2).
        destruct (js_lt rsi (JNum (num_of_Z 30))); discriminate.
      * exfalso. destruct (js_lt ema9 ema21 && _);
          apply Ok_inj in G; subst fb; discriminate B.
    + exfalso. destruct (js_lt ema9 ema21 && _);
        apply Ok_inj in G; subst fb; discriminate B.
  - destruct (js_gt ema9 ema21 && _) eqn:E1;
      [apply Ok_inj in G; subst fb; discriminate B|].
    destruct (js_lt ema9 ema21) eqn:E2; cbn [andb] in G.
    + rewrite (js_lt_gt _ _ E2). reflexivity.
    + exfalso. apply Ok_inj in G. subst fb. discriminate B.
  - destruct (js_gt ema9 ema21 && _) eqn:E1;
      [apply Ok_inj in G; subst fb; discriminate B|].
    destruct (js_lt ema9 ema21) eqn:E2; cbn [andb] in G.
    + destruct (js_gt rsi (JNum (num_of_Z 30))) eqn:E3.
      * rewrite (js_gt_lt _ _ E3).
        destruct (js_gt rsi (JNum (num_of_Z 70))); discriminate.
      * exfalso. apply Ok_inj in G. subst fb. discriminate B.
    + exfalso. apply Ok_inj in G. subst fb. discriminate B.
  - intros N. destruct (js_gt ema9 ema21); [discriminate N|].
    destruct (js_lt ema9 ema21); [discriminate N|].
    cbn [andb] in G. apply Ok_inj in G. auto.
  - clear G. destruct (js_gt ema9 ema21); [|destruct (js_lt ema9 ema21)]; cbn; auto.
  - clear G. destruct (js_gt rsi _); [|destruct (js_lt rsi _)]; cbn; auto.
  - clear G. destruct (js_gt _ _); cbn; auto.
  - clear G. unfold Worker.getSessionType.
    destruct (_ && _); [|destruct (_ || _)]; cbn; auto.
  - unfold getUTCHours. apply Z.mod_pos_bound. lia.
Qed.

Lemma sequence_throw {A} (l : list (result A)) (e : exn) :
  In (Throw e) l -> exists e', sequence l = Throw e'.
Proof.
  induction l as [|r l IH]; [intros []|].
  intros [->|H]; cbn [sequence bind]; [eexists; reflexivity|].
  destruct r; cbn [bind]; [|eexists; reflexivity].
  destruct (IH H) as (e' & ->). eexists. reflexivity.
Qed.

Lemma fixed1_not_number (data : jsval) (a : string) (digits : Z) :
  is_number (at1 data a) = false -> Worker.fixed1 data a digits = Throw TypeError.
Proof.
  unfold Worker.fixed1, at1.
  destruct data; cbn [get opt_get bind]; try reflexivity.
  destruct (assoc (lit a) l); cbn; congruence.
Qed.

Lemma fixed2_not_number (data : jsval) (a b : string) (digits : Z) :
  is_number (at2 data a b) = false -> Worker.fixed2 data a b digits = Throw TypeError.
Proof.
  unfold Worker.fixed2, at2.
  destruct data; cbn [get opt_get bind]; try reflexivity.
  destruct (assoc (lit a) l); cbn [get opt_get bind]; try reflexivity.
  destruct (assoc (lit b) l0); cbn; congruence.
Qed.

Ltac prompt_throws :=
  match goal with
  | H : _ = Throw TypeError |- exists e, Worker.promptParts _ _ = Throw e =>
      unfold Worker.promptParts; apply (@sequence_throw _ _ TypeError);
      rewrite <- H; repeat (first [left; reflexivity | right])
  end.

Lemma promptParts_needs_numbers (data : jsval) (d : Worker.Derived) :
  Worker.price d = at2 data "ohlc" "close" ->
  existsb (fun v => negb (is_number v)) (prompt_numbers data) = true ->
  exists e, Worker.promptParts data d = Throw e.
Proof.
  intros Pr H. apply existsb_exists in H as (v & I & N).
  apply negb_true_iff in N. unfold prompt_numbers in I. cbn [In] in I.
  destruct I as [<-|[<-|[<-|[<-|[<-|[<-|[<-|[<-|[<-|[<-|[<-|[<-|[]]]]]]]]]]]]].
  - assert (X : S_ "derived.price" (call_toFixed (Worker.price d) 5) = Throw TypeError).
    { rewrite Pr. destruct (at2 data "ohlc" "close"); try discriminate N; reflexivity. }
    prompt_throws.
  - assert (X : S_ "data.support" (Worker.fixed1 data "support" 5) = Throw TypeError)
      by (rewrite (fixed1_not_number _ _ _ N); reflexivity).
    prompt_throws.
  - assert (X : S_ "data.resistance" (Worker.fixed1 data "resistance" 5)
                = Throw TypeError)
      by (rewrite (fixed1_not_number _ _ _ N); reflexivity).
    prompt_throws.
  - assert (X : S_ "data.indicators.ema9" (Worker.fixed2 data "indicators" "ema9" 5)
                = Throw TypeError)
      by (rewrite (fixed2_not_number _ _ _ _ N); reflexivity).
    prompt_throws.
  - assert (X : S_ "data.indicators.ema21" (Worker.fixed2 data "indicators" "ema21" 5)
                = Throw TypeError)
      by (rewrite (fixed2_not_number _ _ _ _ N); reflexivity).
    prompt_throws.
  - assert (X : S_ "data.indicators.rsi" (Worker.fixed2 data "indicators" "rsi" 2)
                = Throw TypeError)
      by (rewrite (fixed2_not_number _ _ _ _ N); reflexivity).
    prompt_throws.
  - assert (X : S_ "data.indicators.macd" (Worker.fixed2 data "indicators" "macd" 5)
                = Throw TypeError)
      by (rewrite (fixed2_not_number _ _ _ _ N); reflexivity).
    prompt_throws.
  - assert (X : S_ "data.indicators.macd_signal"
                  (Worker.fixed2 data "indicators" "macd_signal" 5)
                = Throw TypeError)
      by (rewrite (fixed2_not_number _ _ _ _ N); reflexivity).
    prompt_throws.
  - assert (X : S_ "data.macd_hist_prev" (Worker.fixed1 data "macd_hist_prev" 5)
                = Throw TypeError)
      by (rewrite (fixed1_not_number _ _ _ N); reflexivity).
    prompt_throws.
  - assert (X : S_ "data.adx" (Worker.fixed1 data "adx" 2) = Throw TypeError)
      by (rewrite (fixed1_not_number _ _ _ N); reflexivity).
    prompt_throws.
  - assert (X : S_ "data.atr" (Worker.fixed1 data "atr" 5) = Throw TypeError)
      by (rewrite (fixed1_not_number _ _ _ N); reflexivity).
    prompt_throws.
  - assert (X : S_ "data.volume_ratio" (Worker.fixed1 data "volume_ratio" 2)
                = Throw TypeError)
      by (rewrite (fixed1_not_number _ _ _ N); reflexivity).
    prompt_throws.
Qed.

(** X16.  [buildAIPrompt] formats twelve values with [toFixed], among them
    [data.macd_hist_prev] itself and not the value [callAI] defaulted to 0.
    When one of the twelve is no number (a price sent as text, a
    [macd_hist_prev] left out) the [try] block of [callAI] throws before
    the gateway is called: it throws the same exception whatever the
    gateway would answer. *)
Theorem prompt_needs_numbers (w : Worker.World) (data : jsval)
  (key : option jsstring) :
  existsb (fun v => negb (is_number v)) (prompt_numbers data) = true ->
  exists e,
    forall ai, Worker.callAI_try (with_gateway w ai) data key = Throw e.
Proof.
  intros H. unfold Worker.callAI_try.
  destruct (Worker.validateInputs data) as [[]|e]; cbn [bind];
    [|exists e; reflexivity].
  destruct (get data "macd_hist_prev") as [prev|e]; cbn [bind];
    [|exists e; reflexivity].
  set (p := match prev with JUndefined => JNum (num_of_Z 0) | _ => prev end).
  change (fun ai => Worker.calculateDerivedValues (with_gateway w ai) data p)
    with (fun ai : jsstring -> jsstring -> FetchOutcome =>
            Worker.calculateDerivedValues w data p).
  assert (Same : forall ai,
             Worker.calculateDerivedValues (with_gateway w ai) data p
             = Worker.calculateDerivedValues w data p) by reflexivity.
  destruct (Worker.calculateDerivedValues w data p) as [d|e] eqn:D.
  - destruct (calculateDerivedValues_fields _ _ _ D) as (Pr & _).
    destruct (promptParts_needs_numbers _ _ Pr H) as (e & E).
    exists e. intros ai. rewrite Same. cbn [bind].
    unfold Worker.buildAIPrompt. rewrite E. reflexivity.
  - exists e. intros ai. rewrite Same. reflexivity.
Qed.

(** X17.  A close price that is no number is the one way to a 500 from
    [handle]: for a body that has its required fields but whose
    [ohlc.close] is not a number (a price sent as text), the notification
    throws a TypeError after the model was consulted, and the answer is
    500 Processing failed with the message of that error. *)
Theorem close_not_a_number_is_500 (env0 : Env) (w : Worker.World) (last : Z)
  (request : Request) (data : jsval) :
  (Worker.now w - last <? 12000) = false ->
  str_eqb (method request) (lit "POST") = true ->
  Worker.authenticateRequest env0 request = true ->
  Worker.parseRequest request = Ok (inl data) ->
  is_number (at2 data "ohlc" "close") = false ->
  Worker.handle env0 w last request
  = (Ok (processing_failed TypeError), Worker.now w).
Proof.
  intros R M A P C. unfold Worker.handle. rewrite R, M, A, P. cbn [negb bind].
  destruct (required_fields _ (parseRequest_data _ P)) as (N & Ti & To).
  destruct (callAI_total w data (FREEV36_API_KEY env0) N Ti) as (text & ->).
  cbn [bind].
  destruct (tryParseAI_total text) as (s & -> & I). cbn [bind].
  assert (X : Worker.sendTelegramNotification w data s = Throw TypeError).
  { unfold Worker.sendTelegramNotification, Worker.notificationParts, Worker.field.
    rewrite (fixed2_not_number _ _ _ _ C).
    rewrite !(get_opt_get _ _ N). reflexivity. }
  rewrite X. reflexivity.
Qed.

End FallbackPath.

(** The sample request under [node] with a gateway that answers 503: the
    answer is the buy the fallback generator computes from the request's
    indicators. *)
Lemma failed_try_answers_fallback_witness :
  exists fb,
    Worker.generateFallbackSignal (rt := node) (at1 sample "indicators") = Ok fb
    /\ In fb fallback_signals
    /\ Worker.handle (rt := node) env
         (worker_world (Responded false 503 (lit "down")) Rejected) 0
         (post (Some secret) sample)
       = (Ok (Worker.createResponse 200 (Worker.Signal_to_js fb)), 1793613600000).
Proof.
  apply (@failed_try_answers_fallback node).
  - intros s [<-|[<-|[<-|[]]]]; vm_compute; reflexivity.
  - intros x [<-|[<-|[<-|[]]]]; vm_compute; reflexivity.
  - reflexivity.
  - reflexivity.
  - vm_compute. reflexivity.
  - vm_compute. reflexivity.
  - reflexivity.
  - reflexivity.
  - reflexivity.
  - reflexivity.
  - reflexivity.
  - reflexivity.
  - right. intros prompt authorization. reflexivity.
Defined.

(** An empty completion object under [node]. *)
Lemma missing_content_is_hold_witness :
  Worker.fetchWithTimeout (rt := node)
    (worker_world (Responded true 200 (lit "{}")) Rejected) [] [] = Ok []
  /\ Worker.tryParseAI (rt := node) [] = Ok Worker_hold.
Proof.
  apply (@missing_content_is_hold node
           (worker_world (Responded true 200 (lit "{}")) Rejected) [] [] 200
           (lit "{}") (JObj [])).
  - vm_compute. reflexivity.
  - reflexivity.
  - vm_compute. reflexivity.
  - reflexivity.
Defined.

(** The sample snapshot under [node]: its fallback is a buy, its trend
    bullish and its momentum neutral. *)
Lemma fallback_agrees_with_labels_witness :
  exists d fb,
    Worker.calculateDerivedValues (rt := node) (worker_world Rejected Rejected)
      sample (JNum (dec 2 (-4))) = Ok d
    /\ Worker.generateFallbackSignal (rt := node) (at1 sample "indicators") = Ok fb
    /\ Worker.signal fb = lit "buy"
    /\ Worker.trend d = lit "bullish"
    /\ Worker.momentum d <> lit "overbought".
Proof.
  destruct (Worker.calculateDerivedValues (rt := node) (worker_world Rejected Rejected)
              sample (JNum (dec 2 (-4)))) as [d|e] eqn:D;
    [|exfalso; vm_compute in D; discriminate D].
  exists d, Worker_buy.
  assert (G : Worker.generateFallbackSignal (rt := node) (at1 sample "indicators")
              = Ok Worker_buy) by (vm_compute; reflexivity).
  split; [reflexivity|]. split; [exact G|]. split; [reflexivity|].
  exact (proj1 (@fallback_agrees_with_labels node _ _ _ _ _ D G) eq_refl).
Defined.

(** The sample snapshot without its [macd_hist_prev] under [node]: the
    validator accepts it, the prompt cannot be built, the gateway is not
    reached. *)
Lemma prompt_needs_numbers_witness :
  Worker.validateInputs (rt := node) sample_no_prev = Ok tt
  /\ at1 sample_no_prev "macd_hist_prev" = JUndefined
  /\ exists e,
       forall ai,
         Worker.callAI_try (rt := node)
           (with_gateway (worker_world Rejected Rejected) ai) sample_no_prev
           (Some (lit "sk-1")) = Throw e.
Proof.
  split; [vm_compute; reflexivity|]. split; [reflexivity|].
  apply (@prompt_needs_numbers node). vm_compute. reflexivity.
Defined.

(** The sample request under [node] with its close sent as text. *)
Lemma close_not_a_number_is_500_witness :
  Worker.handle (rt := node) env
    (worker_world (completion buy_reply) (Responded true 200 [])) 0
    (post (Some secret) sample_text_close)
  = (Ok (processing_failed (rt := node) TypeError), 1793613600000).
Proof.
  apply (@close_not_a_number_is_500 node env
           (worker_world (completion buy_reply) (Responded true 200 [])) 0
           (post (Some secret) sample_text_close) sample_text_close).
  - reflexivity.
  - reflexivity.
  - vm_compute. reflexivity.
  - vm_compute. reflexivity.
  - reflexivity.
Defined.

(* ===================================================================== *)
(** * Further properties: [handleRequest] of [index.js] and its cache *)
(* ===================================================================== *)

Section IndexMore.
Context {rt : Runtime}.

Lemma str_eqb_refl (s : jsstring) : str_eqb s s = true.
Proof. apply str_eqb_eq. reflexivity. Qed.

Lemma cache_get_set_same (k : jsstring) (e : Index.CacheEntry) (c : Index.Cache) :
  Index.cache_get k (Index.cache_set k e c) = Some e.
Proof.
  induction c as [|[k' e'] c IH]; cbn [Index.cache_set Index.cache_get].
  - rewrite str_eqb_refl. reflexivity.
  - destruct (str_eqb k k') eqn:E; cbn [Index.cache_get]; rewrite E; auto.
Qed.

Lemma cache_get_set_other (k k' : jsstring) (e : Index.CacheEntry) (c : Index.Cache) :
  str_eqb k' k = false ->
  Index.cache_get k' (Index.cache_set k e c) = Index.cache_get k' c.
Proof.
  intros N. induction c as [|[k1 e1] c IH]; cbn [Index.cache_set Index.cache_get].
  - rewrite N. reflexivity.
  - destruct (str_eqb k k1) eqn:E; cbn [Index.cache_get].
    + apply str_eqb_eq in E. subst k1. rewrite N. reflexivity.
    + destruct (str_eqb k' k1); auto.
Qed.

Lemma cache_set_length (k : jsstring) (e : Index.CacheEntry) (c : Index.Cache) :
  (List.length c <= List.length (Index.cache_set k e c))%nat.
Proof.
  induction c as [|[k1 e1] c IH]; cbn [Index.cache_set List.length]; [lia|].
  destruct (str_eqb k k1); cbn [List.length]; lia.
Qed.

Lemma index_auth_cond (env0 : Env) (request : Request) :
  match x_api_key request, PRE_SHARED_TOKEN env0 with
  | Some apiKey, Some token => negb (str_eqb apiKey token)
  | _, _ => true
  end = negb (index_authorizes env0 request).
Proof.
  unfold index_authorizes.
  destruct (x_api_key request), (PRE_SHARED_TOKEN env0); reflexivity.
Qed.

(** [handleRequest] past its two checks and the reading of the body. *)
Lemma index_handle_read (env0 : Env) (w : Index.World) (cache : Index.Cache)
  (request : Request) (requestData : jsval) (cacheKey : jsstring) :
  str_eqb (method request) (lit "POST") = true ->
  index_authorizes env0 request = true ->
  Index.read_request request = Ok (requestData, cacheKey) ->
  Index.handleRequest env0 w cache request =
  if fresh_entry (Index.now_lookup w) cacheKey cache
  then (Index.ok_response
          (Index.Signal_to_js
             (match Index.cache_get cacheKey cache with
              | Some cached => Index.data cached
              | None => Index_hold
              end)), cache)
  else match Index.analyse env0 w requestData with
       | Throw error => (Index.failed error, cache)
       | Ok parsedSignal =>
           let stored :=
             Index.cache_set cacheKey
               {| Index.data := parsedSignal; Index.timestamp := Index.now_store w |}
               cache in
           match Index.sendTelegramAlert w (at1 requestData "symbol")
                   (at1 requestData "timeframe") parsedSignal with
           | Throw error => (Index.failed error, stored)
           | Ok _ => (Index.ok_response (Index.Signal_to_js parsedSignal), stored)
           end
       end.
Proof.
  intros M A R. unfold Index.handleRequest, fresh_entry.
  rewrite M, index_auth_cond, A, R. cbn [negb].
  assert (N : is_nullish requestData = false).
  { unfold Index.read_request in R.
    destruct (parse_json (req_body request)) as [v|]; cbn [bind] in R;
      [|discriminate R].
    destruct v; try discriminate R;
      repeat (match type of R with
              | context [bind (get ?v ?k) _] => destruct (get v k); cbn [bind] in R
              | context [if ?b then _ else _] => destruct b
              end; try discriminate R);
      apply Ok_inj in R; injection R as <- _; reflexivity. }
  rewrite !(get_opt_get _ _ N). cbn [bind]. unfold at1.
  destruct (Index.cache_get cacheKey cache) as [cached|];
    [destruct (_ <? _); [reflexivity|]|];
    destruct (Index.analyse env0 w requestData); reflexivity.
Qed.


Lemma index_cache_after (env0 : Env) (w : Index.World) (cache : Index.Cache)
  (request : Request) :
  snd (Index.handleRequest env0 w cache request) = cache
  \/ exists requestData cacheKey s,
       Index.read_request request = Ok (requestData, cacheKey)
       /\ Index.analyse env0 w requestData = Ok s
       /\ snd (Index.handleRequest env0 w cache request)
          = Index.cache_set cacheKey
              {| Index.data := s; Index.timestamp := Index.now_store w |} cache.
Proof.
  destruct (str_eqb (method request) (lit "POST")) eqn:M.
  2:{ left. unfold Index.handleRequest. rewrite M. reflexivity. }
  destruct (index_authorizes env0 request) eqn:A.
  2:{ left. unfold Index.handleRequest. rewrite M, index_auth_cond, A. reflexivity. }
  destruct (Index.read_request request) as [[requestData cacheKey]|e] eqn:R.
  2:{ left. unfold Index.handleRequest. rewrite M, index_auth_cond, A, R.
      reflexivity. }
  rewrite (@index_handle_read env0 w cache _ _ _ M A R).
  destruct (fresh_entry _ _ _); [left; reflexivity|].
  destruct (Index.analyse env0 w requestData) as [s|e] eqn:An; [|left; reflexivity].
  right. exists requestData, cacheKey, s. split; [reflexivity|]. split; [exact An|].
  cbn zeta. destruct (Index.sendTelegramAlert _ _ _ _); reflexivity.
Qed.

(** X19.  [analysisCache] only grows.  A request never removes an entry,
    expired or not, and never touches the entry of another key; the cache
    is left as it was by every request that is refused (405, 401), whose
    body cannot be read, that is answered from the cache, or whose
    analysis throws.  It is written exactly when a request past both
    checks, whose body could be read and which no fresh entry answers, has
    its analysis return a signal: the cache is then the old one with that
    signal and the time of the store set under the key of the request,
    whatever the notifier does afterwards. *)
Theorem cache_only_grows (env0 : Env) (w : Index.World) (cache : Index.Cache)
  (request : Request) :
  let cache' := snd (Index.handleRequest env0 w cache request) in
  (forall k, Index.cache_get k cache <> None -> Index.cache_get k cache' <> None)
  /\ (forall k requestData cacheKey,
         Index.read_request request = Ok (requestData, cacheKey) ->
         str_eqb k cacheKey = false ->
         Index.cache_get k cache' = Index.cache_get k cache)
  /\ (List.length cache <= List.length cache')%nat
  /\ (cache' = cache
      \/ exists requestData cacheKey s,
           Index.read_request request = Ok (requestData, cacheKey)
           /\ Index.analyse env0 w requestData = Ok s
           /\ cache' = Index.cache_set cacheKey
                         {| Index.data := s; Index.timestamp := Index.now_store w |}
                         cache)
  /\ (In (status (fst (Index.handleRequest env0 w cache request))) [401; 405] ->
      cache' = cache)
  /\ (forall requestData cacheKey,
         str_eqb (method request) (lit "POST") = true ->
         index_authorizes env0 request = true ->
         Index.read_request request = Ok (requestData, cacheKey) ->
         (fresh_entry (Index.now_lookup w) cacheKey cache = true -> cache' = cache)
         /\ (forall s,
                fresh_entry (Index.now_lookup w) cacheKey cache = false ->
                Index.analyse env0 w requestData = Ok s ->
                cache' = Index.cache_set cacheKey
                           {| Index.data := s;
                              Index.timestamp := Index.now_store w |} cache)
         /\ (forall e, Index.analyse env0 w requestData = Throw e ->
                       cache' = cache))
  /\ (forall e, Index.read_request request = Throw e -> cache' = cache).
Proof.
  intros cache'. subst cache'.
  pose proof (index_cache_after env0 w cache request) as C.
  split; [|split; [|split; [|split; [exact C|split; [|split]]]]].
  - intros k N. destruct C as [->|(rd & key & s & _ & _ & ->)]; [exact N|].
    destruct (str_eqb k key) eqn:E.
    + apply str_eqb_eq in E. subst k. rewrite cache_get_set_same. discriminate.
    + rewrite (@cache_get_set_other _ _ _ _ E). exact N.
  - intros k rd key R N. destruct C as [->|(rd' & key' & s & R' & _ & ->)];
      [reflexivity|].
    rewrite R in R'. injection R' as <- <-. apply cache_get_set_other, N.
  - destruct C as [->|(rd & key & s & _ & _ & ->)]; [lia|apply cache_set_length].
  - intros S. unfold Index.handleRequest in *.
    destruct (negb (str_eqb (method request) (lit "POST"))); [reflexivity|].
    destruct (match x_api_key request with Some _ => _ | None => _ end);
      [reflexivity|].
    exfalso.
    destruct (Index.read_request request) as [[requestData cacheKey]|e];
      [|cbn in S; intuition discriminate].
    destruct (match Index.cache_get cacheKey cache with Some _ => _ | None => _ end);
      [cbn in S; intuition discriminate|].
    destruct (Index.analyse env0 w requestData); [|cbn in S; intuition discriminate].
    destruct (bind _ _); cbn in S; intuition discriminate.
  - intros rd key M A R. rewrite (@index_handle_read env0 w cache _ _ _ M A R).
    split; [|split].
    + intros ->. reflexivity.
    + intros s -> ->. cbn zeta.
      destruct (Index.sendTelegramAlert _ _ _ _); reflexivity.
    + intros e ->. destruct (fresh_entry _ _ _); reflexivity.
  - intros e R. unfold Index.handleRequest.
    destruct (negb (str_eqb (method request) (lit "POST"))); [reflexivity|].
    destruct (match x_api_key request with Some _ => _ | None => _ end);
      [reflexivity|].
    rewrite R. reflexivity.
Qed.

Lemma parseAIResponse_valid (aiText : jsval) :
  exists s, Index.parseAIResponse aiText = Ok s /\ In (Index.signal s) signals.
Proof.
  destruct aiText as [| |b|x|t|l|l];
    try (exists Index_hold; split; [reflexivity|apply hold_in_signals]).
  destruct (parseAIResponse_cases t) as [E | (l & x & _ & _ & I & E)];
    rewrite E; eexists; (split; [reflexivity|]).
  - apply hold_in_signals.
  - exact I.
Qed.

Lemma analyse_valid (env0 : Env) (w : Index.World) (requestData : jsval)
  (s : Index.Signal) :
  Index.analyse env0 w requestData = Ok s -> In (Index.signal s) signals.
Proof.
  unfold Index.analyse.
  repeat (match goal with
          | |- context [bind (get ?v ?k) _] =>
              destruct (get v k); cbn [bind]; [|discriminate]
          end).
  destruct (Index.callAI _ _ _ _ _ _ _ _ _ _ _ _) as [aiResponse|]; cbn [bind];
    [|discriminate].
  destruct (parseAIResponse_valid aiResponse) as (p & -> & I). cbn [bind].
  intros F. destruct (filterSignal_signal _ _ _ _ _ F) as [->| ->];
    [exact I|apply hold_in_signals].
Qed.

Lemma valid_cache_get (k : jsstring) (c : Index.Cache) (e : Index.CacheEntry) :
  valid_cache c -> Index.cache_get k c = Some e ->
  In (Index.signal (Index.data e)) signals.
Proof.
  unfold valid_cache. induction 1 as [|[k' e'] c H Hc IH]; cbn [Index.cache_get];
    [discriminate|].
  destruct (str_eqb k k'); [|exact IH].
  intros E. injection E as <-. exact H.
Qed.

Lemma valid_cache_set (k : jsstring) (c : Index.Cache) (e : Index.CacheEntry) :
  valid_cache c -> In (Index.signal (Index.data e)) signals ->
  valid_cache (Index.cache_set k e c).
Proof.
  unfold valid_cache. intros V I.
  induction V as [|[k' e'] c H Hc IH]; cbn [Index.cache_set].
  - apply Forall_cons; [exact I|apply Forall_nil].
  - destruct (str_eqb k k'); constructor; auto.
Qed.

(** X20.  Every signal [index.js] answers or stores is one of buy, sell
    and hold.  The entries of the cache all carrying one of the three
    values is an invariant of [handleRequest], true of the empty cache the
    worker starts with; under it every 200 carries a signal of the three
    values, from the cache or fresh, so the emoji table of the alert is
    never missed. *)
Theorem index_signals_valid (env0 : Env) (w : Index.World) (cache : Index.Cache)
  (request : Request) :
  valid_cache cache ->
  valid_cache (snd (Index.handleRequest env0 w cache request))
  /\ (status (fst (Index.handleRequest env0 w cache request)) = 200 ->
      exists s,
        fst (Index.handleRequest env0 w cache request)
        = Index.ok_response (Index.Signal_to_js s)
        /\ In (Index.signal s) signals
        /\ Index.emoji (Index.signal s) <> lit "undefined").
Proof.
  intros V.
  assert (Em : forall x, In x signals -> Index.emoji x <> lit "undefined").
  { intros x [<-|[<-|[<-|[]]]]; discriminate. }
  split.
  - destruct (index_cache_after env0 w cache request)
      as [->|(rd & key & s & _ & An & ->)]; [exact V|].
    apply valid_cache_set; [exact V|]. exact (analyse_valid _ _ _ An).
  - destruct (str_eqb (method request) (lit "POST")) eqn:M.
    2:{ unfold Index.handleRequest. rewrite M. cbn. discriminate. }
    destruct (index_authorizes env0 request) eqn:A.
    2:{ unfold Index.handleRequest. rewrite M, index_auth_cond, A. cbn.
        discriminate. }
    destruct (Index.read_request request) as [[requestData cacheKey]|e] eqn:R.
    2:{ unfold Index.handleRequest. rewrite M, index_auth_cond, A, R. cbn.
        discriminate. }
    rewrite (@index_handle_read env0 w cache _ _ _ M A R).
    destruct (fresh_entry _ _ _) eqn:F.
    + intros _. unfold fresh_entry in F.
      destruct (Index.cache_get cacheKey cache) as [cached|] eqn:G;
        [|discriminate F].
      exists (Index.data cached). split; [reflexivity|].
      pose proof (valid_cache_get _ V G) as I. auto.
    + destruct (Index.analyse env0 w requestData) as [s|e] eqn:An;
        [|cbn; discriminate].
      cbn zeta. destruct (Index.sendTelegramAlert _ _ _ _); [|cbn; discriminate].
      intros _. exists s. split; [reflexivity|].
      pose proof (analyse_valid _ _ _ An) as I. auto.
Qed.

End IndexMore.

(** The sample request to [index.js] under [node], on the empty cache and
    a gateway that answers with a buy. *)
Lemma index_signals_valid_witness :
  valid_cache (snd (Index.handleRequest (rt := node) env
                      (index_world (completion buy_reply) (Responded true 200 []))
                      [] (post (Some secret) index_sample)))
  /\ status (fst (Index.handleRequest (rt := node) env
                    (index_world (completion buy_reply) (Responded true 200 []))
                    [] (post (Some secret) index_sample))) = 200.
Proof.
  split; [|vm_compute; reflexivity].
  apply (@index_signals_valid node env
           (index_world (completion buy_reply) (Responded true 200 []))
           [] (post (Some secret) index_sample)).
  apply Forall_nil.
Defined.


(* ===================================================================== *)
(** * Further properties: what [index.js] answers 500 *)
(* ===================================================================== *)

Section IndexErrors.
Context {rt : Runtime}.

Lemma read_request_ok (request : Request) (requestData : jsval) (cacheKey : jsstring) :
  Index.read_request request = Ok (requestData, cacheKey) ->
  JSON_parse (req_body request) = Some requestData
  /\ is_nullish requestData = false
  /\ truthy (at1 requestData "symbol") = true
  /\ truthy (at1 requestData "timeframe") = true
  /\ cacheKey = ToString (at1 requestData "symbol") ++ lit "-"
                ++ ToString (at1 requestData "timeframe") ++ lit "-"
                ++ stringify_in_template (at1 requestData "ohlc").
Proof.
  unfold Index.read_request, parse_json, at1.
  destruct (JSON_parse (req_body request)) as [v|]; cbn [bind]; [|discriminate].
  destruct (is_nullish v) eqn:N; [destruct v; discriminate|].
  rewrite !(get_opt_get _ _ N). cbn [bind].
  destruct (truthy (opt_get v "symbol")) eqn:Ts; cbn [negb orb]; [|discriminate].
  destruct (truthy (opt_get v "timeframe")) eqn:Tt; cbn [negb orb]; [|discriminate].
  intros E. apply Ok_inj in E. injection E as <- <-. auto.
Qed.

(** X21.  [handleRequest] has no 400: a body it cannot use is answered
    500.  Past the method and header checks, a body that is no JSON is
    answered 500 with the parser's message, the JSON text null with that
    of a TypeError, and a body in which symbol or timeframe is absent or
    falsy with the details Missing required fields; the cache is left as
    it was and nothing is sent out. *)
Theorem unusable_body_is_500 (env0 : Env) (w : Index.World) (cache : Index.Cache)
  (request : Request) :
  str_eqb (method request) (lit "POST") = true ->
  index_authorizes env0 request = true ->
  (JSON_parse (req_body request) = None ->
   Index.handleRequest env0 w cache request = (Index.failed SyntaxError, cache))
  /\ (forall v, JSON_parse (req_body request) = Some v -> is_nullish v = true ->
                Index.handleRequest env0 w cache request
                = (Index.failed TypeError, cache))
  /\ (forall v, JSON_parse (req_body request) = Some v -> is_nullish v = false ->
                truthy (at1 v "symbol") && truthy (at1 v "timeframe") = false ->
                Index.handleRequest env0 w cache request
                = (Index.failed missing_fields, cache))
  /\ (forall e, status (Index.failed e) = 500
                /\ at1 (payload (Index.failed e)) "details" = JStr (message e)).
Proof.
  intros M A. unfold Index.handleRequest, Index.read_request, parse_json.
  rewrite M, index_auth_cond, A. cbn [negb].
  split; [|split; [|split]].
  - intros ->. reflexivity.
  - intros v -> N. destruct v; try discriminate N; reflexivity.
  - intros v -> N T. cbn [bind]. unfold at1 in T.
    rewrite !(get_opt_get _ _ N). cbn [bind].
    destruct (truthy (opt_get v "symbol")), (truthy (opt_get v "timeframe"));
      try discriminate T; reflexivity.
  - intros e. split; reflexivity.
Qed.

Lemma index_callAI_no_completion (w : Index.World)
  (symbol tf ohlc prevCandles indicators volume avgVolume
   keyLevels higherTF marketContext : jsval) (key : option jsstring) :
  (forall prompt authorization,
      no_completion (Index.fetch_ai w prompt authorization) = true) ->
  exists e,
    Index.callAI w symbol tf ohlc prevCandles indicators volume avgVolume
      keyLevels higherTF marketContext key = Throw e.
Proof.
  intros Down. unfold Index.callAI.
  destruct (Index.validateTradingData _ _ _ _ _); cbn [bind]; [|eexists; reflexivity].
  destruct (Index.promptParts _ _ _ _ _ _ _ _ _); cbn [bind]; [|eexists; reflexivity].
  match goal with
  | |- context [Index.fetch_ai w ?p ?a] =>
      specialize (Down p a); destruct (Index.fetch_ai w p a) as [|ok st body]
  end; [eexists; reflexivity|].
  cbn [no_completion] in Down.
  destruct ok; cbn [negb orb] in *; [|eexists; reflexivity].
  unfold parse_json. destruct (JSON_parse body) as [v|]; cbn [bind try_catch];
    [|eexists; reflexivity].
  fold (content_of v). rewrite Down. eexists. reflexivity.
Qed.

(** X22.  [index.js] has no fallback for any failure of the gateway.  For
    a request that is not answered from the cache, a gateway that
    rejects, answers with a status that is not ok, answers with a body
    that is no JSON, or answers with a completion whose content is absent
    or empty is answered 500, and the cache is left as it was. *)
Theorem no_completion_is_500 (env0 : Env) (w : Index.World) (cache : Index.Cache)
  (request : Request) (requestData : jsval) (cacheKey : jsstring) :
  str_eqb (method request) (lit "POST") = true ->
  index_authorizes env0 request = true ->
  Index.read_request request = Ok (requestData, cacheKey) ->
  fresh_entry (Index.now_lookup w) cacheKey cache = false ->
  (forall prompt authorization,
      no_completion (Index.fetch_ai w prompt authorization) = true) ->
  exists e,
    Index.handleRequest env0 w cache request = (Index.failed e, cache)
    /\ status (Index.failed e) = 500.
Proof.
  intros M A R F Down. rewrite (@index_handle_read _ env0 w cache _ _ _ M A R), F.
  assert (An : exists e, Index.analyse env0 w requestData = Throw e).
  { unfold Index.analyse.
    repeat (match goal with
            | |- context [bind (get ?v ?k) _] =>
                destruct (get v k); cbn [bind]; [|eexists; reflexivity]
            end).
    match goal with
    | |- context [Index.callAI w ?a ?b ?c ?d ?e ?f ?g ?h ?i ?j ?k] =>
        destruct (index_callAI_no_completion w a b c d e f g h i j k Down) as (x & ->)
    end.
    eexists. reflexivity. }
  destruct An as (e & ->). exists e. split; reflexivity.
Qed.

Lemma prop_of_nullish (o : jsval) (k : string) :
  is_nullish o = true -> Index.prop o k = Throw TypeError.
Proof. destruct o; try discriminate; reflexivity. Qed.

Ltac index_prompt_throws :=
  match goal with
  | H : _ = Throw TypeError |- exists e, Index.promptParts _ _ _ _ _ _ _ _ _ = Throw e =>
      unfold Index.promptParts; apply (@sequence_throw _ _ TypeError);
      rewrite <- H; repeat (first [left; reflexivity | right])
  end.

Lemma index_prompt_needs_context
  (symbol tf ohlc indicators volume avgVolume keyLevels higherTF marketContext : jsval) :
  is_nullish keyLevels || is_nullish higherTF || is_nullish marketContext = true ->
  exists e,
    Index.promptParts symbol tf ohlc indicators volume avgVolume
      keyLevels higherTF marketContext = Throw e.
Proof.
  intros H. apply orb_true_iff in H as [H|H]; [apply orb_true_iff in H as [H|H]|].
  - assert (X : S_ "keyLevels.s1" (Index.prop keyLevels "s1") = Throw TypeError)
      by (rewrite (prop_of_nullish _ _ H); reflexivity).
    index_prompt_throws.
  - assert (X : S_ "higherTF.h1Trend" (Index.prop higherTF "h1Trend") = Throw TypeError)
      by (rewrite (prop_of_nullish _ _ H); reflexivity).
    index_prompt_throws.
  - assert (X : S_ "marketContext.session" (Index.prop marketContext "session")
                = Throw TypeError)
      by (rewrite (prop_of_nullish _ _ H); reflexivity).
    index_prompt_throws.
Qed.

(** X23.  The prompt of [index.js] reads keyLevels, higherTF and
    marketContext, which its validator does not look at.  A request in
    which one of the three is absent or null is answered 500 before the
    gateway is called: unless it is answered from the cache, the answer is
    the same 500 whatever the gateway and the notifier would do, and the
    cache is left as it was. *)
Theorem missing_context_is_500 (env0 : Env) (cache : Index.Cache)
  (request : Request) (requestData : jsval) (cacheKey : jsstring) :
  str_eqb (method request) (lit "POST") = true ->
  index_authorizes env0 request = true ->
  Index.read_request request = Ok (requestData, cacheKey) ->
  is_nullish (at1 requestData "keyLevels")
  || is_nullish (at1 requestData "higherTF")
  || is_nullish (at1 requestData "marketContext") = true ->
  exists e,
    forall w,
      fresh_entry (Index.now_lookup w) cacheKey cache = false ->
      Index.handleRequest env0 w cache request = (Index.failed e, cache).
Proof.
  intros M A R H.
  destruct (read_request_ok _ R) as (_ & N & _).
  assert (An : exists e, forall w, Index.analyse env0 w requestData = Throw e).
  { unfold Index.analyse, Index.callAI. rewrite !(get_opt_get _ _ N). cbn [bind].
    destruct (Index.validateTradingData _ _ _ _ _) as [[]|e]; cbn [bind];
      [|exists e; reflexivity].
    destruct (index_prompt_needs_context
                (opt_get requestData "symbol") (opt_get requestData "timeframe")
                (opt_get requestData "ohlc") (opt_get requestData "indicators")
                (opt_get requestData "volume") (opt_get requestData "avgVolume")
                _ _ _ H) as (e & E).
    unfold at1 in E. rewrite E. exists e. reflexivity. }
  destruct An as (e & An). exists e. intros w F.
  rewrite (@index_handle_read _ env0 w cache _ _ _ M A R), F, An. reflexivity.
Qed.


Lemma num_lt_not_le (x y : num) : num_lt x y = true -> num_le y x = false.
Proof.
  intros H.
  assert (is_nan x = false /\ is_nan y = false) as [Nx Ny].
  { unfold num_lt, SFltb in H. destruct x, y; cbn in *; auto; discriminate H. }
  rewrite (num_lt_false_le _ _ Nx Ny) in H. apply negb_true_iff in H. exact H.
Qed.

Lemma num_le_not_lt (x y : num) : num_le x y = true -> num_lt y x = false.
Proof.
  intros H. destruct (num_le_not_nan _ _ H) as [Nx Ny].
  rewrite (num_lt_false_le _ _ Ny Nx), H. reflexivity.
Qed.

(** X25.  [validateTradingData] accepts every well-formed snapshot: an
    OHLC object whose four prices are numbers with the low not above the
    high and the open and close not below zero, an RSI within 0 and 100,
    numeric MACD and MACD signal, a volume not below zero and an average
    volume above zero.  A volume of 0 is accepted, an average volume of 0
    is not.  An OHLC that is absent, null, or no object is refused as
    Invalid OHLC data whatever the other arguments are, and indicators
    that are absent make it throw a TypeError instead of an error of its
    own. *)
Theorem validateTradingData_accepts
  (ohlc prevCandles indicators volume avgVolume : jsval) :
  (forall o h l c r,
      truthy ohlc && typeof_object ohlc = true ->
      is_nullish indicators = false ->
      at1 ohlc "open" = JNum o -> at1 ohlc "high" = JNum h ->
      at1 ohlc "low" = JNum l -> at1 ohlc "close" = JNum c ->
      num_le l h = true -> num_le zero o = true -> num_le zero c = true ->
      in_range (at1 indicators "rsi") zero hundred ->
      at1 indicators "rsi" = JNum r ->
      is_number (at1 indicators "macd") = true ->
      is_number (at1 indicators "macd_signal") = true ->
      not_negative volume ->
      (positive avgVolume ->
       Index.validateTradingData ohlc prevCandles indicators volume avgVolume = Ok tt)
      /\ (forall sign, avgVolume = JNum (S754_zero sign) ->
          Index.validateTradingData ohlc prevCandles indicators volume avgVolume
          = Throw (Error (lit "Invalid average volume"))))
  /\ (truthy ohlc && typeof_object ohlc = false ->
      Index.validateTradingData ohlc prevCandles indicators volume avgVolume
      = Throw (Error (lit "Invalid OHLC data")))
  /\ (truthy ohlc && typeof_object ohlc = true ->
      js_lt (at1 ohlc "high") (at1 ohlc "low") = false ->
      js_lt (at1 ohlc "open") (JNum zero) || js_lt (at1 ohlc "close") (JNum zero)
      = false ->
      is_nullish indicators = true ->
      Index.validateTradingData ohlc prevCandles indicators volume avgVolume
      = Throw TypeError).
Proof.
  split; [|split].
  - intros o h l c r Ob N Eo Eh El Ec Lh Lo Lc (r' & Er' & R0 & R100) Er Ma Ms
      (v & -> & V).
    rewrite Er in Er'. injection Er' as <-.
    rewrite (validateTradingData_unfold _ prevCandles _ (JNum v) avgVolume Ob N).
    rewrite Eo, Eh, El, Ec, Er, Ma, Ms. cbn [is_number negb orb].
    rewrite !js_lt_num, js_gt_num.
    rewrite (num_le_not_lt _ _ Lh), (num_le_not_lt _ _ Lo), (num_le_not_lt _ _ Lc),
      (num_le_not_lt _ _ R0), (num_le_not_lt _ _ R100), (num_le_not_lt _ _ V).
    cbn [orb]. split.
    + intros (a & -> & P). cbn [is_number negb orb]. rewrite js_le_num.
      rewrite (num_lt_not_le _ _ P). reflexivity.
    + intros sign ->. cbn [is_number negb orb]. rewrite js_le_num.
      destruct sign; reflexivity.
  - intros Ob. unfold Index.validateTradingData.
    apply andb_false_iff in Ob as [Ob|Ob]; rewrite Ob; cbn [negb orb];
      rewrite ?orb_true_r; reflexivity.
  - intros Ob H Z N. unfold Index.validateTradingData.
    apply andb_true_iff in Ob as [T O]. rewrite T, O. cbn [negb orb].
    assert (No : is_nullish ohlc = false) by (apply truthy_not_nullish, T).
    rewrite !(get_opt_get _ _ No). cbn [bind]. unfold at1, zero in *.
    rewrite H. rewrite Z.
    destruct indicators; try discriminate N; reflexivity.
Qed.

End IndexErrors.

(** The sample body without its keyLevels under [node]. *)
Lemma missing_context_is_500_witness :
  exists e,
    forall w,
      fresh_entry (Index.now_lookup w) (lit "EURUSD-M15-" ++ Node.JSON_stringify
                                          (at1 index_sample "ohlc")) [] = false ->
      Index.handleRequest (rt := node) env w []
        (post (Some secret) (without "keyLevels" index_sample))
      = (Index.failed (rt := node) e, []).
Proof.
  apply (@missing_context_is_500 node env []
           (post (Some secret) (without "keyLevels" index_sample))
           (without "keyLevels" index_sample)).
  - reflexivity.
  - vm_compute. reflexivity.
  - vm_compute. reflexivity.
  - reflexivity.
Defined.

(** The sample body under [node] with a gateway that answers an empty
    completion. *)
Lemma no_completion_is_500_witness :
  exists e,
    Index.handleRequest (rt := node) env
      (index_world (Responded true 200 (lit "{}")) Rejected) []
      (post (Some secret) index_sample)
    = (Index.failed (rt := node) e, [])
    /\ status (Index.failed (rt := node) e) = 500.
Proof.
  apply (@no_completion_is_500 node env
           (index_world (Responded true 200 (lit "{}")) Rejected) []
           (post (Some secret) index_sample) index_sample
           (lit "EURUSD-M15-" ++ Node.JSON_stringify (at1 index_sample "ohlc"))).
  - reflexivity.
  - vm_compute. reflexivity.
  - vm_compute. reflexivity.
  - reflexivity.
  - intros prompt authorization. vm_compute. reflexivity.
Defined.

(** A body without a timeframe under [node]. *)
Lemma unusable_body_is_500_witness :
  Index.handleRequest (rt := node) env (index_world Rejected Rejected) []
    (post (Some secret) (without "timeframe" index_sample))
  = (Index.failed (rt := node) missing_fields, []).
Proof.
  apply (proj1 (proj2 (proj2
           (@unusable_body_is_500 node env (index_world Rejected Rejected) []
              (post (Some secret) (without "timeframe" index_sample))
              eq_refl ltac:(vm_compute; reflexivity))))
           (without "timeframe" index_sample)).
  - vm_compute. reflexivity.
  - reflexivity.
  - reflexivity.
Defined.


(** The sample body of [index.js] under [node]: accepted. *)
Lemma validateTradingData_accepts_witness :
  Index.validateTradingData (rt := node)
    (at1 index_sample "ohlc") (at1 index_sample "prevCandles")
    (at1 index_sample "indicators") (at1 index_sample "volume")
    (at1 index_sample "avgVolume") = Ok tt.
Proof.
  refine (proj1 (proj1 (@validateTradingData_accepts node
                          (at1 index_sample "ohlc") (at1 index_sample "prevCandles")
                          (at1 index_sample "indicators") (at1 index_sample "volume")
                          (at1 index_sample "avgVolume"))
                   (dec 11 (-1)) (dec 12 (-1)) (dec 10 (-1)) (dec 115 (-2))
                   (num_of_Z 55) _ _ _ _ _ _ _ _ _ _ _ _ _ _) _).
  - vm_compute. reflexivity.
  - vm_compute. reflexivity.
  - vm_compute. reflexivity.
  - vm_compute. reflexivity.
  - vm_compute. reflexivity.
  - vm_compute. reflexivity.
  - vm_compute. reflexivity.
  - vm_compute. reflexivity.
  - vm_compute. reflexivity.
  - exists (num_of_Z 55). repeat split; vm_compute; reflexivity.
  - vm_compute. reflexivity.
  - vm_compute. reflexivity.
  - vm_compute. reflexivity.
  - exists (num_of_Z 1200). split; vm_compute; reflexivity.
  - exists (num_of_Z 1000). split; vm_compute; reflexivity.
Defined.

(* ===================================================================== *)
(** * Further properties: the cache key and the explanation of a reply *)
(* ===================================================================== *)

Section CacheKey.
Context {rt : Runtime}.

(** X26.  The cache key is made of the symbol, the timeframe and the OHLC
    object only.  A request that agrees in these three with the request
    behind a fresh entry is answered from that entry, whatever its
    indicators, volumes and context are: they are not validated and no
    outbound call is made. *)
Theorem cache_key_ignores_indicators (env0 : Env) (w : Index.World)
  (cache : Index.Cache) (first request : Request)
  (firstData requestData : jsval) (firstKey cacheKey : jsstring)
  (cached : Index.CacheEntry) :
  str_eqb (method request) (lit "POST") = true ->
  index_authorizes env0 request = true ->
  Index.read_request first = Ok (firstData, firstKey) ->
  Index.read_request request = Ok (requestData, cacheKey) ->
  at1 requestData "symbol" = at1 firstData "symbol" ->
  at1 requestData "timeframe" = at1 firstData "timeframe" ->
  at1 requestData "ohlc" = at1 firstData "ohlc" ->
  Index.cache_get firstKey cache = Some cached ->
  Index.now_lookup w - Index.timestamp cached < 30000 ->
  cacheKey = firstKey
  /\ Index.handleRequest env0 w cache request
     = (Index.ok_response (Index.Signal_to_js (Index.data cached)), cache).
Proof.
  intros M A R1 R2 Es Et Eo G T.
  destruct (read_request_ok _ R1) as (_ & _ & _ & _ & K1).
  destruct (read_request_ok _ R2) as (_ & _ & _ & _ & K2).
  assert (K : cacheKey = firstKey) by (rewrite K1, K2, Es, Et, Eo; reflexivity).
  split; [exact K|]. clear K1 K2. subst cacheKey.
  rewrite (@index_handle_read _ env0 w cache _ _ _ M A R2). unfold fresh_entry.
  rewrite G. unfold Index.CACHE_TTL. apply Z.ltb_lt in T. rewrite T. reflexivity.
Qed.

End CacheKey.

Section Explanations.
Context {rt : Runtime}.

(** X27.  What the two interpreters do with the explanation of a reply
    whose signal is valid.  When the explanation is there and is no
    string, [tryParseAI] discards the whole reply and returns its hold,
    while [parseAIResponse] returns the signal and passes the explanation
    on as it is.  When the explanation is absent, null or empty,
    [tryParseAI] puts No explanation in its place and [parseAIResponse]
    No explanation provided. *)
Theorem explanation_rules (aiText : jsstring) (l : list (jsstring * jsval))
  (x : jsstring) :
  JSON_parse (cleaned aiText) = Some (JObj l) ->
  assoc (lit "signal") l = JStr x ->
  x <> [] ->
  In (toLowerCase x) signals ->
  let expl := assoc (lit "explanation") l in
  let confidence := js_or (assoc (lit "confidence") l) (JStr (lit "medium")) in
  (truthy expl = true -> is_string expl = false ->
   Worker.tryParseAI aiText = Ok Worker_hold
   /\ Index.parseAIResponse (JStr aiText)
      = Ok {| Index.signal := toLowerCase x;
              Index.confidence := confidence;
              Index.explanation := expl |})
  /\ (truthy expl = false ->
      Worker.tryParseAI aiText
      = Ok {| Worker.signal := toLowerCase x;
              Worker.explanation := lit "No explanation" |}
      /\ Index.parseAIResponse (JStr aiText)
         = Ok {| Index.signal := toLowerCase x;
                 Index.confidence := confidence;
                 Index.explanation := JStr (lit "No explanation provided") |}).
Proof.
  intros P S N I expl confidence. subst expl confidence.
  apply includes_In in I. unfold signals in I.
  unfold cleaned in P.
  unfold Worker.tryParseAI, Worker.tryParseAI_try, Index.parseAIResponse,
    Index.parseAIResponse_try, parse_json, call_toLowerCase.
  cbn [as_string bind]. rewrite P. cbn [bind get]. rewrite S.
  assert (Tx : truthy (JStr x) = true) by (destruct x; [contradiction|reflexivity]).
  rewrite Tx. cbn [negb as_string bind]. rewrite I. cbn [negb].
  split.
  - intros T St. rewrite T, St. cbn [negb andb try_catch]. unfold js_or at 2.
    rewrite T. split; [apply fallback_of_nothing|reflexivity].
  - intros T. rewrite T. cbn [andb try_catch]. unfold js_or at 2. rewrite T.
    split; reflexivity.
Qed.

End Explanations.

(** A buy with the explanation 5 under [node]. *)
Lemma explanation_rules_witness :
  Worker.tryParseAI (rt := node) reply_number_explanation = Ok Worker_hold
  /\ Index.parseAIResponse (rt := node) (JStr reply_number_explanation)
     = Ok {| Index.signal := lit "buy";
             Index.confidence := JStr (lit "medium");
             Index.explanation := JNum (num_of_Z 5) |}.
Proof.
  refine (proj1 (@explanation_rules node reply_number_explanation
                   [(lit "signal", JStr (lit "buy"));
                    (lit "explanation", JNum (num_of_Z 5))]
                   (lit "buy") _ _ _ _) _ _).
  - vm_compute. reflexivity.
  - reflexivity.
  - discriminate.
  - vm_compute. auto.
  - reflexivity.
  - reflexivity.
Defined.

(** The sample body answered and cached under [node], then sent again
    with an RSI of 150: answered from the cache. *)
Lemma cache_key_ignores_indicators_witness :
  exists cached,
    Index.handleRequest (rt := node) env
      {| Index.now_lookup := 1793613601800;
         Index.now_store := 1793613601900;
         Index.clock_alert := 1793613601900;
         Index.fetch_ai := fun _ _ => Rejected;
         Index.fetch_telegram := fun _ => Rejected |}
      (snd (Index.handleRequest (rt := node) env
              (index_world (completion buy_reply) (Responded true 200 []))
              [] (post (Some secret) index_sample)))
      (post (Some secret) index_sample_bad_rsi)
    = (Index.ok_response (Index.Signal_to_js (Index.data cached)),
       snd (Index.handleRequest (rt := node) env
              (index_world (completion buy_reply) (Responded true 200 []))
              [] (post (Some secret) index_sample)))
    /\ Index.signal (Index.data cached) = lit "buy".
Proof.
  destruct (Index.cache_get
              (lit "EURUSD-M15-" ++ Node.JSON_stringify (at1 index_sample "ohlc"))
              (snd (Index.handleRequest (rt := node) env
                      (index_world (completion buy_reply) (Responded true 200 []))
                      [] (post (Some secret) index_sample))))
    as [cached|] eqn:G; [|exfalso; vm_compute in G; discriminate G].
  exists cached. split.
  - refine (proj2 (@cache_key_ignores_indicators node env _ _
                     (post (Some secret) index_sample)
                     (post (Some secret) index_sample_bad_rsi)
                     index_sample index_sample_bad_rsi
                     (lit "EURUSD-M15-" ++ Node.JSON_stringify (at1 index_sample "ohlc"))
                     (lit "EURUSD-M15-" ++ Node.JSON_stringify (at1 index_sample "ohlc"))
                     cached _ _ _ _ _ _ _ G _)).
    + reflexivity.
    + vm_compute. reflexivity.
    + vm_compute. reflexivity.
    + vm_compute. reflexivity.
    + reflexivity.
    + reflexivity.
    + reflexivity.
    + vm_compute in G. injection G as <-. vm_compute. reflexivity.
  - vm_compute in G. injection G as <-. reflexivity.
Defined.

(* ===================================================================== *)
(** * Further properties: a completion that arrives *)
(* ===================================================================== *)

Section GoodCompletion.
Context {rt : Runtime}.

Lemma callAI_try_completion (env0 : Env) (w : Worker.World) (data : jsval)
  (ps : list part) (st : Z) (body : jsstring) (v : jsval) (c : jsstring) :
  Worker.validateInputs data = Ok tt ->
  worker_prompt_parts w data = Ok ps ->
  Worker.fetch_ai w (render ps) (bearer env0) = Responded true st body ->
  JSON_parse body = Some v ->
  content_of v = JStr c ->
  Worker.callAI_try w data (FREEV36_API_KEY env0) = Ok (trim c).
Proof.
  intros V P F J C. unfold Worker.callAI_try, worker_prompt_parts in *.
  rewrite V. cbn [bind].
  destruct (get data "macd_hist_prev") as [prev|]; cbn [bind] in *; [|discriminate P].
  destruct (Worker.calculateDerivedValues w data _) as [d|]; cbn [bind] in *;
    [|discriminate P].
  unfold Worker.buildAIPrompt. rewrite P. cbn [bind].
  unfold Worker.fetchWithTimeout. fold (bearer env0). rewrite F. cbn [negb].
  unfold parse_json. rewrite J. cbn [bind]. fold (content_of v). rewrite C.
  destruct c; reflexivity.
Qed.

(** X28.  The way of a completion through [TradingWorker].  When the
    validator accepts the snapshot, the prompt can be built and the
    gateway answers it with an ok response whose
    [choices[0].message.content] is a string, [handle] answers 200 with
    exactly what [tryParseAI] reads in the trimmed content: the fallback
    generator has no part in the answer.  The close price is taken to be a
    number. *)
Theorem completion_is_answered (env0 : Env) (w : Worker.World) (last : Z)
  (request : Request) (data : jsval) (ps : list part) (st : Z) (body : jsstring)
  (v : jsval) (c : jsstring) :
  (Worker.now w - last <? 12000) = false ->
  str_eqb (method request) (lit "POST") = true ->
  Worker.authenticateRequest env0 request = true ->
  Worker.parseRequest request = Ok (inl data) ->
  is_number (at2 data "ohlc" "close") = true ->
  Worker.validateInputs data = Ok tt ->
  worker_prompt_parts w data = Ok ps ->
  Worker.fetch_ai w (render ps) (bearer env0) = Responded true st body ->
  JSON_parse body = Some v ->
  content_of v = JStr c ->
  exists s,
    Worker.tryParseAI (trim c) = Ok s
    /\ Worker.handle env0 w last request
       = (Ok (Worker.createResponse 200 (Worker.Signal_to_js s)), Worker.now w).
Proof.
  intros R M A P C V Pr F J Co.
  destruct (required_fields _ (parseRequest_data _ P)) as (N & Ti & To).
  destruct (tryParseAI_total (trim c)) as (s & E & _).
  exists s. split; [exact E|].
  unfold Worker.handle. rewrite R, M, A, P. cbn [negb bind].
  unfold Worker.callAI. rewrite (callAI_try_completion env0 w data V Pr F J Co).
  cbn [try_catch bind]. rewrite E. cbn [bind].
  rewrite (sendTelegramNotification_total w data s N To C). reflexivity.
Qed.

Lemma index_prompt_context (requestData : jsval) (ps : list part) :
  index_prompt_parts requestData = Ok ps ->
  is_nullish (at1 requestData "higherTF") = false.
Proof.
  intros P. destruct (is_nullish (at1 requestData "higherTF")) eqn:N; [|reflexivity].
  destruct (index_prompt_needs_context
              (at1 requestData "symbol") (at1 requestData "timeframe")
              (at1 requestData "ohlc") (at1 requestData "indicators")
              (at1 requestData "volume") (at1 requestData "avgVolume")
              (at1 requestData "keyLevels") (at1 requestData "higherTF")
              (at1 requestData "marketContext")) as (e & E).
  { rewrite N. rewrite orb_true_r. reflexivity. }
  unfold index_prompt_parts in P. rewrite E in P. discriminate P.
Qed.

Lemma validated_indicators (ohlc prevCandles indicators volume avgVolume : jsval) :
  Index.validateTradingData ohlc prevCandles indicators volume avgVolume = Ok tt ->
  is_nullish indicators = false.
Proof.
  unfold Index.validateTradingData.
  destruct (_ || _); [discriminate|].
  destruct (get ohlc "high"); cbn [bind]; [|discriminate].
  destruct (get ohlc "low"); cbn [bind]; [|discriminate].
  destruct (js_lt _ _); [discriminate|].
  destruct (get ohlc "open"); cbn [bind]; [|discriminate].
  destruct (get ohlc "close"); cbn [bind]; [|discriminate].
  destruct (_ || _); [discriminate|].
  destruct indicators; try discriminate; reflexivity.
Qed.

Lemma filterSignal_returns (p : Index.Signal)
  (indicators volume avgVolume higherTF : jsval) :
  is_nullish indicators = false -> is_nullish higherTF = false ->
  exists s, Index.filterSignal p indicators volume avgVolume higherTF = Ok s.
Proof.
  intros Ni Nh. unfold Index.filterSignal.
  rewrite (get_opt_get _ _ Ni), (get_opt_get _ _ Nh). cbn [bind].
  destruct (str_eqb (Index.signal p) (lit "buy")); cbn [bind].
  - destruct (is_str _ _); [eexists; reflexivity|].
    destruct (_ && _); cbn [bind orb]; [eexists; reflexivity|].
    destruct (str_eqb (Index.signal p) (lit "sell")); cbn [bind];
      [destruct (_ && _)|]; eexists; reflexivity.
  - destruct (str_eqb (Index.signal p) (lit "sell")); cbn [bind];
      [destruct (_ && _)|]; eexists; reflexivity.
Qed.

(** X29.  The way of a completion through [index.js].  For a request that
    is not answered from the cache, whose data the validator accepts and
    whose prompt can be built, an ok gateway response with a content is
    read by [parseAIResponse], which does not throw.  When the confidence
    and the explanation it read are values a template can coerce to a
    string, the analysis returns exactly [filterSignal] of what it read;
    that signal is stored under the key of the request with the time of
    the store, and it is the body of the 200 unless the Telegram call is
    rejected.  The symbol, the timeframe, the RSI, the volume and its
    average are taken to be values the templates and the comparisons can
    coerce. *)
Theorem index_completion_is_answered (env0 : Env) (w : Index.World)
  (cache : Index.Cache) (request : Request) (requestData : jsval)
  (cacheKey : jsstring) (ps : list part) (st : Z) (body : jsstring) (v : jsval) :
  str_eqb (method request) (lit "POST") = true ->
  index_authorizes env0 request = true ->
  Index.read_request request = Ok (requestData, cacheKey) ->
  fresh_entry (Index.now_lookup w) cacheKey cache = false ->
  Index.validateTradingData (at1 requestData "ohlc") (at1 requestData "prevCandles")
    (at1 requestData "indicators") (at1 requestData "volume")
    (at1 requestData "avgVolume") = Ok tt ->
  index_prompt_parts requestData = Ok ps ->
  Index.fetch_ai w (render ps) (bearer env0) = Responded true st body ->
  JSON_parse body = Some v ->
  truthy (content_of v) = true ->
  coercible (at1 requestData "symbol") = true ->
  coercible (at1 requestData "timeframe") = true ->
  coercible (at2 requestData "indicators" "rsi") = true ->
  coercible (at1 requestData "volume") = true ->
  coercible (at1 requestData "avgVolume") = true ->
  exists p,
    Index.parseAIResponse (content_of v) = Ok p
    /\ (coercible (Index.confidence p) = true ->
        coercible (Index.explanation p) = true ->
        exists s,
          Index.filterSignal p (at1 requestData "indicators")
            (at1 requestData "volume") (at1 requestData "avgVolume")
            (at1 requestData "higherTF") = Ok s
          /\ Index.analyse env0 w requestData = Ok s
          /\ snd (Index.handleRequest env0 w cache request)
             = Index.cache_set cacheKey
                 {| Index.data := s; Index.timestamp := Index.now_store w |} cache
          /\ (Index.fetch_telegram w
                (render (Index.alertParts w (at1 requestData "symbol")
                           (at1 requestData "timeframe") s)) <> Rejected ->
              fst (Index.handleRequest env0 w cache request)
              = Index.ok_response (Index.Signal_to_js s))).
Proof.
  intros M A R F V P Fe J T _ _ _ _ _.
  destruct (read_request_ok _ R) as (_ & N & _).
  destruct (parseAIResponse_valid (content_of v)) as (p & Ep & _).
  exists p. split; [exact Ep|]. intros _ _.
  destruct (@filterSignal_returns p (at1 requestData "indicators")
              (at1 requestData "volume") (at1 requestData "avgVolume")
              (at1 requestData "higherTF") (validated_indicators _ _ _ _ _ V)
              (@index_prompt_context _ _ P)) as (s & Es).
  exists s. split; [exact Es|].
  assert (An : Index.analyse env0 w requestData = Ok s).
  { unfold Index.analyse, Index.callAI. rewrite !(get_opt_get _ _ N). cbn [bind].
    unfold index_prompt_parts, at1 in *. rewrite V. cbn [bind]. rewrite P.
    cbn [bind]. fold (bearer env0). rewrite Fe. cbn [negb].
    unfold parse_json. rewrite J. cbn [bind]. fold (content_of v). rewrite T.
    cbn [negb try_catch bind]. rewrite Ep. cbn [bind]. exact Es. }
  split; [exact An|].
  rewrite (@index_handle_read _ env0 w cache _ _ _ M A R), F, An. cbn zeta.
  unfold Index.sendTelegramAlert.
  destruct (Index.fetch_telegram w _); split; try reflexivity.
  intros X. contradiction.
Qed.

End GoodCompletion.

(** The sample request under [node] with the gateway answering a buy in
    capitals: the answer is the buy. *)
Lemma completion_is_answered_witness :
  Worker.handle (rt := node) env
    (worker_world (completion buy_reply) Rejected) 0 (post (Some secret) sample)
  = (Ok (Worker.createResponse 200
           (Worker.Signal_to_js
              {| Worker.signal := lit "buy"; Worker.explanation := lit "trend up" |})),
     1793613600000).
Proof.
  destruct (worker_prompt_parts (rt := node) (worker_world (completion buy_reply) Rejected)
              sample) as [ps|e] eqn:P; [|exfalso; vm_compute in P; discriminate P].
  destruct (@completion_is_answered node env
              (worker_world (completion buy_reply) Rejected) 0
              (post (Some secret) sample) sample ps 200
              (Node.JSON_stringify
                 (obj [("choices",
                        JArr [obj [("message",
                                    obj [("content", JStr buy_reply)])]])]%string))
              (obj [("choices",
                     JArr [obj [("message", obj [("content", JStr buy_reply)])]])]%string)
              buy_reply) as (s & E & H).
  - reflexivity.
  - reflexivity.
  - vm_compute. reflexivity.
  - vm_compute. reflexivity.
  - reflexivity.
  - vm_compute. reflexivity.
  - exact P.
  - reflexivity.
  - vm_compute. reflexivity.
  - reflexivity.
  - rewrite H. vm_compute in E. apply Ok_inj in E. subst s. reflexivity.
Defined.

(** The sample request to [index.js] under [node] with the gateway
    answering a buy: analysed as the buy, of medium confidence. *)
Lemma index_completion_is_answered_witness :
  exists s,
    Index.analyse (rt := node) env
      (index_world (completion buy_reply) (Responded true 200 [])) index_sample = Ok s
    /\ Index.signal s = lit "buy"
    /\ Index.confidence s = JStr (lit "medium").
Proof.
  destruct (index_prompt_parts (rt := node) index_sample) as [ps|e] eqn:P;
    [|exfalso; vm_compute in P; discriminate P].
  destruct (@index_completion_is_answered node env
              (index_world (completion buy_reply) (Responded true 200 [])) []
              (post (Some secret) index_sample) index_sample
              (lit "EURUSD-M15-" ++ Node.JSON_stringify (at1 index_sample "ohlc"))
              ps 200
              (Node.JSON_stringify
                 (obj [("choices",
                        JArr [obj [("message",
                                    obj [("content", JStr buy_reply)])]])]%string))
              (obj [("choices",
                     JArr [obj [("message", obj [("content", JStr buy_reply)])]])]%string))
    as (p & Ep & H).
  - reflexivity.
  - vm_compute. reflexivity.
  - vm_compute. reflexivity.
  - reflexivity.
  - vm_compute. reflexivity.
  - exact P.
  - reflexivity.
  - vm_compute. reflexivity.
  - reflexivity.
  - reflexivity.
  - reflexivity.
  - reflexivity.
  - reflexivity.
  - reflexivity.
  - vm_compute in Ep. apply Ok_inj in Ep. subst p.
    destruct (H eq_refl eq_refl) as (s & Es & An & _).
    exists s. split; [exact An|].
    vm_compute in Es. apply Ok_inj in Es. subst s. split; reflexivity.
Defined.

(* ===================================================================== *)
(** * Runs under [node] *)
(* ===================================================================== *)

(** A fenced reply in capitals: the fences go, the signal is lowercased. *)
Example fenced_reply_is_read :
  Worker.tryParseAI (rt := node) reply_fenced
  = Ok {| Worker.signal := lit "buy"; Worker.explanation := lit "x" |}
  /\ Index.parseAIResponse (rt := node) (JStr reply_fenced)
     = Ok {| Index.signal := lit "buy";
             Index.confidence := JStr (lit "medium");
             Index.explanation := JStr (lit "x") |}.
Proof. split; vm_compute; reflexivity. Qed.

(** A buy at an RSI of 75 on average volume is held. *)
Example overbought_buy_is_held :
  Index.filterSignal (rt := node)
    {| Index.signal := lit "buy";
       Index.confidence := JStr (lit "high");
       Index.explanation := JStr (lit "x") |}
    (obj [("rsi", JNum (num_of_Z 75))]%string) one one (d1 "bullish")
  = Ok {| Index.signal := lit "hold";
          Index.confidence := JStr (lit "low");
          Index.explanation :=
            JStr (lit "x (Rejected: Extreme RSI without volume confirmation)") |}.
Proof. vm_compute. reflexivity. Qed.

(** Three requests, the second one second and the third thirteen seconds
    after the first: accepted, refused, accepted. *)
Example cooldown_of_twelve_seconds :
  statuses (rt := node) 0 [1793613600000; 1793613601000; 1793613613000]
  = [200; 429; 200].
Proof. vm_compute. reflexivity. Qed.

(** The session of an hour. *)
Example sessions :
  map Worker.getSessionType [1; 2; 4; 5; 8; 11; 12; 13; 14; 16; 17; 23]
  = map lit ["REGULAR"; "ASIA"; "ASIA"; "REGULAR"; "OVERLAP"; "OVERLAP";
             "REGULAR"; "REGULAR"; "OVERLAP"; "OVERLAP"; "REGULAR"; "REGULAR"]%string.
Proof. vm_compute. reflexivity. Qed.
